(** * ArtisanMarket API: escrow settlement, delivery proofs, payouts, data vault

    A shallow embedding of the settlement core of the marketplace backend:

    - [Js]             the JavaScript values the handlers compute with,
    - [VendorBalance]  the two-pool vendor ledger (models/VendorBalance),
    - [Order]          the order document, its save hooks and escrow methods
                       (models/Order),
    - [Payout], [VendorFunds]  the vendor payout, add-earnings and
                       minimum-payout handlers (routes/userRoutes.js),
    - [DeliveryProof]  the proof document, its review methods and the
                       upload / review handlers,
    - [Admin], [OrderRoutes]  the admin and customer handlers that write to
                       an order,
    - [Lifecycle], [ProofLifecycle], [Reviews]  the operations on an order and
                       on a proof, as steps,
    - [Vault]          encrypt / decrypt and the card-number validator
                       (utils/encryption.js),
    - [Inventory], [OrderNumber]  the stock loops of order creation and
                       cancellation, the order number,
    - [Encryption]     key generation, masking and the expiry check
                       (utils/encryption.js).

    The first part holds the definitions, the second part the properties.

    Conventions.  A JavaScript [Number] is an IEEE 754 double, a primitive
    [float]; amounts of money are dollars, as in the source.  A [Date] is its
    millisecond timestamp in [Z]; an [ObjectId] is its string rendering; text
    is its UTF-8 bytes.  A thrown [Error], and a rejected promise, is the
    [Thrown] outcome.

    [save()] of a Mongoose document runs, in this order: the validation of the
    schema (a built-in pre-save hook registered before the hooks of the
    model), the [pre('save')] hooks, the write, and the [post('save')] hooks,
    at which point [isNew] has been cleared.  A failed validation rejects the
    save: nothing is written and no hook runs.  The database driver itself is
    taken not to fail.  The [createdAt] and [updatedAt] stamps, which every
    save renews, are left out of the documents. *)

From Stdlib Require Import Floats.
From Stdlib Require Import ZArith List String Ascii Strings.Byte Bool Lia.
From Stdlib Require Import DecimalString DecimalN.
From stdpp Require Import gmap strings list fin_maps.

#[local] Set Warnings "-inexact-float".
#[local] Open Scope string_scope.
#[local] Open Scope Z_scope.

Abbreviation ObjectId := string (only parsing).
Abbreviation Date := Z (only parsing).

(** What a call of a method leaves behind: it returned, or it threw. *)
Inductive outcome : Type :=
| Returned
| Thrown (message : string).

(** ** JavaScript numbers and request values *)
Module Js.

(** [!x] on a Number: [0], [-0] and [NaN] are falsy. *)
Definition falsy (x : float) : bool := is_zero x || is_nan x.

(** [!x] where [x] may be [undefined]. *)
Definition falsyNumber (n : option float) : bool :=
  match n with
  | None => true
  | Some v => falsy v
  end.

(** [Math.max(0, x)]: [NaN] for [NaN], and [+0] for [-0]. *)
Definition max0 (x : float) : float :=
  if is_nan x then x else if (0 <? x)%float then x else 0%float.

(** A field of a JSON request body that a handler uses as an amount: a
    number or a string.  The validators of the routes check the form of the
    value and do not convert it, so a string that reads as a number reaches
    the handler as a string.  (A field that is absent, [null], a boolean or an
    object fails those validators; an array is not covered.) *)
Inductive value : Type :=
| Number (x : float)
| Text (s : string).

(** The conversions between strings and numbers, which belong to the
    language and to validator.js: [Number(s)], [String(x)], the test of
    [isFloat] on the form of a string, and [parseFloat(s)]. *)
Class Runtime : Type := {
  toNumber : string -> float;
  numberToString : float -> string;
  isFloatString : string -> bool;
  parseFloat : string -> float
}.

Section Values.
Context `{R : Runtime}.

(** [ToNumber(v)], as the operators [<], [>] and [-] apply it. *)
Definition toNum (v : value) : float :=
  match v with
  | Number x => x
  | Text s => toNumber s
  end.

(** [v < x] and [v > x] for a number [x]; false when a side is [NaN]. *)
Definition lt (v : value) (x : float) : bool := (toNum v <? x)%float.

Definition gt (v : value) (x : float) : bool := (x <? toNum v)%float.

(** [x + v]: the sum for a number, the concatenation for a string. *)
Definition plus (x : float) (v : value) : value :=
  match v with
  | Number y => Number (x + y)%float
  | Text s => Text (numberToString x ++ s)
  end.

(** The cast of a value assigned to a [Number] path of a schema: a string is
    read with [Number(s)], the empty string is stored as [null] ([None]).  A
    cast that fails is the [NaN] it found, which no validation accepts. *)
Definition cast (v : value) : option float :=
  match v with
  | Number x => Some x
  | Text s => if String.eqb s "" then None else Some (toNumber s)
  end.

(** [x += v] on a [Number] path that holds [x]; the rendering of a number is
    never empty, so the cast of the concatenation is a number. *)
Definition plusAssign (x : float) (v : value) : float :=
  match plus x v with
  | Number y => y
  | Text s => toNumber s
  end.

(** [x -= v] on a [Number] path that holds [x]. *)
Definition minusAssign (x : float) (v : value) : float := (x - toNum v)%float.

(** [isFloat({ min, max })] of express-validator on a number or a string.  A
    number is checked through its rendering, which has the form of a float
    exactly when the number is finite and reads back as the same number. *)
Definition isFloat (min : float) (max : option float) (v : value) : bool :=
  let within (x : float) :=
    (min <=? x)%float
    && match max with
       | Some m => (x <=? m)%float
       | None => true
       end in
  match v with
  | Number x => is_finite x && within x
  | Text s => isFloatString s && within (parseFloat s)
  end.

End Values.

End Js.

(** ** The vendor balance ledger *)
Module VendorBalance.

Record t : Type := mk {
  vendor : ObjectId;
  bankAccount : option ObjectId;
  totalEarnings : float;
  availableBalance : float;
  pendingBalance : float;
  totalPayouts : float;
  lastPayout : option Date;
  lastPayoutAmount : option float;
  minimumPayoutAmount : float;
  isActive : bool
}.

(** The collection, keyed by the unique [vendor] field:
    [VendorBalance.findOne({ vendor: id })] is [store !! id]. *)
Abbreviation store := (gmap string t).

(** [min: 0] on a [Number] path: [v >= 0], which [NaN] fails. *)
Definition atLeastZero (x : float) : bool := (0 <=? x)%float.

(** The validation of the schema on the modelled paths: [bankAccount] is
    required, every amount has [min: 0]; a path holding [null] passes [min].
    ([commissionRate], which no handler writes, is not modelled.) *)
Definition validate (b : t) : bool :=
  match bankAccount b with
  | Some _ => true
  | None => false
  end
  && atLeastZero (totalEarnings b)
  && atLeastZero (availableBalance b)
  && atLeastZero (pendingBalance b)
  && atLeastZero (totalPayouts b)
  && match lastPayoutAmount b with
     | Some a => atLeastZero a
     | None => true
     end
  && atLeastZero (minimumPayoutAmount b).

Definition validationFailed : string := "VendorBalance validation failed".

(** [this.save()]: the document to write, or [None] when validation rejects
    it.  The model has no hooks. *)
Definition save (b : t) : option t := if validate b then Some b else None.

(** What a method that ends in [return this.save()] leaves: the outcome of
    the call and the document in memory. *)
Definition saved (b : t) : outcome * t :=
  match save b with
  | Some b' => (Returned, b')
  | None => (Thrown validationFailed, b)
  end.

Section Methods.
Context `{R : Js.Runtime}.

Definition addEarnings (amount : Js.value) (b : t) : outcome * t :=
  saved
    (mk (vendor b) (bankAccount b)
        (Js.plusAssign (totalEarnings b) amount)
        (Js.plusAssign (availableBalance b) amount)
        (pendingBalance b) (totalPayouts b) (lastPayout b) (lastPayoutAmount b)
        (minimumPayoutAmount b) (isActive b)).

Definition processPayout (now : Date) (amount : Js.value) (b : t) : outcome * t :=
  if Js.gt amount (availableBalance b)
  then (Thrown "Insufficient balance for payout", b)
  else
    saved
      (mk (vendor b) (bankAccount b) (totalEarnings b)
          (Js.minusAssign (availableBalance b) amount)
          (pendingBalance b)
          (Js.plusAssign (totalPayouts b) amount)
          (Some now)
          (Js.cast amount)
          (minimumPayoutAmount b) (isActive b)).

End Methods.

(** The three assignments of the release loop of [Order.releaseEscrow]. *)
Definition creditRelease (amount : float) (b : t) : t :=
  mk (vendor b) (bankAccount b)
     (totalEarnings b + amount)%float
     (availableBalance b + amount)%float
     (Js.max0 (pendingBalance b - amount)%float)
     (totalPayouts b) (lastPayout b) (lastPayoutAmount b)
     (minimumPayoutAmount b) (isActive b).

(** The assignment of the loop of [Order.addToVendorPending]. *)
Definition creditPending (amount : float) (b : t) : t :=
  mk (vendor b) (bankAccount b) (totalEarnings b) (availableBalance b)
     (pendingBalance b + amount)%float
     (totalPayouts b) (lastPayout b) (lastPayoutAmount b)
     (minimumPayoutAmount b) (isActive b).

End VendorBalance.

(** ** The order document *)
Module Order.

Inductive Status : Type := pending | processing | shipped | delivered | cancelled.
Inductive EscrowStatus : Type := held | released | refunded.
Inductive PaymentStatus : Type := paymentPending | completed | failed | paymentRefunded.
Inductive ShippingMethod : Type := free | standard | express.

Definition escrowStatus_eqb (a b : EscrowStatus) : bool :=
  match a, b with
  | held, held | released, released | refunded, refunded => true
  | _, _ => false
  end.

Definition paymentStatus_eqb (a b : PaymentStatus) : bool :=
  match a, b with
  | paymentPending, paymentPending | completed, completed
  | failed, failed | paymentRefunded, paymentRefunded => true
  | _, _ => false
  end.

Definition status_eqb (a b : Status) : bool :=
  match a, b with
  | pending, pending | processing, processing | shipped, shipped
  | delivered, delivered | cancelled, cancelled => true
  | _, _ => false
  end.

Record Item : Type := mkItem {
  product : ObjectId;
  quantity : float;
  price : float;
  vendor : ObjectId
}.

(** [isNew] is the document flag the hooks read as [this.isNew];
    [escrowAmount] is [None] on a document that has no such field. *)
Record t : Type := mk {
  isNew : bool;
  orderNumber : string;
  customer : ObjectId;
  items : list Item;
  shippingMethod : ShippingMethod;
  status : Status;
  escrowStatus : EscrowStatus;
  escrowAmount : option float;
  escrowReleaseDate : option Date;
  deliveryProof : option ObjectId;
  subtotal : float;
  shippingCost : float;
  tax : float;
  total : float;
  estimatedDelivery : option Date;
  trackingNumber : option string;
  trackingUrl : option string;
  paymentStatus : PaymentStatus
}.

Definition setStatus (s : Status) (o : t) : t :=
  mk (isNew o) (orderNumber o) (customer o) (items o) (shippingMethod o)
     s (escrowStatus o) (escrowAmount o) (escrowReleaseDate o)
     (deliveryProof o) (subtotal o) (shippingCost o) (tax o) (total o)
     (estimatedDelivery o) (trackingNumber o) (trackingUrl o) (paymentStatus o).

Definition setEscrow (e : EscrowStatus) (d : option Date) (o : t) : t :=
  mk (isNew o) (orderNumber o) (customer o) (items o) (shippingMethod o)
     (status o) e (escrowAmount o) d
     (deliveryProof o) (subtotal o) (shippingCost o) (tax o) (total o)
     (estimatedDelivery o) (trackingNumber o) (trackingUrl o) (paymentStatus o).

Definition setEscrowAmount (a : option float) (o : t) : t :=
  mk (isNew o) (orderNumber o) (customer o) (items o) (shippingMethod o)
     (status o) (escrowStatus o) a (escrowReleaseDate o)
     (deliveryProof o) (subtotal o) (shippingCost o) (tax o) (total o)
     (estimatedDelivery o) (trackingNumber o) (trackingUrl o) (paymentStatus o).

Definition setEstimatedDelivery (d : option Date) (o : t) : t :=
  mk (isNew o) (orderNumber o) (customer o) (items o) (shippingMethod o)
     (status o) (escrowStatus o) (escrowAmount o) (escrowReleaseDate o)
     (deliveryProof o) (subtotal o) (shippingCost o) (tax o) (total o)
     d (trackingNumber o) (trackingUrl o) (paymentStatus o).

Definition setDeliveryProof (p : option ObjectId) (o : t) : t :=
  mk (isNew o) (orderNumber o) (customer o) (items o) (shippingMethod o)
     (status o) (escrowStatus o) (escrowAmount o) (escrowReleaseDate o)
     p (subtotal o) (shippingCost o) (tax o) (total o)
     (estimatedDelivery o) (trackingNumber o) (trackingUrl o) (paymentStatus o).

(** The document once it has been written: no longer new. *)
Definition persisted (o : t) : t :=
  mk false (orderNumber o) (customer o) (items o) (shippingMethod o)
     (status o) (escrowStatus o) (escrowAmount o) (escrowReleaseDate o)
     (deliveryProof o) (subtotal o) (shippingCost o) (tax o) (total o)
     (estimatedDelivery o) (trackingNumber o) (trackingUrl o) (paymentStatus o).

Definition setTracking (n u : option string) (o : t) : t :=
  mk (isNew o) (orderNumber o) (customer o) (items o) (shippingMethod o)
     (status o) (escrowStatus o) (escrowAmount o) (escrowReleaseDate o)
     (deliveryProof o) (subtotal o) (shippingCost o) (tax o) (total o)
     (estimatedDelivery o) n u (paymentStatus o).

(** *** Grouping the line items by vendor

    [vendorAmounts] is the object built by the [forEach] of [releaseEscrow]
    and [addToVendorPending]: string keys in insertion order, which is the
    order [Object.entries] walks them in (the rendering of an ObjectId is no
    array index). *)
Abbreviation amounts := (list (string * float)).

Definition itemTotal (item : Item) : float := (price item * quantity item)%float.

(** One iteration: [if (!acc[id]) acc[id] = 0; acc[id] += itemTotal].
    A present entry that is [0] or [NaN] is falsy and is reset to [0]. *)
Fixpoint addAmount (vendorId : string) (amount : float) (acc : amounts) : amounts :=
  match acc with
  | [] => [(vendorId, (0 + amount)%float)]
  | (k, a) :: rest =>
      if String.eqb k vendorId
      then (k, ((if Js.falsy a then 0 else a) + amount)%float) :: rest
      else (k, a) :: addAmount vendorId amount rest
  end.

Definition vendorAmounts (its : list Item) : amounts :=
  fold_left (fun acc item => addAmount (vendor item) (itemTotal item) acc) its [].

(** *** Validation

    The constraints of the schema on the modelled paths: [orderNumber] is
    required (an empty string does not count), [escrowAmount], [subtotal],
    [shippingCost], [tax] and [total] are required with [min: 0], every line
    item has [quantity] of at least 1 and [price] of at least 0.  The paths the
    model leaves out ([shippingAddress], [paymentMethod], [orderNotes]) are
    taken to pass. *)
Definition validItem (item : Item) : bool :=
  (1 <=? quantity item)%float && (0 <=? price item)%float.

Definition validate (o : t) : bool :=
  negb (String.eqb (orderNumber o) "")
  && forallb validItem (items o)
  && match escrowAmount o with
     | Some a => (0 <=? a)%float
     | None => false
     end
  && (0 <=? subtotal o)%float
  && (0 <=? shippingCost o)%float
  && (0 <=? tax o)%float
  && (0 <=? total o)%float.

Definition validationFailed : string := "Order validation failed".

(** *** Save hooks *)

Definition deliveryDays (m : ShippingMethod) : Z :=
  match m with
  | free => 10
  | standard => 5
  | express => 2
  end.

Definition msPerDay : Z := 24 * 60 * 60 * 1000.

(** The second [pre('save')] hook: estimated delivery and escrow amount.
    (The estimated date is taken as a whole number of days after [now].) *)
Definition preSave (now : Date) (o : t) : t :=
  let o1 :=
    if isNew o && negb (bool_decide (is_Some (estimatedDelivery o)))
    then setEstimatedDelivery (Some (now + deliveryDays (shippingMethod o) * msPerDay)) o
    else o in
  if isNew o1 && Js.falsyNumber (escrowAmount o1)
  then setEscrowAmount (Some (total o1)) o1
  else o1.

(** The loop of [addToVendorPending] over the entries: a vendor without a
    balance document is passed over; a balance whose save is rejected ends
    the loop with the rejection, the balances written before it staying
    written. *)
Fixpoint pendingLoop (entries : amounts) (s : VendorBalance.store)
  : outcome * VendorBalance.store :=
  match entries with
  | [] => (Returned, s)
  | (vendorId, amount) :: rest =>
      match s !! vendorId with
      | Some vendorBalance =>
          match VendorBalance.save (VendorBalance.creditPending amount vendorBalance) with
          | Some b' => pendingLoop rest (<[vendorId := b']> s)
          | None => (Thrown VendorBalance.validationFailed, s)
          end
      | None => pendingLoop rest s
      end
  end.

Definition addToVendorPending (o : t) (s : VendorBalance.store)
  : outcome * VendorBalance.store :=
  match escrowStatus o with
  | held => pendingLoop (vendorAmounts (items o)) s
  | _ => (Returned, s)
  end.

(** The [post('save')] hook, on the document as it is when the hook runs;
    what [addToVendorPending] throws is caught and logged. *)
Definition postSave (o : t) (s : VendorBalance.store) : VendorBalance.store :=
  if isNew o && escrowStatus_eqb (escrowStatus o) held
     && paymentStatus_eqb (paymentStatus o) completed
  then snd (addToVendorPending o s)
  else s.

(** [this.save()]: validation, the pre-save hook, the write, which clears
    [isNew], and the post-save hook on the written document.  The first
    [pre('save')] hook of the model, [OrderNumber.preSave], acts on a new
    document without an order number only, which validation has rejected by
    then.  [written] is the document that is written, [None] when validation
    rejects it; [save] gives the outcome, the document in memory and the
    balances. *)
Definition written (now : Date) (o : t) : option t :=
  if validate o then Some (persisted (preSave now o)) else None.

Definition save (now : Date) (o : t) (s : VendorBalance.store)
  : outcome * t * VendorBalance.store :=
  match written now o with
  | Some o1 => (Returned, o1, postSave o1 s)
  | None => (Thrown validationFailed, o, s)
  end.

(** The order in the database after a call on the document [before] was
    loaded as: what the call has saved, or [before] when it threw. *)
Definition stored (before : t) (r : outcome * t * VendorBalance.store)
  : t * VendorBalance.store :=
  match r with
  | (Returned, o', s') => (o', s')
  | (Thrown _, _, s') => (before, s')
  end.

(** *** Instance methods *)

Definition updateStatus (now : Date) (newStatus : Status) (o : t)
    (s : VendorBalance.store) : outcome * t * VendorBalance.store :=
  save now (setStatus newStatus o) s.

Definition addTracking (now : Date) (number url : option string) (o : t)
    (s : VendorBalance.store) : outcome * t * VendorBalance.store :=
  save now (setStatus shipped (setTracking number url o)) s.

(** The loop of [releaseEscrow] over the entries, as [pendingLoop]. *)
Fixpoint releaseLoop (entries : amounts) (s : VendorBalance.store)
  : outcome * VendorBalance.store :=
  match entries with
  | [] => (Returned, s)
  | (vendorId, amount) :: rest =>
      match s !! vendorId with
      | Some vendorBalance =>
          match VendorBalance.save (VendorBalance.creditRelease amount vendorBalance) with
          | Some b' => releaseLoop rest (<[vendorId := b']> s)
          | None => (Thrown VendorBalance.validationFailed, s)
          end
      | None => releaseLoop rest s
      end
  end.

Definition releaseEscrow (now : Date) (o : t) (s : VendorBalance.store)
  : outcome * t * VendorBalance.store :=
  match escrowStatus o with
  | held =>
      let o1 := setEscrow released (Some now) o in
      match releaseLoop (vendorAmounts (items o1)) s with
      | (Returned, s1) => save now o1 s1
      | (Thrown message, s1) => (Thrown message, o1, s1)
      end
  | _ => (Thrown "Escrow funds are not held", o, s)
  end.

(** *** What the claims call a vendor's share

    Written from the words of the specification, to be compared with
    [vendorAmounts]: the sum of price times quantity over the vendor's own
    line items, added up from 0 in the order of the items. *)
Definition represented (v : string) (its : list Item) : bool :=
  existsb (fun item => String.eqb (vendor item) v) its.

Definition share (v : string) (its : list Item) : float :=
  fold_left
    (fun sum item =>
       if String.eqb (vendor item) v
       then (sum + price item * quantity item)%float
       else sum)
    its 0%float.

(** A sum the grouping loop carries on from: not [NaN], and not a zero
    other than [+0]. *)
Definition carriedOn (sum : float) : bool :=
  negb (Js.falsy sum) || PrimFloat.Leibniz.eqb sum 0%float.

(** Every running sum of the vendor's line totals is carried on. *)
Fixpoint plainSums (v : string) (its : list Item) (sum : float) : bool :=
  match its with
  | [] => true
  | item :: rest =>
      if String.eqb (vendor item) v
      then carriedOn sum && plainSums v rest (sum + price item * quantity item)%float
      else plainSums v rest sum
  end.

(** The amounts of a grouping added up, from 0, in their order. *)
Definition sumAmounts (l : amounts) : float :=
  fold_left (fun sum entry => (sum + snd entry)%float) l 0%float.

Fixpoint lookupAmount (v : string) (l : amounts) : option float :=
  match l with
  | [] => None
  | (k, a) :: rest => if String.eqb k v then Some a else lookupAmount v rest
  end.

(** How [escrowStatus] may differ between two states of an order. *)
Definition escrowAdvance (before after : EscrowStatus) : Prop :=
  after = before \/ (before = held /\ after = released).

End Order.

(** ** Bank accounts, as far as the payout handler reads them *)
Module BankAccount.

Record t : Type := mk {
  user : ObjectId;
  accountType : string;
  cardHolderName : string;
  bankName : string;
  isActive : bool
}.

End BankAccount.

(** ** The vendor payout request: POST /payout *)
Module Payout.

(** [amount] is the body field as it was sent, [None] when it is absent or
    no number and no string; [descriptionLength] is the length that
    [isLength] finds for the description after the [trim()] sanitizer, [None]
    when the request has no description. *)
Record Request : Type := mkRequest {
  userId : ObjectId;
  role : string;
  amount : option Js.value;
  descriptionLength : option nat
}.

(** The collections the handler queries: [Vendor] by its [user] field,
    [VendorBalance] by [vendor], [BankAccount] by [_id]. *)
Record Db : Type := mkDb {
  vendors : gmap string ObjectId;
  balances : gmap string VendorBalance.t;
  bankAccounts : gmap string BankAccount.t
}.

Inductive Response : Type :=
| ValidationFailed                       (* 400 'Validation failed' *)
| OnlyVendors                            (* 403 *)
| VendorProfileNotFound                  (* 404 *)
| VendorBalanceNotFound                  (* 404 *)
| NoBankAccount                          (* 400 *)
| BankAccountNotActive                   (* 400 *)
| BelowMinimum (minimum : float)         (* 400 'Minimum payout amount is $..' *)
| InsufficientAvailableBalance           (* 400 *)
| PayoutProcessed (amount : Js.value) (newBalance : VendorBalance.t)   (* 200 *)
| PayoutFailed (message : string).       (* 500 'Failed to process payout' *)

Definition statusCode (r : Response) : Z :=
  match r with
  | ValidationFailed | NoBankAccount | BankAccountNotActive
  | BelowMinimum _ | InsufficientAvailableBalance => 400
  | OnlyVendors => 403
  | VendorProfileNotFound | VendorBalanceNotFound => 404
  | PayoutProcessed _ _ => 200
  | PayoutFailed _ => 500
  end.

Definition succeeded (r : Response) : bool :=
  match r with
  | PayoutProcessed _ _ => true
  | _ => false
  end.

Section Handler.
Context `{R : Js.Runtime}.

(** [body('amount').isFloat({ min, max })] and
    [body('description').optional().trim().isLength({ max: 200 })]: the
    amount of a request without validation errors. *)
Definition validAmount (min : float) (max : option float) (req : Request)
  : option Js.value :=
  match amount req with
  | Some v =>
      if Js.isFloat min max v
         && match descriptionLength req with
            | Some n => (n <=? 200)%nat
            | None => true
            end
      then Some v
      else None
  | None => None
  end.

Definition requestPayout (now : Date) (req : Request) (db : Db) : Response * Db :=
  match validAmount 10.00 None req with
  | None => (ValidationFailed, db)
  | Some amount =>
    if negb (String.eqb (role req) "vendor") then (OnlyVendors, db) else
    match vendors db !! userId req with
    | None => (VendorProfileNotFound, db)
    | Some vendorId =>
      match balances db !! vendorId with
      | None => (VendorBalanceNotFound, db)
      | Some vendorBalance =>
        match VendorBalance.bankAccount vendorBalance with
        | None => (NoBankAccount, db)
        | Some accountId =>
          match bankAccounts db !! accountId with
          | None => (BankAccountNotActive, db)
          | Some account =>
            if negb (BankAccount.isActive account) then (BankAccountNotActive, db) else
            if Js.lt amount (VendorBalance.minimumPayoutAmount vendorBalance)
            then (BelowMinimum (VendorBalance.minimumPayoutAmount vendorBalance), db) else
            if Js.gt amount (VendorBalance.availableBalance vendorBalance)
            then (InsufficientAvailableBalance, db) else
            match VendorBalance.processPayout now amount vendorBalance with
            | (Returned, b') =>
                (PayoutProcessed amount b',
                 mkDb (vendors db) (<[vendorId := b']> (balances db)) (bankAccounts db))
            | (Thrown message, _) => (PayoutFailed message, db)
            end
          end
        end
      end
    end
  end.

(** The balance that [processPayout] saves, written out. *)
Definition paidOut (now : Date) (amount : Js.value) (b : VendorBalance.t)
  : VendorBalance.t :=
  VendorBalance.mk (VendorBalance.vendor b) (VendorBalance.bankAccount b)
    (VendorBalance.totalEarnings b)
    (Js.minusAssign (VendorBalance.availableBalance b) amount)
    (VendorBalance.pendingBalance b)
    (Js.plusAssign (VendorBalance.totalPayouts b) amount)
    (Some now) (Js.cast amount)
    (VendorBalance.minimumPayoutAmount b) (VendorBalance.isActive b).

End Handler.

End Payout.

(** ** The other vendor balance handlers: POST /add-earnings, PUT /minimum-payout *)
Module VendorFunds.

(** [BankAccount.findOne({ user: id })], over a collection keyed by [_id];
    [user] is a unique field. *)
Definition findAccountByUser (userId : ObjectId) (accounts : gmap string BankAccount.t)
  : option (ObjectId * BankAccount.t) :=
  snd <$> list_find (fun entry => BankAccount.user (snd entry) = userId)
                    (map_to_list accounts).

(** [new VendorBalance({ vendor, bankAccount })] with the schema defaults. *)
Definition newBalance (vendorId accountId : ObjectId) : VendorBalance.t :=
  VendorBalance.mk vendorId (Some accountId) 0 0 0 0 None (Some 0%float) 10.00 true.

Inductive EarningsResponse : Type :=
| EarningsValidationFailed       (* 400 *)
| EarningsOnlyVendors            (* 403 *)
| EarningsVendorNotFound         (* 404 *)
| EarningsNoBankAccount          (* 400 *)
| EarningsAdded (amount : Js.value) (newBalance : VendorBalance.t)   (* 200 *)
| EarningsFailed.                (* 500 'Failed to add earnings' *)

Record MinimumRequest : Type := mkMinimum {
  userId : ObjectId;
  role : string;
  minimumPayoutAmount : option Js.value
}.

Inductive MinimumResponse : Type :=
| MinimumValidationFailed        (* 400 *)
| MinimumOnlyVendors             (* 403 *)
| MinimumVendorNotFound          (* 404 *)
| MinimumBalanceNotFound         (* 404 *)
| MinimumUpdated (minimum : float)   (* 200 *)
| MinimumFailed.                 (* 500 'Failed to update minimum payout amount' *)

(** [vendorBalance.minimumPayoutAmount = m], through the cast of the path; a
    string that passed the validator is not empty. *)
Definition setMinimum (m : float) (b : VendorBalance.t) : VendorBalance.t :=
  VendorBalance.mk (VendorBalance.vendor b) (VendorBalance.bankAccount b)
    (VendorBalance.totalEarnings b) (VendorBalance.availableBalance b)
    (VendorBalance.pendingBalance b) (VendorBalance.totalPayouts b)
    (VendorBalance.lastPayout b) (VendorBalance.lastPayoutAmount b)
    m (VendorBalance.isActive b).

Section Handlers.
Context `{R : Js.Runtime}.

(** POST /add-earnings; the validator is [isFloat({ min: 0.01 })]. *)
Definition addEarnings (req : Payout.Request) (db : Payout.Db)
  : EarningsResponse * Payout.Db :=
  match Payout.validAmount 0.01 None req with
  | None => (EarningsValidationFailed, db)
  | Some amount =>
    if negb (String.eqb (Payout.role req) "vendor") then (EarningsOnlyVendors, db) else
    match Payout.vendors db !! Payout.userId req with
    | None => (EarningsVendorNotFound, db)
    | Some vendorId =>
        let found :=
          match Payout.balances db !! vendorId with
          | Some vendorBalance => Some vendorBalance
          | None =>
              match findAccountByUser (Payout.userId req) (Payout.bankAccounts db) with
              | Some (accountId, _) => Some (newBalance vendorId accountId)
              | None => None
              end
          end in
        match found with
        | None => (EarningsNoBankAccount, db)
        | Some vendorBalance =>
            match VendorBalance.addEarnings amount vendorBalance with
            | (Returned, b') =>
                (EarningsAdded amount b',
                 Payout.mkDb (Payout.vendors db) (<[vendorId := b']> (Payout.balances db))
                   (Payout.bankAccounts db))
            | (Thrown _, _) => (EarningsFailed, db)
            end
        end
    end
  end.

(** PUT /minimum-payout; the validator is
    [isFloat({ min: 1.00, max: 1000.00 })]. *)
Definition updateMinimum (req : MinimumRequest) (db : Payout.Db)
  : MinimumResponse * Payout.Db :=
  match minimumPayoutAmount req with
  | None => (MinimumValidationFailed, db)
  | Some m =>
    if negb (Js.isFloat 1.00 (Some 1000.00%float) m) then (MinimumValidationFailed, db) else
    if negb (String.eqb (role req) "vendor") then (MinimumOnlyVendors, db) else
    match Payout.vendors db !! userId req with
    | None => (MinimumVendorNotFound, db)
    | Some vendorId =>
        match Payout.balances db !! vendorId with
        | None => (MinimumBalanceNotFound, db)
        | Some vendorBalance =>
            match VendorBalance.saved (setMinimum (Js.toNum m) vendorBalance) with
            | (Returned, b') =>
                (MinimumUpdated (VendorBalance.minimumPayoutAmount b'),
                 Payout.mkDb (Payout.vendors db) (<[vendorId := b']> (Payout.balances db))
                   (Payout.bankAccounts db))
            | (Thrown _, _) => (MinimumFailed, db)
            end
        end
    end
  end.

(** What a payout request keeps of a balance it may have written: it
    passes validation, and the fields that a payout does not touch are what
    they were. *)
Definition paidFrom (b b' : VendorBalance.t) : Prop :=
  VendorBalance.validate b' = true /\
  VendorBalance.pendingBalance b' = VendorBalance.pendingBalance b /\
  VendorBalance.totalEarnings b' = VendorBalance.totalEarnings b /\
  VendorBalance.minimumPayoutAmount b' = VendorBalance.minimumPayoutAmount b /\
  VendorBalance.bankAccount b' = VendorBalance.bankAccount b.

(** A series of payout requests, each at its own time. *)
Definition payouts (requests : list (Date * Payout.Request)) (db : Payout.Db) : Payout.Db :=
  fold_left (fun db r => snd (Payout.requestPayout (fst r) (snd r) db)) requests db.

End Handlers.

End VendorFunds.
(** ** The sensitive data vault: utils/encryption.js

    A JavaScript string is modelled by its UTF-8 encoding, one [ascii] per
    byte, so text outside ASCII is a string of several bytes per character
    and the ['utf8'] conversions of the cipher calls are the identity on it. *)
Module Vault.

(** What the functions take and give: [null] or a string. *)
Inductive value : Type :=
| Null
| Str (s : string).

Inductive result : Type :=
| Value (v : value)
| Failed (message : string).

(** Node's [aes-256-cbc] cipher and decipher, [update] followed by [final],
    as an interface: [None] is a thrown error (bad key or IV length, bad
    padding).  The law is the contract of the cipher: with a 32-byte key and
    a 16-byte IV, what was encrypted decrypts to itself, and a ciphertext
    is never empty (a whole padding block at least). *)
Class AesCbc : Type := {
  cbcEncrypt : list byte -> list byte -> list byte -> option (list byte);
  cbcDecrypt : list byte -> list byte -> list byte -> option (list byte);
  cbcDecrypt_encrypt : forall key iv plain,
    length key = 32%nat -> length iv = 16%nat ->
    exists cipher,
      cbcEncrypt key iv plain = Some cipher /\
      cipher <> [] /\
      cbcDecrypt key iv cipher = Some plain
}.

(** *** Hexadecimal, as [Buffer] writes and reads it *)

Definition hexDigit (n : N) : ascii :=
  match n with
  | 0%N => "0" | 1%N => "1" | 2%N => "2" | 3%N => "3"
  | 4%N => "4" | 5%N => "5" | 6%N => "6" | 7%N => "7"
  | 8%N => "8" | 9%N => "9" | 10%N => "a" | 11%N => "b"
  | 12%N => "c" | 13%N => "d" | 14%N => "e" | _ => "f"
  end%char.

Definition byteToHex (b : byte) : string :=
  String (hexDigit (Byte.to_N b / 16)) (String (hexDigit (Byte.to_N b mod 16)) "").

(** [buffer.toString('hex')]: two lower-case digits per byte. *)
Fixpoint toHex (bytes : list byte) : string :=
  match bytes with
  | [] => ""
  | b :: rest => (byteToHex b ++ toHex rest)%string
  end.

Definition hexValue (c : ascii) : option N :=
  let n := N_of_ascii c in
  if ((48 <=? n) && (n <=? 57))%N then Some (n - 48)%N
  else if ((97 <=? n) && (n <=? 102))%N then Some (n - 87)%N
  else if ((65 <=? n) && (n <=? 70))%N then Some (n - 55)%N
  else None.

(** [Buffer.from(s, 'hex')]: pairs of digits of either case, cut at the
    first pair that is not two digits; an odd last character is dropped. *)
Fixpoint fromHex (s : string) : list byte :=
  match s with
  | String a (String b rest) =>
      match hexValue a, hexValue b with
      | Some high, Some low =>
          match Byte.of_N (16 * high + low) with
          | Some x => x :: fromHex rest
          | None => []
          end
      | _, _ => []
      end
  | _ => []
  end.

(** [s.split(sep)] for a one-character separator. *)
Fixpoint splitOn (sep : ascii) (s : string) : list string :=
  match s with
  | EmptyString => [""]
  | String c rest =>
      if Ascii.eqb c sep then "" :: splitOn sep rest
      else
        match splitOn sep rest with
        | piece :: pieces => String c piece :: pieces
        | [] => [String c ""]
        end
  end.

Definition isEmpty (s : string) : bool :=
  match s with
  | EmptyString => true
  | String _ _ => false
  end.

(** The start-up check of the module: the key must be present and 64
    characters long, or the process exits. *)
Definition keyLoads (ENCRYPTION_KEY : option string) : bool :=
  match ENCRYPTION_KEY with
  | Some key => (String.length key =? 64)%nat
  | None => false
  end.

Definition isHexChar (c : ascii) : bool :=
  match hexValue c with
  | Some _ => true
  | None => false
  end.

Fixpoint allChars (p : ascii -> bool) (s : string) : bool :=
  match s with
  | EmptyString => true
  | String c rest => p c && allChars p rest
  end.

(** [key && key.length === 64 && /^[0-9a-fA-F]+$/.test(key)] *)
Definition isValidEncryptionKey (key : string) : bool :=
  negb (isEmpty key) && (String.length key =? 64)%nat && allChars isHexChar key.

(** [iv] is the value of [crypto.randomBytes(IV_LENGTH)] in this call. *)
Definition encrypt `{C : AesCbc} (ENCRYPTION_KEY : string) (iv : list byte) (text : value)
  : result :=
  match text with
  | Null => Value Null
  | Str plain =>
      if isEmpty plain then Value Null
      else
        match cbcEncrypt (fromHex ENCRYPTION_KEY) iv (list_byte_of_string plain) with
        | Some encrypted => Value (Str (toHex iv ++ ":" ++ toHex encrypted)%string)
        | None => Failed "Encryption failed"
        end
  end.

Definition decrypt `{C : AesCbc} (ENCRYPTION_KEY : string) (encryptedText : value) : result :=
  match encryptedText with
  | Null => Value Null
  | Str text =>
      if isEmpty text then Value Null
      else
        match splitOn ":" text with
        | ivHex :: encryptedData :: _ =>
            if isEmpty ivHex || isEmpty encryptedData
            then Failed "Decryption failed"
            else
              match cbcDecrypt (fromHex ENCRYPTION_KEY) (fromHex ivHex)
                      (fromHex encryptedData) with
              | Some decrypted => Value (Str (string_of_list_byte decrypted))
              | None => Failed "Decryption failed"
              end
        | _ => Failed "Decryption failed"
        end
  end.

(** [decrypt(encrypt(text))]: an error thrown by [encrypt] propagates. *)
Definition decryptEncrypted `{C : AesCbc} (ENCRYPTION_KEY : string) (iv : list byte)
    (text : value) : result :=
  match encrypt ENCRYPTION_KEY iv text with
  | Value v => decrypt ENCRYPTION_KEY v
  | Failed message => Failed message
  end.

(** Altering the character at one position of a string. *)
Fixpoint alterAt (i : nat) (f : ascii -> ascii) (s : string) : string :=
  match s, i with
  | EmptyString, _ => EmptyString
  | String c rest, O => String (f c) rest
  | String c rest, S j => String c (alterAt j f rest)
  end.

(** The upper-case form of a hexadecimal letter; other characters stay. *)
Definition upperHex (c : ascii) : ascii :=
  let n := N_of_ascii c in
  if ((97 <=? n) && (n <=? 102))%N then ascii_of_N (n - 32) else c.

(** *** Card numbers *)

Definition code (c : ascii) : N := N_of_ascii c.

(** The one-byte members of the [\s] class: tab, line feed, vertical tab,
    form feed, carriage return, space. *)
Definition asciiSpace (a : ascii) : bool :=
  ((9 <=? code a) && (code a <=? 13) || (code a =? 32))%N.

(** U+00A0. *)
Definition twoByteSpace (a b : ascii) : bool :=
  ((code a =? 194) && (code b =? 160))%N.

(** U+1680, U+2000 to U+200A, U+2028, U+2029, U+202F, U+205F, U+3000, U+FEFF. *)
Definition threeByteSpace (a b c : ascii) : bool :=
  ((code a =? 225) && (code b =? 154) && (code c =? 128)
   || (code a =? 226) && (code b =? 128)
      && ((128 <=? code c) && (code c <=? 138)
          || (code c =? 168) || (code c =? 169) || (code c =? 175))
   || (code a =? 226) && (code b =? 129) && (code c =? 159)
   || (code a =? 227) && (code b =? 128) && (code c =? 128)
   || (code a =? 239) && (code b =? 187) && (code c =? 191))%N.

(** [s.replace(/\s+/g, '')] *)
Fixpoint removeWhitespace (s : string) : string :=
  match s with
  | EmptyString => EmptyString
  | String a r1 =>
      if asciiSpace a then removeWhitespace r1
      else
        match r1 with
        | EmptyString => String a EmptyString
        | String b r2 =>
            if twoByteSpace a b then removeWhitespace r2
            else
              match r2 with
              | EmptyString => String a (removeWhitespace r1)
              | String c r3 =>
                  if threeByteSpace a b c then removeWhitespace r3
                  else String a (removeWhitespace r1)
              end
        end
  end.

(** [s.replace(/-/g, '')] *)
Fixpoint removeDashes (s : string) : string :=
  match s with
  | EmptyString => EmptyString
  | String c rest =>
      if Ascii.eqb c "-" then removeDashes rest else String c (removeDashes rest)
  end.

Definition cleanNumber (cardNumber : string) : string :=
  removeDashes (removeWhitespace cardNumber).

Definition isDigit (c : ascii) : bool := ((48 <=? code c) && (code c <=? 57))%N.

(** [/^\d{13,19}$/.test(s)] *)
Definition isCardDigits (s : string) : bool :=
  allChars isDigit s && (13 <=? String.length s)%nat && (String.length s <=? 19)%nat.

Definition testCardNumbers : list string :=
  [ "4111111111111111"; "4242424242424242"; "4000056655665556";
    "5555555555554444"; "2223003122003222"; "5200828282828210";
    "5105105105105100"; "378282246310005"; "371449635398431";
    "6011111111111117"; "6011000990139424"; "3056930009020004";
    "3566002020360505"; "6200000000000005" ].

(** The condition of the allow-list branch:
    [process.env.NODE_ENV === 'development' && testCardNumbers.includes(clean)]. *)
Definition testCardAllowed (NODE_ENV : option string) (clean : string) : bool :=
  match NODE_ENV with
  | Some env => String.eqb env "development"
  | None => false
  end
  && existsb (String.eqb clean) testCardNumbers.

(** [parseInt] of a digit character. *)
Definition digitOf (c : ascii) : Z := Z.of_N (code c) - 48.

(** The loop, over the characters from the last to the first. *)
Fixpoint luhnLoop (fromRight : list ascii) (isEven : bool) (sum : Z) : Z :=
  match fromRight with
  | [] => sum
  | c :: rest =>
      let digit := digitOf c in
      let digit :=
        if isEven
        then (let doubled := digit * 2 in if 9 <? doubled then doubled - 9 else doubled)
        else digit in
      luhnLoop rest (negb isEven) (sum + digit)
  end.

Definition luhnValid (clean : string) : bool :=
  luhnLoop (rev (list_ascii_of_string clean)) false 0 mod 10 =? 0.

Definition validateCardNumber (NODE_ENV : option string) (cardNumber : string) : bool :=
  if isEmpty cardNumber then false
  else
    let clean := cleanNumber cardNumber in
    if negb (isCardDigits clean) then false
    else if testCardAllowed NODE_ENV clean then true
    else luhnValid clean.

(** *** The checksum in the words of the specification

    Double every second digit from the rightmost, subtract 9 if the doubled
    digit exceeds 9, and require the sum to be 0 modulo 10. *)
Definition luhnDigit (position : nat) (digit : Z) : Z :=
  if Nat.odd position
  then (if 9 <? 2 * digit then 2 * digit - 9 else 2 * digit)
  else digit.

Fixpoint luhnSum (position : nat) (fromRight : list Z) : Z :=
  match fromRight with
  | [] => 0
  | d :: rest => luhnDigit position d + luhnSum (S position) rest
  end.

Definition passesLuhn (clean : string) : Prop :=
  luhnSum 0 (map digitOf (rev (list_ascii_of_string clean))) mod 10 = 0.

(** *** The validator in the words of the specification

    Spaces and dashes are stripped, the rest must be 13 to 19 digits, and
    the number is accepted when it passes the checksum or, outside production
    mode, when it is on the list of test numbers. *)
Fixpoint removeSpacesAndDashes (s : string) : string :=
  match s with
  | EmptyString => EmptyString
  | String c rest =>
      if Ascii.eqb c " " || Ascii.eqb c "-"
      then removeSpacesAndDashes rest
      else String c (removeSpacesAndDashes rest)
  end.

Definition nonProduction (NODE_ENV : option string) : bool :=
  match NODE_ENV with
  | Some env => negb (String.eqb env "production")
  | None => true
  end.

Definition validAsSpecified (NODE_ENV : option string) (cardNumber : string) : bool :=
  let clean := removeSpacesAndDashes cardNumber in
  isCardDigits clean
  && (nonProduction NODE_ENV && existsb (String.eqb clean) testCardNumbers
      || (luhnSum 0 (map digitOf (rev (list_ascii_of_string clean))) mod 10 =? 0)).

(** *** Predicates the properties are stated with *)

Definition noColon (s : string) : bool :=
  allChars (fun c => negb (Ascii.eqb c ":")) s.

(** Two strings that read the same: position by position the same
    hexadecimal value (or none), with the separator at the same places. *)
Fixpoint sameHex (s t : string) : Prop :=
  match s, t with
  | EmptyString, EmptyString => True
  | String a s', String b t' =>
      hexValue a = hexValue b /\ Ascii.eqb a ":" = Ascii.eqb b ":" /\ sameHex s' t'
  | _, _ => False
  end.

(** Neither a space nor a dash is left by the normalization. *)
Definition noSpaceOrDash (c : ascii) : bool := negb (Ascii.eqb c " ") && negb (Ascii.eqb c "-").

End Vault.

(** ** Text: length and trimming *)
Module Text.

(** The UTF-16 code units a byte of the encoding stands for: one for the
    first byte of a character of up to three bytes, two for the first byte of
    a character of four bytes, none for a continuation byte. *)
Definition unitsOf (c : ascii) : nat :=
  if (Vault.code c <? 128)%N then 1%nat
  else if (Vault.code c <? 192)%N then 0%nat
  else if (Vault.code c <? 240)%N then 1%nat
  else 2%nat.

(** [s.length] *)
Fixpoint units (s : string) : nat :=
  match s with
  | EmptyString => 0%nat
  | String c rest => (unitsOf c + units rest)%nat
  end.

(** [s.trimStart()]: the white space of [trim] is the class of [\s]. *)
Fixpoint trimStart (s : string) : string :=
  match s with
  | EmptyString => s
  | String a r1 =>
      if Vault.asciiSpace a then trimStart r1
      else
        match r1 with
        | EmptyString => s
        | String b r2 =>
            if Vault.twoByteSpace a b then trimStart r2
            else
              match r2 with
              | EmptyString => s
              | String c r3 => if Vault.threeByteSpace a b c then trimStart r3 else s
              end
        end
  end.

(** The same from the end, over the bytes in reverse. *)
Fixpoint dropSpacesReversed (r : list ascii) : list ascii :=
  match r with
  | [] => r
  | a :: r1 =>
      if Vault.asciiSpace a then dropSpacesReversed r1
      else
        match r1 with
        | [] => r
        | b :: r2 =>
            if Vault.twoByteSpace b a then dropSpacesReversed r2
            else
              match r2 with
              | [] => r
              | c :: r3 => if Vault.threeByteSpace c b a then dropSpacesReversed r3 else r
              end
        end
  end.

Definition trimEnd (s : string) : string :=
  string_of_list_ascii (rev (dropSpacesReversed (rev (list_ascii_of_string s)))).

(** [s.trim()], the setter of a path declared with [trim: true]. *)
Definition trim (s : string) : string := trimEnd (trimStart s).

(** [maxlength: n] on a path that may be unset. *)
Definition withinLength (n : nat) (s : option string) : bool :=
  match s with
  | Some text => (units text <=? n)%nat
  | None => true
  end.

End Text.

(** ** Delivery proofs *)
Module DeliveryProof.

Inductive VerificationStatus : Type := pending | approved | rejected | requires_review.

Record Metadata : Type := mkMetadata {
  fileSize : Z;
  mimeType : string;
  width : Z;
  height : Z
}.

Record t : Type := mk {
  order : ObjectId;
  vendor : ObjectId;
  imageUrl : string;
  imageId : string;
  uploadedAt : Date;
  arrivalNotes : option string;
  verificationStatus : VerificationStatus;
  adminNotes : option string;
  reviewedBy : option ObjectId;
  reviewedAt : option Date;
  canReupload : bool;
  reuploadExpiresAt : Date;
  metadata : option Metadata
}.

Definition reuploadWindow : Z := 15 * 60 * 1000.

(** The virtual [canStillReupload]. *)
Definition canStillReupload (now : Date) (p : t) : bool :=
  canReupload p && (now <? reuploadExpiresAt p).

(** The validation of the schema: [imageUrl] and [imageId] are required (an
    empty string does not count), [arrivalNotes] has [maxlength: 500] and
    [adminNotes] has [maxlength: 1000]. *)
Definition validate (p : t) : bool :=
  negb (Vault.isEmpty (imageUrl p))
  && negb (Vault.isEmpty (imageId p))
  && Text.withinLength 500 (arrivalNotes p)
  && Text.withinLength 1000 (adminNotes p).

(** [pre('save')]: [isModified('uploadedAt')] compares with the value the
    document was loaded with. *)
Definition preSave (loadedUploadedAt : option Date) (p : t) : t :=
  if match loadedUploadedAt with
     | Some u => negb (u =? uploadedAt p)
     | None => true
     end
  then mk (order p) (vendor p) (imageUrl p) (imageId p) (uploadedAt p)
          (arrivalNotes p) (verificationStatus p) (adminNotes p)
          (reviewedBy p) (reviewedAt p) (canReupload p)
          (uploadedAt p + reuploadWindow) (metadata p)
  else p.

(** [this.save()] of a document loaded as [loaded]: the document written, or
    [None] when validation rejects it. *)
Definition save (loaded : t) (p : t) : option t :=
  if validate p then Some (preSave (Some (uploadedAt loaded)) p) else None.

(** [notes = ''] is the default, and is falsy; [adminNotes] is declared with
    [trim: true]. *)
Definition approve (adminId : ObjectId) (notes : string) (now : Date) (p : t) : option t :=
  save p
    (mk (order p) (vendor p) (imageUrl p) (imageId p) (uploadedAt p)
        (arrivalNotes p) approved
        (if String.eqb notes "" then adminNotes p else Some (Text.trim notes))
        (Some adminId) (Some now) false
        (reuploadExpiresAt p) (metadata p)).

Definition reject (adminId : ObjectId) (notes : string) (now : Date) (p : t) : option t :=
  save p
    (mk (order p) (vendor p) (imageUrl p) (imageId p) (uploadedAt p)
        (arrivalNotes p) rejected (Some (Text.trim notes))
        (Some adminId) (Some now) (canReupload p)
        (reuploadExpiresAt p) (metadata p)).

Definition requiresReview (adminId : ObjectId) (notes : string) (now : Date) (p : t)
  : option t :=
  save p
    (mk (order p) (vendor p) (imageUrl p) (imageId p) (uploadedAt p)
        (arrivalNotes p) requires_review (Some (Text.trim notes))
        (Some adminId) (Some now) (canReupload p)
        (reuploadExpiresAt p) (metadata p)).

(** *** PATCH /arrival-proofs/:proofId/review

    [found] is [DeliveryProof.findById(proofId).populate('order')], the proof
    with its order; [adminNotes] is the empty string when the body has none.
    The result is the answer and the two documents as they are stored after
    the request. *)
Inductive ReviewResponse : Type :=
| ProofNotFound        (* 404 *)
| InvalidAction        (* 400 *)
| Reviewed             (* 200 *)
| ReviewFailed.        (* 500 'Server error' *)

(** [arrivalProof.order.status = s; await arrivalProof.order.save()], once
    the proof [p'] has been written.  The post-save hook of the order finds
    the written document, which is not new, and does nothing. *)
Definition moveOrder (now : Date) (s : Order.Status) (p' : t) (o : Order.t)
  : ReviewResponse * option (t * Order.t) :=
  match Order.written now (Order.setStatus s o) with
  | Some o' => (Reviewed, Some (p', o'))
  | None => (ReviewFailed, Some (p', o))
  end.

Definition review (action : string) (adminId : ObjectId) (adminNotes : string)
    (now : Date) (found : option (t * Order.t))
  : ReviewResponse * option (t * Order.t) :=
  match found with
  | None => (ProofNotFound, None)
  | Some (arrivalProof, o) =>
      if String.eqb action "approve" then
        match approve adminId adminNotes now arrivalProof with
        | Some p' =>
            if Order.status_eqb (Order.status o) Order.processing
            then moveOrder now Order.shipped p' o
            else (Reviewed, Some (p', o))
        | None => (ReviewFailed, found)
        end
      else if String.eqb action "reject" then
        match reject adminId adminNotes now arrivalProof with
        | Some p' =>
            if Order.status_eqb (Order.status o) Order.processing
            then moveOrder now Order.pending p' o
            else (Reviewed, Some (p', o))
        | None => (ReviewFailed, found)
        end
      else if String.eqb action "requires_review" then
        match requiresReview adminId adminNotes now arrivalProof with
        | Some p' => (Reviewed, Some (p', o))
        | None => (ReviewFailed, found)
        end
      else (InvalidAction, found)
  end.

(** *** POST /orders/:orderId/delivery-proof *)
Record UploadRequest : Type := mkUpload {
  userId : ObjectId;
  orderId : ObjectId;
  reqImageUrl : string;
  reqImageId : string;
  reqMetadata : option Metadata
}.

(** [Vendor] by [user], [Order] by [_id], [DeliveryProof] by its unique
    [order] field. *)
Record Db : Type := mkDb {
  vendors : gmap string ObjectId;
  orders : gmap string Order.t;
  proofs : gmap string t
}.

Inductive UploadResponse : Type :=
| VendorProfileNotFound      (* 404 *)
| ImageRequired              (* 400 *)
| OrderNotFound              (* 404 *)
| ReuploadWindowExpired      (* 400 'Re-upload window has expired. ..' *)
| ProofUpdated (p : t)       (* 200 'Arrival proof updated successfully' *)
| ProofUploaded (p : t)      (* 200 'Arrival proof uploaded successfully! ..' *)
| UploadFailed.              (* 500 'Server error' *)

(** The re-upload branch, on the proof found for the order: the answer and
    the proof as it is stored afterwards.  The source compares
    [(now - uploadedAt) / (1000 * 60)] with [15].  It also assigns
    [deliveryNotes] and [deliveryLocation], which are no paths of the schema
    and are not stored.  [imageUrl] and [imageId] are declared with
    [trim: true]. *)
Definition reupload (now : Date) (req : UploadRequest) (existingProof : t)
  : UploadResponse * t :=
  if 15 * (1000 * 60) <? now - uploadedAt existingProof
  then (ReuploadWindowExpired, existingProof)
  else
    match
      save existingProof
        (mk (order existingProof) (vendor existingProof)
            (Text.trim (reqImageUrl req)) (Text.trim (reqImageId req)) now
            (arrivalNotes existingProof) (verificationStatus existingProof)
            (adminNotes existingProof) (reviewedBy existingProof)
            (reviewedAt existingProof) (canReupload existingProof)
            (reuploadExpiresAt existingProof) (reqMetadata req))
    with
    | Some p' => (ProofUpdated p', p')
    | None => (UploadFailed, existingProof)
    end.

(** A new document with the schema defaults and its first save: validation,
    then [pre('save')]. *)
Definition create (now : Date) (req : UploadRequest) (vendorId : ObjectId) : option t :=
  let p :=
    mk (orderId req) vendorId (Text.trim (reqImageUrl req)) (Text.trim (reqImageId req)) now
       None pending None None None true (now + reuploadWindow) (reqMetadata req) in
  if validate p then Some (preSave None p) else None.

Definition hasVendor (vendorId : ObjectId) (o : Order.t) : bool :=
  existsb (fun item => String.eqb (Order.vendor item) vendorId) (Order.items o).

(** The order's side of a first upload: the proof reference, and the
    escrow amount when it is still missing; the status is left alone. *)
Definition attachToOrder (newProofId : ObjectId) (o : Order.t) : Order.t :=
  let o1 := Order.setDeliveryProof (Some newProofId) o in
  if Js.falsyNumber (Order.escrowAmount o1)
  then Order.setEscrowAmount (Some (Order.total o1)) o1
  else o1.

(** The handler: [!imageUrl || !imageId] is the test on the body fields; a
    first upload writes the proof and then the order, whose post-save hook
    finds a document that is not new and does nothing. *)
Definition upload (now : Date) (newProofId : ObjectId) (req : UploadRequest) (db : Db)
  : UploadResponse * Db :=
  match vendors db !! userId req with
  | None => (VendorProfileNotFound, db)
  | Some vendorId =>
    if Vault.isEmpty (reqImageUrl req) || Vault.isEmpty (reqImageId req)
    then (ImageRequired, db) else
    match orders db !! orderId req with
    | None => (OrderNotFound, db)
    | Some o =>
      if negb (hasVendor vendorId o && Order.status_eqb (Order.status o) Order.pending)
      then (OrderNotFound, db) else
      match proofs db !! orderId req with
      | Some existingProof =>
          let '(response, p') := reupload now req existingProof in
          (response, mkDb (vendors db) (orders db) (<[orderId req := p']> (proofs db)))
      | None =>
          match create now req vendorId with
          | None => (UploadFailed, db)
          | Some p =>
              match Order.written now (attachToOrder newProofId o) with
              | Some o' =>
                  (ProofUploaded p,
                   mkDb (vendors db) (<[orderId req := o']> (orders db))
                        (<[orderId req := p]> (proofs db)))
              | None =>
                  (UploadFailed,
                   mkDb (vendors db) (orders db) (<[orderId req := p]> (proofs db)))
              end
          end
      end
    end
  end.

End DeliveryProof.

(** ** Admin handlers on orders

    The handlers of this and the next module work on the order found in the
    database; their result is the answer, the order as it is stored after the
    request, and the balances.  Inventory, pagination and the response bodies
    are left out. *)
Module Admin.

Inductive StatusResponse : Type :=
| StatusUpdated       (* 200 *)
| StatusFailed.       (* 500 'Server error' *)

(** PATCH /orders/:orderId/status, on the order found; [newStatus] is one
    of the five values of the schema. *)
Definition updateOrderStatus (now : Date) (newStatus : Order.Status)
    (o : Order.t) (s : VendorBalance.store)
  : StatusResponse * Order.t * VendorBalance.store :=
  let o1 := Order.setStatus newStatus o in
  if Order.status_eqb newStatus Order.delivered
     && Order.escrowStatus_eqb (Order.escrowStatus o1) Order.held
  then
    match Order.releaseEscrow now o1 s with
    | (Returned, o2, s2) =>
        match Order.save now o2 s2 with
        | (Returned, o3, s3) => (StatusUpdated, o3, s3)
        | (Thrown _, _, s3) => (StatusFailed, o2, s3)
        end
    | (Thrown _, _, s2) => (StatusFailed, o, s2)
    end
  else
    match Order.save now o1 s with
    | (Returned, o2, s2) => (StatusUpdated, o2, s2)
    | (Thrown _, _, s2) => (StatusFailed, o, s2)
    end.

Inductive ReleaseResponse : Type :=
| EscrowNotHeld       (* 400 'Escrow is not held for this order' *)
| EscrowReleased      (* 200 *)
| ServerError.        (* 500 *)

(** POST /orders/:orderId/release-escrow, on the order found. *)
Definition releaseEscrow (now : Date) (o : Order.t) (s : VendorBalance.store)
  : ReleaseResponse * Order.t * VendorBalance.store :=
  if negb (Order.escrowStatus_eqb (Order.escrowStatus o) Order.held)
  then (EscrowNotHeld, o, s)
  else
    match Order.releaseEscrow now o s with
    | (Returned, o', s') => (EscrowReleased, o', s')
    | (Thrown _, _, s') => (ServerError, o, s')
    end.

End Admin.

(** ** Customer-facing order handlers *)
Module OrderRoutes.

(** POST /: the body fields the document is built from.  [items] are the
    line items as the handler assembles them from the products. *)
Record CreateRequest : Type := mkCreate {
  customerId : ObjectId;
  reqItems : list Order.Item;
  reqShippingMethod : option Order.ShippingMethod;
  reqSubtotal : float;
  reqShippingCost : float;
  reqTax : float;
  reqTotal : float;
  reqPaymentStatus : option Order.PaymentStatus
}.

(** [new Order({...})] with the schema defaults; not yet saved.  The handler
    passes no [escrowAmount]. *)
Definition newOrder (orderNumber : string) (req : CreateRequest) : Order.t :=
  Order.mk true orderNumber (customerId req) (reqItems req)
    (default Order.standard (reqShippingMethod req))
    Order.pending Order.held None None None
    (reqSubtotal req) (reqShippingCost req) (reqTax req) (reqTotal req)
    None None None
    (default Order.paymentPending (reqPaymentStatus req)).

(** POST /, from [new Order] on: [await order.save()]. *)
Definition create (now : Date) (orderNumber : string) (req : CreateRequest)
    (s : VendorBalance.store) : outcome * Order.t * VendorBalance.store :=
  Order.save now (newOrder orderNumber req) s.

Inductive CancelResponse : Type :=
| OrderCancelled      (* 200 *)
| CannotCancel        (* 400 'Order cannot be cancelled at this stage' *)
| CancelFailed.       (* the rejected save, passed to the error handler *)

(** PATCH /:id/cancel, on the customer's order found. *)
Definition cancel (now : Date) (o : Order.t) (s : VendorBalance.store)
  : CancelResponse * Order.t * VendorBalance.store :=
  if Order.status_eqb (Order.status o) Order.pending
  then
    match Order.save now (Order.setStatus Order.cancelled o) s with
    | (Returned, o', s') => (OrderCancelled, o', s')
    | (Thrown _, _, s') => (CancelFailed, o, s')
    end
  else (CannotCancel, o, s).

End OrderRoutes.

(** ** Everything that writes to an order or, through it, to the ledger

    A state is the order as it is stored and the balances; a step is one
    request or one call on the stored order.  The methods and the hooks of
    the model are steps of their own. *)
Module Lifecycle.

Inductive Op : Type :=
| Save (now : Date)
| PreSave (now : Date)
| PostSave
| UpdateStatus (now : Date) (newStatus : Order.Status)
| AddTracking (now : Date) (number url : option string)
| Cancel (now : Date)
| ReleaseEscrow (now : Date)
| AddToVendorPending
| AdminUpdateStatus (now : Date) (newStatus : Order.Status)
| AdminReleaseEscrow (now : Date)
| AttachProof (now : Date) (proofId : ObjectId)
| Review (action : string) (adminId : ObjectId) (notes : string) (now : Date)
         (proof : DeliveryProof.t).

Definition step (st : Order.t * VendorBalance.store) (op : Op)
  : Order.t * VendorBalance.store :=
  let '(o, s) := st in
  match op with
  | Save now => Order.stored o (Order.save now o s)
  | PreSave now => (Order.preSave now o, s)
  | PostSave => (o, Order.postSave o s)
  | UpdateStatus now newStatus => Order.stored o (Order.updateStatus now newStatus o s)
  | AddTracking now number url => Order.stored o (Order.addTracking now number url o s)
  | Cancel now =>
      let '(_, o', s') := OrderRoutes.cancel now o s in (o', s')
  | ReleaseEscrow now => Order.stored o (Order.releaseEscrow now o s)
  | AddToVendorPending => (o, snd (Order.addToVendorPending o s))
  | AdminUpdateStatus now newStatus =>
      let '(_, o', s') := Admin.updateOrderStatus now newStatus o s in (o', s')
  | AdminReleaseEscrow now =>
      let '(_, o', s') := Admin.releaseEscrow now o s in (o', s')
  | AttachProof now proofId =>
      (default o (Order.written now (DeliveryProof.attachToOrder proofId o)), s)
  | Review action adminId notes now proof =>
      match DeliveryProof.review action adminId notes now (Some (proof, o)) with
      | (_, Some (_, o')) => (o', s)
      | (_, None) => (o, s)
      end
  end.

Definition run (ops : list Op) (st : Order.t * VendorBalance.store)
  : Order.t * VendorBalance.store :=
  fold_left step ops st.

(** What a step may do to [escrowAmount], [total] and the items: the total
    and the items stay, and the escrow amount stays or, when it was missing
    or zero, becomes the total. *)
Definition amountKept (o o' : Order.t) : Prop :=
  Order.total o' = Order.total o /\ Order.items o' = Order.items o /\
  (Order.escrowAmount o' = Order.escrowAmount o \/
   (Js.falsyNumber (Order.escrowAmount o) = true /\
    Order.escrowAmount o' = Some (Order.total o))).

End Lifecycle.

(** ** Everything that writes to an existing delivery proof

    A step gives the proof as it is stored after the call: the proof as it
    was when the save of the call is rejected. *)
Module ProofLifecycle.

Inductive Op : Type :=
| Approve (adminId : ObjectId) (notes : string) (now : Date)
| Reject (adminId : ObjectId) (notes : string) (now : Date)
| RequiresReview (adminId : ObjectId) (notes : string) (now : Date)
| Reupload (now : Date) (req : DeliveryProof.UploadRequest).

Definition step (p : DeliveryProof.t) (op : Op) : DeliveryProof.t :=
  match op with
  | Approve adminId notes now => default p (DeliveryProof.approve adminId notes now p)
  | Reject adminId notes now => default p (DeliveryProof.reject adminId notes now p)
  | RequiresReview adminId notes now =>
      default p (DeliveryProof.requiresReview adminId notes now p)
  | Reupload now req => snd (DeliveryProof.reupload now req p)
  end.

Definition run (ops : list Op) (p : DeliveryProof.t) : DeliveryProof.t :=
  fold_left step ops p.

End ProofLifecycle.

(** ** Reviews of one proof, one after the other *)
Module Reviews.

(** One request to the review handler: action, reviewer, notes, time. *)
Record Request : Type := mkReview {
  action : string;
  adminId : ObjectId;
  adminNotes : string;
  now : Date
}.

Definition answer (st : DeliveryProof.t * Order.t) (r : Request)
  : DeliveryProof.ReviewResponse :=
  fst (DeliveryProof.review (action r) (adminId r) (adminNotes r) (now r) (Some st)).

Definition step (st : DeliveryProof.t * Order.t) (r : Request)
  : DeliveryProof.t * Order.t :=
  match DeliveryProof.review (action r) (adminId r) (adminNotes r) (now r) (Some st) with
  | (_, Some st') => st'
  | (_, None) => st
  end.

Definition run (rs : list Request) (st : DeliveryProof.t * Order.t)
  : DeliveryProof.t * Order.t :=
  fold_left step rs st.

(** The window invariant of a stored proof. *)
Definition windowFollowsUpload (p : DeliveryProof.t) : Prop :=
  DeliveryProof.reuploadExpiresAt p
  = DeliveryProof.uploadedAt p + DeliveryProof.reuploadWindow.

(** What a review keeps of the proof: the upload, the window and the
    references, and its passing validation. *)
Definition sameUpload (p p' : DeliveryProof.t) : Prop :=
  (DeliveryProof.validate p = true -> DeliveryProof.validate p' = true) /\
  DeliveryProof.imageUrl p' = DeliveryProof.imageUrl p /\
  DeliveryProof.imageId p' = DeliveryProof.imageId p /\
  DeliveryProof.uploadedAt p' = DeliveryProof.uploadedAt p /\
  DeliveryProof.reuploadExpiresAt p' = DeliveryProof.reuploadExpiresAt p /\
  DeliveryProof.order p' = DeliveryProof.order p /\
  DeliveryProof.vendor p' = DeliveryProof.vendor p.

End Reviews.

(** ** Stock: the item loops of order creation and cancellation

    Quantities in stock and quantities ordered are counts: whole numbers, on
    which the arithmetic of doubles is exact, and which are integers here.
    Prices are only copied. *)
Module Inventory.

(** A product, as far as the order handlers read and write it;
    [quantity] is [inventory.quantity]. *)
Record Product : Type := mkProduct {
  title : string;
  price : float;
  vendor : ObjectId;
  quantity : Z
}.

(** The collection, keyed by [_id]. *)
Abbreviation store := (gmap string Product).

Definition setQuantity (q : Z) (p : Product) : Product :=
  mkProduct (title p) (price p) (vendor p) q.

(** An entry of the request's [items]. *)
Record RequestItem : Type := mkRequestItem {
  productId : ObjectId;
  reqQuantity : Z
}.

(** An entry of [orderItems], which become the line items of the order. *)
Record OrderItem : Type := mkOrderItem {
  itemProduct : ObjectId;
  itemQuantity : Z;
  itemPrice : float;
  itemVendor : ObjectId
}.

Inductive Checked : Type :=
| ProductNotFound (productId : ObjectId)          (* 400 'Product .. not found' *)
| InsufficientInventory (title : string)          (* 400 'Insufficient inventory for ..' *)
| Reserved (orderItems : list OrderItem).

(** The loop of POST / over the requested items: [orderItems] is the array
    built so far; each accepted item decrements the stock at once. *)
Fixpoint reserve (items : list RequestItem) (orderItems : list OrderItem) (s : store)
  : Checked * store :=
  match items with
  | [] => (Reserved orderItems, s)
  | item :: rest =>
      match s !! productId item with
      | None => (ProductNotFound (productId item), s)
      | Some product =>
          if quantity product <? reqQuantity item
          then (InsufficientInventory (title product), s)
          else
            reserve rest
              (orderItems ++ [mkOrderItem (productId item) (reqQuantity item)
                                (price product) (vendor product)])%list
              (<[productId item := setQuantity (quantity product - reqQuantity item) product]> s)
      end
  end.

(** The loop of PATCH /:id/cancel over the order's items. *)
Definition restoreStep (s : store) (item : OrderItem) : store :=
  match s !! itemProduct item with
  | Some product =>
      <[itemProduct item := setQuantity (quantity product + itemQuantity item) product]> s
  | None => s
  end.

Definition restore (items : list OrderItem) (s : store) : store :=
  fold_left restoreStep items s.

(** The quantity asked of one product by a list of requested items, and the
    quantity of one product in a list of order items. *)
Fixpoint requested (k : ObjectId) (items : list RequestItem) : Z :=
  match items with
  | [] => 0
  | item :: rest =>
      (if String.eqb (productId item) k then reqQuantity item else 0) + requested k rest
  end.

Fixpoint ordered (k : ObjectId) (items : list OrderItem) : Z :=
  match items with
  | [] => 0
  | item :: rest =>
      (if String.eqb (itemProduct item) k then itemQuantity item else 0)
      + ordered k rest
  end.

(** An order item carries the stored price and vendor of its product. *)
Definition fromProduct (s : store) (item : RequestItem) (orderItem : OrderItem) : Prop :=
  itemProduct orderItem = productId item /\
  itemQuantity orderItem = reqQuantity item /\
  exists product,
    s !! productId item = Some product /\
    itemPrice orderItem = price product /\
    itemVendor orderItem = vendor product.

Definition inStock (s : store) : Prop :=
  forall k product, s !! k = Some product -> 0 <= quantity product.

End Inventory.

(** ** The other helpers of utils/encryption.js *)
Module Encryption.

(** [crypto.randomBytes(32).toString('hex')]; [randomBytes] is the value of
    [crypto.randomBytes(32)] in this call. *)
Definition generateEncryptionKey (randomBytes : list byte) : string :=
  Vault.toHex randomBytes.

(** [maskSensitiveData] measures and cuts its text with [length] and
    [slice], which count UTF-16 code units: the text is taken as the list of
    its code units here, [None] being a missing text. *)
Abbreviation codeUnits := (list N).

(** The code units of a text of ASCII characters. *)
Definition ofAscii (s : string) : codeUnits := map N_of_ascii (list_ascii_of_string s).

(** [text.slice(-n)] *)
Definition sliceLast (n : nat) (text : codeUnits) : codeUnits :=
  drop (length text - n) text.

Definition maskSensitiveData (text : option codeUnits) (type : string) : codeUnits :=
  match text with
  | None => []
  | Some t =>
      match t with
      | [] => []
      | _ :: _ =>
          if String.eqb type "card" then
            (if (4 <? length t)%nat
             then ofAscii "**** **** **** " ++ sliceLast 4 t
             else ofAscii "****")%list
          else if String.eqb type "cvv" then ofAscii "***"
          else if String.eqb type "expiry" then
            (if (4 <=? length t)%nat
             then take 2 t ++ ofAscii "/" ++ sliceLast 2 t
             else ofAscii "**/**")%list
          else t
      end
  end.
Definition digitIn (radix : Z) (c : ascii) : option Z :=
  match Vault.hexValue c with
  | Some d => if Z.of_N d <? radix then Some (Z.of_N d) else None
  | None => None
  end.

(** The value of the longest prefix of digits; [parsed] is what has been
    read so far, [None] when no digit has been read. *)
Fixpoint digitsValue (radix : Z) (s : string) (parsed : option Z) : option Z :=
  match s with
  | EmptyString => parsed
  | String c rest =>
      match digitIn radix c with
      | Some d => digitsValue radix rest (Some (radix * default 0 parsed + d))
      | None => parsed
      end
  end.

(** [parseInt(s)] without a radix, which skips leading white space;
    [None] is [NaN].  The value is the exact
    integer: the comparisons below give the same answers on it as on its
    rounding to a double. *)
Definition parseInt (s : string) : option Z :=
  let s1 := Text.trimStart s in
  let '(sign, s2) :=
    match s1 with
    | String "-" rest => (-1, rest)
    | String "+" rest => (1, rest)
    | _ => (1, s1)
    end in
  let '(radix, s3) :=
    match s2 with
    | String "0" (String x rest) =>
        if Ascii.eqb x "x" || Ascii.eqb x "X" then (16, rest) else (10, s2)
    | _ => (10, s2)
    end in
  Z.mul sign <$> digitsValue radix s3 None.

(** [a < b] and [a === b] on numbers one of which may be [NaN]. *)
Definition ltNumber (a b : option Z) : bool :=
  match a, b with
  | Some x, Some y => x <? y
  | _, _ => false
  end.

Definition eqNumber (a b : option Z) : bool :=
  match a, b with
  | Some x, Some y => x =? y
  | _, _ => false
  end.

(** [currentYear] and [currentMonth] are read from the clock by the source. *)
Definition validateExpiryDate (currentYear currentMonth : Z) (month year : string) : bool :=
  if Vault.isEmpty month || Vault.isEmpty year then false
  else
    let fullYear :=
      match parseInt year with
      | Some y => Some (if y <? 100 then y + 2000 else y)
      | None => None
      end in
    let expMonth := parseInt month in
    let expYear := fullYear in
    if ltNumber expYear (Some currentYear) then false
    else if eqNumber expYear (Some currentYear) && ltNumber expMonth (Some currentMonth)
    then false
    else if ltNumber expMonth (Some 1) || ltNumber (Some 12) expMonth then false
    else true.

(** *** What the properties are stated with *)

(** The number a string of decimal digits denotes. *)
Definition decimalValue (s : string) : Z :=
  fold_left (fun acc c => 10 * acc + Vault.digitOf c) (list_ascii_of_string s) 0.

(** The characters of a card number as it is typed: digits, spaces, dashes. *)
Definition cardChar (c : ascii) : bool :=
  Vault.isDigit c || Ascii.eqb c " " || Ascii.eqb c "-".

Fixpoint digitsOnly (s : string) : string :=
  match s with
  | EmptyString => EmptyString
  | String c rest => if Vault.isDigit c then String c (digitsOnly rest) else digitsOnly rest
  end.

(** A date not later than another, as year and month. *)
Definition notLater (year month year' month' : Z) : Prop :=
  year < year' \/ (year = year' /\ month <= month').

End Encryption.

(** ** Order numbers *)
Module OrderNumber.

(** [n.toString()] of a non-negative integer. *)
Definition toString (n : N) : string := NilEmpty.string_of_uint (N.to_uint n).

Fixpoint repeatChar (n : nat) (c : ascii) : string :=
  match n with
  | O => EmptyString
  | S m => String c (repeatChar m c)
  end.

(** [s.padStart(targetLength, c)] for a one-character pad. *)
Definition padStart (targetLength : nat) (c : ascii) (s : string) : string :=
  (repeatChar (targetLength - String.length s) c ++ s)%string.

(** [s.slice(-n)] of the rendering of a number, whose characters are
    digits. *)
Definition sliceLast (n : nat) (s : string) : string :=
  substring (String.length s - n) n s.

(** [ORD-${year}${month}${day}-${sequence}]: [year], [month] (from 1) and
    [day] are the local calendar fields of [new Date()], [orderCount] the
    number of orders counted for the day. *)
Definition generate (year month day orderCount : N) : string :=
  ("ORD-" ++ sliceLast 2 (toString year)
   ++ padStart 2 "0" (toString month)
   ++ padStart 2 "0" (toString day)
   ++ "-" ++ padStart 4 "0" (toString (orderCount + 1)))%string.

Definition setOrderNumber (number : string) (o : Order.t) : Order.t :=
  Order.mk (Order.isNew o) number (Order.customer o) (Order.items o)
    (Order.shippingMethod o) (Order.status o) (Order.escrowStatus o)
    (Order.escrowAmount o) (Order.escrowReleaseDate o) (Order.deliveryProof o)
    (Order.subtotal o) (Order.shippingCost o) (Order.tax o) (Order.total o)
    (Order.estimatedDelivery o) (Order.trackingNumber o) (Order.trackingUrl o)
    (Order.paymentStatus o).

(** The first [pre('save')] hook of the order model; a missing
    [orderNumber] is the empty string. *)
Definition preSave (year month day orderCount : N) (o : Order.t) : Order.t :=
  if Order.isNew o && Vault.isEmpty (Order.orderNumber o)
  then setOrderNumber (generate year month day orderCount) o
  else o.

(** POST /: the number is generated by the handler and the order built
    with it. *)
Definition create (year month day orderCount : N) (req : OrderRoutes.CreateRequest)
  : Order.t :=
  OrderRoutes.newOrder (generate year month day orderCount) req.

(** The sequence part read back: leading zeros do not count. *)
Definition readNumber (s : string) : option N :=
  N.of_uint <$> NilEmpty.uint_of_string s.

End OrderNumber.

(** ** Sample data

    The two-vendor order of the settlement scenario as it is stored, the same
    order without its escrow amount, a vendor's payout state, a delivery proof
    and its review, and a key and IV for the vault. *)

Definition vendorA : ObjectId := "65f1a0000000000000000a01".

Definition vendorB : ObjectId := "65f1a0000000000000000b02".

Definition emptyBalance (v : ObjectId) : VendorBalance.t :=
  VendorBalance.mk v (Some "65f1b00000000000000000aa") 0 0 0 0 None (Some 0%float) 10.00 true.

Definition sampleItems : list Order.Item :=
  [ Order.mkItem "p1" 2 25.00 vendorA;
    Order.mkItem "p2" 1 40.00 vendorB;
    Order.mkItem "p3" 3 10.00 vendorA ].

(** A stored, paid order of 120.00: 80.00 for vendor A, 40.00 for vendor B. *)
Definition sampleOrder : Order.t :=
  Order.mk false "ORD-240101-0001" "65f1c0000000000000000001" sampleItems
    Order.standard Order.pending Order.held (Some 120.00%float) None None
    120.00 0 0 120.00 (Some 1700432000000) None None Order.completed.

(** The same order as a document stored without [escrowAmount]. *)
Definition legacyOrder : Order.t := Order.setEscrowAmount None sampleOrder.

(** The request that would create the sample order. *)
Definition sampleRequest : OrderRoutes.CreateRequest :=
  OrderRoutes.mkCreate "65f1c0000000000000000001" sampleItems (Some Order.standard)
    120.00 0 0 120.00 (Some Order.completed).

Definition sampleStore : gmap string VendorBalance.t :=
  <[vendorA := emptyBalance vendorA]> (<[vendorB := emptyBalance vendorB]> ∅).

Definition releasedOrder : Order.t :=
  snd (fst (Order.releaseEscrow 1700000500000 sampleOrder sampleStore)).

Definition storeWithoutB : gmap string VendorBalance.t :=
  <[vendorA := emptyBalance vendorA]> ∅.

(** A stored order whose total carries shipping and tax: line items of
    120.00, shipping 5.00, tax 9.60. *)
Definition taxedOrder : Order.t :=
  Order.mk false "ORD-240101-0003" "65f1c0000000000000000001" sampleItems
    Order.express Order.pending Order.held (Some 134.60%float) None None
    120.00 5.00 9.60 134.60 (Some 1700172800000) None None Order.completed.

(** Line items whose totals are no whole numbers of cents in binary:
    3 x 33.88 for vendor A, 1 x 0.10 and 1 x 0.20 for vendor B. *)
Definition centItems : list Order.Item :=
  [ Order.mkItem "p4" 3 33.88 vendorA;
    Order.mkItem "p5" 1 0.10 vendorB;
    Order.mkItem "p6" 1 0.20 vendorB ].

(** A stored order of one line, 3 x 33.88, whose total and escrow amount are
    the 101.64 that the customer was charged. *)
Definition centsOrder : Order.t :=
  Order.mk false "ORD-240101-0004" "65f1c0000000000000000001"
    [ Order.mkItem "p4" 3 33.88 vendorA ]
    Order.standard Order.pending Order.held (Some 101.64%float) None None
    101.64 0 0 101.64 (Some 1700432000000) None None Order.completed.

Definition sampleAccount : BankAccount.t :=
  BankAccount.mk "65f1d00000000000000000a1" "vendor" "A. Vendor" "First Bank" true.

Definition payoutDb (minimum available : float) : Payout.Db :=
  Payout.mkDb
    {[ "65f1d00000000000000000a1" := vendorA ]}
    {[ vendorA :=
         VendorBalance.mk vendorA (Some "65f1b00000000000000000aa")
           available available 0 0 None (Some 0%float) minimum true ]}
    {[ "65f1b00000000000000000aa" := sampleAccount ]}.

Definition payoutOf (amount : Js.value) : Payout.Request :=
  Payout.mkRequest "65f1d00000000000000000a1" "vendor" (Some amount) None.

Definition uploadTime : Date := 1700000000000.

Definition sampleOrderId : ObjectId := "65f1e0000000000000000001".

Definition vendorUser : ObjectId := "65f1d00000000000000000a1".

Definition adminUser : ObjectId := "65f1d00000000000000000ff".

Definition firstUpload : DeliveryProof.UploadRequest :=
  DeliveryProof.mkUpload vendorUser sampleOrderId
    "https://ik.example/proofs/one.jpg" "img_one" None.

Definition secondUpload : DeliveryProof.UploadRequest :=
  DeliveryProof.mkUpload vendorUser sampleOrderId
    "https://ik.example/proofs/two.jpg" "img_two" None.

Definition proofDb : DeliveryProof.Db :=
  DeliveryProof.mkDb {[ vendorUser := vendorA ]} {[ sampleOrderId := sampleOrder ]} ∅.

(** The state after the first upload. *)
Definition uploadedDb : DeliveryProof.Db :=
  snd (DeliveryProof.upload uploadTime "65f1f0000000000000000001" firstUpload proofDb).

(** The state after an admin approved that proof one minute later. *)
Definition approvedDb : DeliveryProof.Db :=
  match DeliveryProof.proofs uploadedDb !! sampleOrderId,
        DeliveryProof.orders uploadedDb !! sampleOrderId with
  | Some p, Some o =>
      match DeliveryProof.review "approve" adminUser "" (uploadTime + 60000) (Some (p, o)) with
      | (_, Some (p', o')) =>
          DeliveryProof.mkDb (DeliveryProof.vendors uploadedDb)
            (<[sampleOrderId := o']> (DeliveryProof.orders uploadedDb))
            (<[sampleOrderId := p']> (DeliveryProof.proofs uploadedDb))
      | _ => uploadedDb
      end
  | _, _ => uploadedDb
  end.

(** The proof of the sample order as the first upload stores it. *)
Definition sampleProof : DeliveryProof.t :=
  DeliveryProof.mk sampleOrderId vendorA "https://ik.example/proofs/one.jpg" "img_one"
    uploadTime None DeliveryProof.pending None None None true (uploadTime + 900000) None.

(** Notes of 1001 characters. *)
Definition longNotes : string := OrderNumber.repeatChar 1001 "x".

Definition sampleKey : string :=
  "000102030405060708090a0b0c0d0e0f101112131415161718191a1b1c1d1e1f".

Definition sampleIv : list byte :=
  [xab; xcd; x01; x23; x45; x67; x89; xef; x10; x32; x54; x76; x98; xba; xdc; xfe].

(** A card number typed with tabs between its groups. *)
Definition tabbedNumber : string :=
  "4111" ++ String "009" "1111" ++ String "009" "1111" ++ String "009" "1111".

(** A string with characters outside ASCII, in UTF-8. *)
Definition unicodeText : string := "caf" ++ String "195" (String "169" " ")
  ++ String "226" (String "130" (String "172" "5")).

Definition sampleStock : Inventory.store :=
  {[ "p1" := Inventory.mkProduct "Bowl" 25.00 vendorA 5;
     "p2" := Inventory.mkProduct "Scarf" 40.00 vendorB 1 ]}.

Definition sampleBasket : list Inventory.RequestItem :=
  [ Inventory.mkRequestItem "p1" 2; Inventory.mkRequestItem "p2" 1;
    Inventory.mkRequestItem "p1" 3 ].

(** A vendor with a profile and a bank account, not yet with a balance
    document. *)
Definition newVendorDb : Payout.Db :=
  Payout.mkDb
    {[ "65f1d00000000000000000a1" := vendorA ]}
    ∅
    {[ "65f1b00000000000000000aa" := sampleAccount ]}.

(** ** A runtime for the concrete runs

    The conversions of [Js.Runtime] on whole numbers in decimal notation: a
    whole number is rendered by its digits, and a string of digits is read as
    the number it writes.  Nothing else is rendered or read: it keeps the
    shape of the conversions and none of their reach. *)

(** The integer a double is, if it is one. *)
Definition wholeOf (x : float) : option Z :=
  match Prim2SF x with
  | S754_zero _ => Some 0
  | S754_finite sign m e =>
      let magnitude :=
        if 0 <=? e then Some (Z.pos m * 2 ^ e)
        else if Z.pos m mod 2 ^ (- e) =? 0 then Some (Z.pos m / 2 ^ (- e))
        else None in
      (fun z => if sign then - z else z) <$> magnitude
  | _ => None
  end.

Definition renderWhole (x : float) : string :=
  match wholeOf x with
  | Some z =>
      let digits := NilEmpty.string_of_uint (N.to_uint (Z.to_N (Z.abs z))) in
      if z <? 0 then String "-" digits else digits
  | None => "NaN"
  end.

Definition digitsOnly (s : string) : bool :=
  negb (Vault.isEmpty s) && Vault.allChars Vault.isDigit s.

Definition readDigits (s : string) : float :=
  if digitsOnly s
  then
    match N.of_uint <$> NilEmpty.uint_of_string s with
    | Some n => if (n <? 2 ^ 53)%N then of_uint63 (Uint63.of_Z (Z.of_N n)) else nan
    | None => nan
    end
  else nan.

Definition wholeNumbers : Js.Runtime :=
  {| Js.toNumber := fun s => if Vault.isEmpty s then 0%float else readDigits s;
     Js.numberToString := renderWhole;
     Js.isFloatString := digitsOnly;
     Js.parseFloat := readDigits |}.
(** ** A cipher for the concrete runs

    PKCS#7 padding around the identity block permutation, with no chaining:
    it keeps the length checks and the padding check of the real cipher and
    nothing of its secrecy. *)

Definition padLength (plain : list byte) : nat := (16 - length plain mod 16)%nat.

Definition padByte (n : nat) : byte := default x00 (Byte.of_nat n).

Definition pkcs7Pad (plain : list byte) : list byte :=
  (plain ++ repeat (padByte (padLength plain)) (padLength plain))%list.

Definition pkcs7Unpad (padded : list byte) : option (list byte) :=
  match last padded with
  | None => None
  | Some b =>
      let n := Byte.to_nat b in
      if (1 <=? n)%nat && (n <=? 16)%nat && (n <=? length padded)%nat
         && forallb (Byte.eqb b) (drop (length padded - n) padded)
      then Some (take (length padded - n) padded)
      else None
  end.

Definition paddingEncrypt (key iv plain : list byte) : option (list byte) :=
  if (length key =? 32)%nat && (length iv =? 16)%nat
  then Some (pkcs7Pad plain) else None.

Definition paddingDecrypt (key iv cipher : list byte) : option (list byte) :=
  if (length key =? 32)%nat && (length iv =? 16)%nat
     && (length cipher mod 16 =? 0)%nat
  then pkcs7Unpad cipher else None.


(** * Properties *)

(** ** Grouping by vendor *)
Section Grouping.
Import Order.

Lemma lookupAmount_addAmount_ne (v k : string) (a : float) (acc : amounts) :
  k <> v -> lookupAmount v (addAmount k a acc) = lookupAmount v acc.
Proof.
  intros Hne. induction acc as [|[k' a'] rest IH]; cbn.
  - destruct (String.eqb_spec k v); [contradiction|reflexivity].
  - destruct (String.eqb_spec k' k) as [->|Hk]; cbn.
    + destruct (String.eqb_spec k v); [contradiction|reflexivity].
    + destruct (String.eqb_spec k' v); [reflexivity|exact IH].
Qed.

Lemma lookupAmount_addAmount_eq (k : string) (a : float) (acc : amounts) :
  lookupAmount k (addAmount k a acc)
  = Some ((match lookupAmount k acc with
           | Some x => if Js.falsy x then 0 else x
           | None => 0
           end) + a)%float.
Proof.
  induction acc as [|[k' a'] rest IH]; cbn.
  - rewrite String.eqb_refl. reflexivity.
  - destruct (String.eqb_spec k' k) as [->|Hk]; cbn.
    + rewrite String.eqb_refl. reflexivity.
    + destruct (String.eqb_spec k' k); [contradiction|exact IH].
Qed.

Lemma keys_addAmount (k : string) (a : float) (acc : amounts) :
  map fst (addAmount k a acc)
  = match lookupAmount k acc with
    | Some _ => map fst acc
    | None => (map fst acc ++ [k])%list
    end.
Proof.
  induction acc as [|[k' a'] rest IH]; cbn; [reflexivity|].
  destruct (String.eqb_spec k' k) as [->|Hk]; cbn; [reflexivity|].
  rewrite IH. destruct (lookupAmount k rest); reflexivity.
Qed.

Lemma lookupAmount_None (v : string) (l : amounts) :
  lookupAmount v l = None <-> v ∉ map fst l.
Proof.
  induction l as [|[k a] rest IH]; cbn.
  - split; [intros _; apply not_elem_of_nil|reflexivity].
  - rewrite not_elem_of_cons. destruct (String.eqb_spec k v) as [->|Hk].
    + split; [discriminate|intros [H _]; congruence].
    + rewrite IH. split; [intros H; split; [congruence|exact H]|intros [_ H]; exact H].
Qed.

Lemma NoDup_keys_addAmount (k : string) (a : float) (acc : amounts) :
  NoDup (map fst acc) -> NoDup (map fst (addAmount k a acc)).
Proof.
  intros Hnd. rewrite keys_addAmount.
  destruct (lookupAmount k acc) eqn:Hk; [exact Hnd|].
  apply NoDup_app. split; [exact Hnd|]. split.
  - intros x Hx Hin. apply list_elem_of_singleton in Hin. subst x.
    apply lookupAmount_None in Hk. contradiction.
  - apply NoDup_singleton.
Qed.

Lemma NoDup_fold_addAmount (its : list Item) (acc : amounts) :
  NoDup (map fst acc) ->
  NoDup (map fst (fold_left (fun acc item => addAmount (vendor item) (itemTotal item) acc)
                            its acc)).
Proof.
  revert acc. induction its as [|item rest IH]; intros acc Hnd; [exact Hnd|].
  cbn [fold_left]. apply IH, NoDup_keys_addAmount, Hnd.
Qed.

Lemma NoDup_vendorAmounts (its : list Item) : NoDup (map fst (vendorAmounts its)).
Proof. apply NoDup_fold_addAmount. constructor. Qed.

(** The sum carried from [sum] over the vendor's items. *)
Lemma share_unrepresented (v : string) (its : list Item) (sum : float) :
  represented v its = false ->
  fold_left (fun sum item =>
               if String.eqb (vendor item) v
               then (sum + price item * quantity item)%float else sum) its sum = sum.
Proof.
  revert sum. induction its as [|item rest IH]; intros sum H; [reflexivity|].
  cbn in H. apply orb_false_elim in H as [Hv Hrest].
  cbn [fold_left]. rewrite Hv. apply IH, Hrest.
Qed.

Lemma carriedOn_reset (sum : float) :
  carriedOn sum = true -> (if Js.falsy sum then 0%float else sum) = sum.
Proof.
  unfold carriedOn. destruct (Js.falsy sum); [|reflexivity]. cbn.
  intros H. apply FloatAxioms.Leibniz.eqb_spec in H. congruence.
Qed.

Lemma fold_addAmount_lookup (v : string) (its : list Item) :
  forall (acc : amounts) (sum : float),
    lookupAmount v acc = Some sum \/ (lookupAmount v acc = None /\ sum = 0%float) ->
    plainSums v its sum = true ->
    lookupAmount v (fold_left (fun acc item => addAmount (vendor item) (itemTotal item) acc)
                              its acc)
    = if represented v its
      then Some (fold_left (fun sum item =>
                              if String.eqb (vendor item) v
                              then (sum + price item * quantity item)%float else sum)
                           its sum)
      else lookupAmount v acc.
Proof.
  induction its as [|item rest IH]; intros acc sum Hacc Hplain; [reflexivity|].
  cbn [fold_left represented existsb]. cbn [plainSums] in Hplain.
  destruct (String.eqb_spec (vendor item) v) as [Hv|Hv].
  - apply andb_prop in Hplain as [Hcarried Hplain]. cbn [orb].
    assert (Hnew : lookupAmount v (addAmount (vendor item) (itemTotal item) acc)
                   = Some (sum + price item * quantity item)%float).
    { rewrite Hv, lookupAmount_addAmount_eq. unfold itemTotal.
      destruct Hacc as [Hs|[Hn ->]].
      - rewrite Hs, (carriedOn_reset sum Hcarried). reflexivity.
      - rewrite Hn. reflexivity. }
    rewrite (IH _ (sum + price item * quantity item)%float (or_introl Hnew) Hplain).
    fold (represented v rest).
    destruct (represented v rest) eqn:Hrest; [reflexivity|].
    rewrite Hnew, (share_unrepresented v rest _ Hrest). reflexivity.
  - cbn [orb]. fold (represented v rest).
    rewrite (IH (addAmount (vendor item) (itemTotal item) acc) sum); [|
      rewrite (lookupAmount_addAmount_ne v _ _ acc Hv); exact Hacc|exact Hplain].
    rewrite (lookupAmount_addAmount_ne v _ _ acc Hv). reflexivity.
Qed.

(** The amount the grouping gives a vendor is its share. *)
Lemma lookupAmount_vendorAmounts (v : string) (its : list Item) :
  plainSums v its 0 = true ->
  lookupAmount v (vendorAmounts its)
  = if represented v its then Some (share v its) else None.
Proof.
  intros H. unfold vendorAmounts, share.
  rewrite (fold_addAmount_lookup v its [] 0%float); [reflexivity| |exact H].
  right. split; reflexivity.
Qed.

(** Whatever the sums, the grouping has an entry for the represented
    vendors and for no other. *)
Lemma fold_addAmount_keys (v : string) (its : list Item) :
  forall acc : amounts,
    lookupAmount v (fold_left (fun acc item => addAmount (vendor item) (itemTotal item) acc)
                              its acc) = None
    <-> lookupAmount v acc = None /\ represented v its = false.
Proof.
  induction its as [|item rest IH]; intros acc; cbn [fold_left represented existsb].
  - split; [intros H; split; [exact H|reflexivity]|intros [H _]; exact H].
  - rewrite IH. fold (represented v rest).
    destruct (String.eqb_spec (vendor item) v) as [Hv|Hv]; cbn [orb].
    + rewrite Hv, lookupAmount_addAmount_eq. split; [intros [H _]; discriminate H|].
      intros [_ H]; discriminate H.
    + rewrite (lookupAmount_addAmount_ne v _ _ acc Hv). reflexivity.
Qed.

Lemma vendorAmounts_keys (v : string) (its : list Item) :
  v ∈ map fst (vendorAmounts its) <-> represented v its = true.
Proof.
  destruct (represented v its) eqn:Hrep.
  - split; [reflexivity|intros _].
    destruct (decide (v ∈ map fst (vendorAmounts its))) as [Hin|Hout]; [exact Hin|].
    apply lookupAmount_None in Hout. apply fold_addAmount_keys in Hout as [_ H].
    congruence.
  - split; [|discriminate]. intros Hin. exfalso.
    assert (H : lookupAmount v (vendorAmounts its) = None)
      by (apply fold_addAmount_keys; split; [reflexivity|exact Hrep]).
    apply lookupAmount_None in H. contradiction.
Qed.

End Grouping.

(** ** The two fan-outs, vendor by vendor *)
Section Loops.

(** The two loops have the same shape; [credit] is what they do to a
    balance. *)
Variable credit : float -> VendorBalance.t -> VendorBalance.t.
Variable loop : Order.amounts -> gmap string VendorBalance.t
                -> outcome * gmap string VendorBalance.t.

Hypothesis loop_nil : forall s, loop [] s = (Returned, s).

Hypothesis loop_cons : forall k a rest s,
  loop ((k, a) :: rest) s
  = match s !! k with
    | Some b =>
        match VendorBalance.save (credit a b) with
        | Some b' => loop rest (<[k := b']> s)
        | None => (Thrown VendorBalance.validationFailed, s)
        end
    | None => loop rest s
    end.

(** A vendor without a document has none afterwards. *)
Lemma loop_absent (entries : Order.amounts) :
  forall s v, s !! v = None -> snd (loop entries s) !! v = None.
Proof.
  induction entries as [|[k a] rest IH]; intros s v Hv.
  - rewrite loop_nil. exact Hv.
  - rewrite loop_cons. destruct (s !! k) as [b|] eqn:Hk; [|apply IH, Hv].
    destruct (VendorBalance.save (credit a b)); [|exact Hv].
    apply IH. rewrite lookup_insert_ne; [exact Hv|congruence].
Qed.

(** A vendor with a document has one afterwards. *)
Lemma loop_present (entries : Order.amounts) :
  forall s v, is_Some (s !! v) -> is_Some (snd (loop entries s) !! v).
Proof.
  induction entries as [|[k a] rest IH]; intros s v Hv.
  - rewrite loop_nil. exact Hv.
  - rewrite loop_cons. destruct (s !! k) as [b|] eqn:Hk; [|apply IH, Hv].
    destruct (VendorBalance.save (credit a b)); [|exact Hv].
    apply IH. destruct (decide (k = v)) as [->|Hne].
    + rewrite lookup_insert_eq. eauto.
    + rewrite lookup_insert_ne by exact Hne. exact Hv.
Qed.

(** A vendor that is not among the entries keeps its balance. *)
Lemma loop_other (entries : Order.amounts) :
  forall s v, Order.lookupAmount v entries = None -> snd (loop entries s) !! v = s !! v.
Proof.
  induction entries as [|[k a] rest IH]; intros s v Hv.
  - rewrite loop_nil. reflexivity.
  - rewrite loop_cons. cbn in Hv.
    destruct (String.eqb_spec k v) as [|Hne]; [discriminate|].
    destruct (s !! k) as [b|] eqn:Hk; [|apply IH, Hv].
    destruct (VendorBalance.save (credit a b)); [|reflexivity].
    rewrite IH by exact Hv. apply lookup_insert_ne, Hne.
Qed.

(** When every balance it writes passes validation, the loop returns and has
    credited every entry that has a document. *)
Lemma loop_returns (entries : Order.amounts) :
  NoDup (map fst entries) ->
  forall s,
    (forall k a b, Order.lookupAmount k entries = Some a -> s !! k = Some b ->
                   VendorBalance.validate (credit a b) = true) ->
    fst (loop entries s) = Returned /\
    forall v,
      snd (loop entries s) !! v
      = match Order.lookupAmount v entries with
        | Some a => credit a <$> s !! v
        | None => s !! v
        end.
Proof.
  induction entries as [|[k a] rest IH]; intros Hnd s Hvalid.
  - rewrite loop_nil. split; reflexivity.
  - apply NoDup_cons in Hnd as [Hk Hnd]. apply lookupAmount_None in Hk.
    rewrite loop_cons.
    cbn [fst] in Hk.
    assert (Hrest : forall s1 : gmap string VendorBalance.t,
              (forall v, v <> k -> s1 !! v = s !! v) ->
              forall k' a' b', Order.lookupAmount k' rest = Some a' -> s1 !! k' = Some b' ->
                               VendorBalance.validate (credit a' b') = true).
    { intros s1 Hs1 k' a' b' Hl Hb. assert (Hne : k' <> k) by congruence.
      apply (Hvalid k' a' b'); [|rewrite <- Hs1 by exact Hne; exact Hb].
      cbn. destruct (String.eqb_spec k k'); [congruence|exact Hl]. }
    destruct (s !! k) as [b|] eqn:Hb.
    + assert (Hv : VendorBalance.validate (credit a b) = true).
      { apply (Hvalid k a b); [|exact Hb]. cbn. rewrite String.eqb_refl. reflexivity. }
      unfold VendorBalance.save. rewrite Hv.
      destruct (IH Hnd (<[k := credit a b]> s)) as [Hout Hlook].
      { apply Hrest. intros v Hne. apply lookup_insert_ne. congruence. }
      split; [exact Hout|]. intros v. rewrite Hlook. cbn [Order.lookupAmount].
      destruct (String.eqb_spec k v) as [<-|Hne].
      * rewrite Hk, lookup_insert_eq, Hb. reflexivity.
      * rewrite lookup_insert_ne by exact Hne. reflexivity.
    + destruct (IH Hnd s) as [Hout Hlook].
      { apply Hrest. intros v _. reflexivity. }
      split; [exact Hout|]. intros v. rewrite Hlook. cbn [Order.lookupAmount].
      destruct (String.eqb_spec k v) as [<-|Hne]; [|reflexivity].
      rewrite Hk, Hb. reflexivity.
Qed.

End Loops.

Section FanOut.
Import Order.

Lemma status_eqb_eq (a b : Status) : status_eqb a b = true <-> a = b.
Proof. destruct a, b; cbn; split; congruence. Qed.

Lemma escrowStatus_eqb_eq (a b : EscrowStatus) : escrowStatus_eqb a b = true <-> a = b.
Proof. destruct a, b; cbn; split; congruence. Qed.

Lemma paymentStatus_eqb_eq (a b : PaymentStatus) : paymentStatus_eqb a b = true <-> a = b.
Proof. destruct a, b; cbn; split; congruence. Qed.

Lemma preSave_fields (now : Date) (o : t) :
  escrowStatus (preSave now o) = escrowStatus o /\
  escrowReleaseDate (preSave now o) = escrowReleaseDate o /\
  items (preSave now o) = items o /\
  status (preSave now o) = status o /\
  paymentStatus (preSave now o) = paymentStatus o /\
  total (preSave now o) = total o /\
  isNew (preSave now o) = isNew o.
Proof.
  unfold preSave.
  destruct (isNew o && negb (bool_decide (is_Some (estimatedDelivery o))));
    match goal with
    | |- context [if ?c then _ else _] => destruct c
    end; cbn; auto 10.
Qed.

(** On a document that is not new the pre-save hook does nothing. *)
Lemma preSave_stored (now : Date) (o : t) : isNew o = false -> preSave now o = o.
Proof. intros H. unfold preSave. rewrite H. cbn. rewrite H. reflexivity. Qed.

Lemma persisted_stored (o : t) : isNew o = false -> persisted o = o.
Proof. destruct o. cbn. intros ->. reflexivity. Qed.

(** The post-save hook finds [isNew] cleared and credits nothing. *)
Lemma postSave_persisted (o : t) (s : gmap string VendorBalance.t) :
  postSave (persisted o) s = s.
Proof. reflexivity. Qed.

Lemma postSave_not_held (o : t) (s : gmap string VendorBalance.t) :
  escrowStatus o <> held -> postSave o s = s.
Proof.
  intros H. unfold postSave.
  destruct (escrowStatus o); [congruence| |]; rewrite andb_false_r; reflexivity.
Qed.

Lemma save_store (now : Date) (o : t) (s : gmap string VendorBalance.t) :
  snd (save now o s) = s.
Proof. unfold save, written. destruct (validate o); reflexivity. Qed.

Lemma save_valid (now : Date) (o : t) (s : gmap string VendorBalance.t) :
  validate o = true -> save now o s = (Returned, persisted (preSave now o), s).
Proof. intros H. unfold save, written. rewrite H. reflexivity. Qed.

Lemma save_invalid (now : Date) (o : t) (s : gmap string VendorBalance.t) :
  validate o = false -> save now o s = (Thrown validationFailed, o, s).
Proof. intros H. unfold save, written. rewrite H. reflexivity. Qed.

(** The document a save leaves in memory, and the one it leaves stored, have
    the escrow status of the document saved. *)
Lemma save_escrowStatus (now : Date) (o : t) (s : gmap string VendorBalance.t) :
  escrowStatus (snd (fst (save now o s))) = escrowStatus o.
Proof.
  unfold save, written. destruct (validate o); [|reflexivity].
  cbn. apply preSave_fields.
Qed.

Lemma validate_setEscrow (e : EscrowStatus) (d : option Date) (o : t) :
  validate (setEscrow e d o) = validate o.
Proof. reflexivity. Qed.

Lemma validate_setStatus (st : Status) (o : t) : validate (setStatus st o) = validate o.
Proof. reflexivity. Qed.

Lemma releaseLoop_cons (k : string) (a : float) (rest : amounts)
    (s : gmap string VendorBalance.t) :
  releaseLoop ((k, a) :: rest) s
  = match s !! k with
    | Some b =>
        match VendorBalance.save (VendorBalance.creditRelease a b) with
        | Some b' => releaseLoop rest (<[k := b']> s)
        | None => (Thrown VendorBalance.validationFailed, s)
        end
    | None => releaseLoop rest s
    end.
Proof. reflexivity. Qed.

Lemma pendingLoop_cons (k : string) (a : float) (rest : amounts)
    (s : gmap string VendorBalance.t) :
  pendingLoop ((k, a) :: rest) s
  = match s !! k with
    | Some b =>
        match VendorBalance.save (VendorBalance.creditPending a b) with
        | Some b' => pendingLoop rest (<[k := b']> s)
        | None => (Thrown VendorBalance.validationFailed, s)
        end
    | None => pendingLoop rest s
    end.
Proof. reflexivity. Qed.

Lemma releaseEscrow_throws (now : Date) (o : t) (s : gmap string VendorBalance.t) :
  escrowStatus o <> held ->
  releaseEscrow now o s = (Thrown "Escrow funds are not held", o, s).
Proof. intros H. unfold releaseEscrow. destruct (escrowStatus o); congruence. Qed.

(** Whatever a call of [releaseEscrow] on a held order does, the document it
    leaves in memory is released. *)
Lemma releaseEscrow_memory (now : Date) (o : t) (s : gmap string VendorBalance.t) :
  escrowStatus o = held ->
  escrowStatus (snd (fst (releaseEscrow now o s))) = released.
Proof.
  intros H. unfold releaseEscrow. rewrite H.
  destruct (releaseLoop _ s) as [[|m] s1]; [|reflexivity].
  rewrite save_escrowStatus. reflexivity.
Qed.

(** The amounts of the vendors that have a document, when their running
    sums are plain. *)
Lemma entries_shares (its : list Item) (s : gmap string VendorBalance.t) (k : string)
    (a : float) :
  (forall v, represented v its = true -> is_Some (s !! v) -> plainSums v its 0 = true) ->
  lookupAmount k (vendorAmounts its) = Some a ->
  is_Some (s !! k) ->
  represented k its = true /\ a = share k its.
Proof.
  intros Hplain Hl Hk.
  assert (Hrep : represented k its = true).
  { apply vendorAmounts_keys. destruct (decide (k ∈ map fst (vendorAmounts its))); [assumption|].
    exfalso. apply lookupAmount_None in n. congruence. }
  split; [exact Hrep|].
  rewrite (lookupAmount_vendorAmounts k its (Hplain k Hrep Hk)), Hrep in Hl. congruence.
Qed.

End FanOut.

(** ** Releasing escrow *)




(** The settlement scenario: the grouped amounts, and the balances after the
    release. *)
Example scenario_shares :
  Order.vendorAmounts sampleItems = [(vendorA, 80%float); (vendorB, 40%float)].
Proof. reflexivity. Qed.

Example scenario_delivered :
  let '(_, _, s2) := Order.releaseEscrow 1700000500000 sampleOrder sampleStore in
  s2 !! vendorA =
    Some (VendorBalance.mk vendorA (Some "65f1b00000000000000000aa")
            80 80 0 0 None (Some 0%float) 10 true) /\
  s2 !! vendorB =
    Some (VendorBalance.mk vendorB (Some "65f1b00000000000000000aa")
            40 40 0 0 None (Some 0%float) 10 true).
Proof. vm_compute. repeat split. Qed.

(** The amounts are sums of doubles: three times 33.88 is not 101.64, and
    0.10 and 0.20 do not add up to 0.30. *)
Example shares_in_double_arithmetic :
  Order.vendorAmounts centItems
  = [(vendorA, 101.64000000000001%float); (vendorB, 0.30000000000000004%float)].
Proof. reflexivity. Qed.

(** The dispatch of the review handler on its [action]. *)
Ltac case_action action :=
  destruct (String.eqb action "approve");
  [|destruct (String.eqb action "reject");
    [|destruct (String.eqb action "requires_review")]].

(** ** Escrow status never moves backward *)
Section EscrowMonotone.
Import Order Lifecycle.

Lemma save_cases (now : Date) (o : t) (s : gmap string VendorBalance.t) :
  save now o s = (Returned, persisted (preSave now o), s) \/
  save now o s = (Thrown validationFailed, o, s).
Proof.
  destruct (validate o) eqn:Hv; [left; apply save_valid, Hv|right; apply save_invalid, Hv].
Qed.

Lemma persisted_preSave_escrowStatus (now : Date) (o : t) :
  escrowStatus (persisted (preSave now o)) = escrowStatus o.
Proof. cbn. apply preSave_fields. Qed.

(** What a save of a changed document leaves stored has the escrow status
    of the change or of the document as it was. *)
Lemma stored_save (now : Date) (before o : t) (s : gmap string VendorBalance.t) :
  (escrowStatus (fst (stored before (save now o s))) = escrowStatus o \/
   fst (stored before (save now o s)) = before) /\
  snd (stored before (save now o s)) = s.
Proof.
  destruct (save_cases now o s) as [-> | ->]; cbn [stored fst snd].
  - split; [left; apply persisted_preSave_escrowStatus|reflexivity].
  - split; [right|]; reflexivity.
Qed.

Lemma releaseEscrow_cases (now : Date) (o : t) (s : gmap string VendorBalance.t) :
  escrowStatus o = held ->
  exists s1,
    releaseEscrow now o s
    = (Returned, persisted (preSave now (setEscrow released (Some now) o)), s1) \/
    exists message,
      releaseEscrow now o s = (Thrown message, setEscrow released (Some now) o, s1).
Proof.
  intros Hheld. unfold releaseEscrow. rewrite Hheld.
  destruct (releaseLoop _ s) as [[|message] s1]; exists s1.
  - destruct (save_cases now (setEscrow released (Some now) o) s1) as [-> | ->];
      [left; reflexivity|right; eexists; reflexivity].
  - right. eexists. reflexivity.
Qed.

Lemma attachToOrder_escrowStatus (proofId : ObjectId) (o : t) :
  escrowStatus (DeliveryProof.attachToOrder proofId o) = escrowStatus o.
Proof.
  unfold DeliveryProof.attachToOrder. destruct (Js.falsyNumber _); reflexivity.
Qed.

Lemma written_escrowStatus (now : Date) (o o' : t) :
  written now o = Some o' -> escrowStatus o' = escrowStatus o.
Proof.
  unfold written. destruct (validate o); [|discriminate].
  intros [= <-]. apply persisted_preSave_escrowStatus.
Qed.

Lemma moveOrder_escrowStatus (now : Date) (st : Status) (p' : DeliveryProof.t) (o : t)
    (response : DeliveryProof.ReviewResponse) (p'' : DeliveryProof.t) (o' : t) :
  DeliveryProof.moveOrder now st p' o = (response, Some (p'', o')) ->
  escrowStatus o' = escrowStatus o.
Proof.
  unfold DeliveryProof.moveOrder.
  destruct (written now (setStatus st o)) as [o1|] eqn:Hw; intros [= _ _ <-];
    [|reflexivity].
  apply (written_escrowStatus _ _ _ Hw).
Qed.

Lemma review_escrowStatus (action adminId notes : string) (now : Date)
    (proof : DeliveryProof.t) (o : t) :
  match DeliveryProof.review action adminId notes now (Some (proof, o)) with
  | (_, Some (_, o')) => escrowStatus o' = escrowStatus o
  | (_, None) => True
  end.
Proof.
  unfold DeliveryProof.review. case_action action.
  - destruct (DeliveryProof.approve adminId notes now proof); [|reflexivity].
    destruct (status_eqb (status o) processing); [|reflexivity].
    destruct (DeliveryProof.moveOrder now shipped t0 o) as [r [[p1 o1]|]] eqn:Hm; [|exact I].
    apply (moveOrder_escrowStatus _ _ _ _ _ _ _ Hm).
  - destruct (DeliveryProof.reject adminId notes now proof); [|reflexivity].
    destruct (status_eqb (status o) processing); [|reflexivity].
    destruct (DeliveryProof.moveOrder now pending t0 o) as [r [[p1 o1]|]] eqn:Hm; [|exact I].
    apply (moveOrder_escrowStatus _ _ _ _ _ _ _ Hm).
  - destruct (DeliveryProof.requiresReview adminId notes now proof); reflexivity.
  - reflexivity.
Qed.

Lemma step_escrowAdvance (op : Op) (o : t) (s : gmap string VendorBalance.t) :
  escrowAdvance (escrowStatus o) (escrowStatus (fst (step (o, s) op))).
Proof.
  unfold escrowAdvance.
  destruct op as [now|now| |now newStatus|now number url|now|now| |now newStatus|now
                 |now proofId|action adminId notes now proof]; cbn [step].
  - left. destruct (stored_save now o o s) as [[H|H] _]; rewrite H; reflexivity.
  - left. apply preSave_fields.
  - left. reflexivity.
  - left. unfold updateStatus.
    destruct (stored_save now o (setStatus newStatus o) s) as [[H|H] _]; rewrite H; reflexivity.
  - left. unfold addTracking.
    destruct (stored_save now o (setStatus shipped (setTracking number url o)) s)
      as [[H|H] _]; rewrite H; reflexivity.
  - left. unfold OrderRoutes.cancel.
    destruct (status_eqb (status o) pending); [|reflexivity].
    destruct (save_cases now (setStatus cancelled o) s) as [-> | ->]; cbn [fst];
      [rewrite persisted_preSave_escrowStatus; reflexivity|reflexivity].
  - destruct (escrowStatus o) eqn:E.
    + destruct (releaseEscrow_cases now o s E) as [s1 [-> | [message ->]]]; cbn [stored fst].
      * right. split; [reflexivity|]. rewrite persisted_preSave_escrowStatus. reflexivity.
      * left. exact E.
    + left. rewrite releaseEscrow_throws by congruence. exact E.
    + left. rewrite releaseEscrow_throws by congruence. exact E.
  - left. reflexivity.
  - unfold Admin.updateOrderStatus.
    destruct (status_eqb newStatus delivered
              && escrowStatus_eqb (escrowStatus (setStatus newStatus o)) held) eqn:Hg.
    + apply andb_prop in Hg as [_ Hh]. apply escrowStatus_eqb_eq in Hh. cbn in Hh.
      destruct (releaseEscrow_cases now (setStatus newStatus o) s Hh)
        as [s1 [-> | [message ->]]].
      * right. split; [exact Hh|].
        match goal with
        | |- context [save now ?d s1] =>
            destruct (save_cases now d s1) as [-> | ->]; cbn [fst]
        end; rewrite !persisted_preSave_escrowStatus; reflexivity.
      * left. reflexivity.
    + left. destruct (save_cases now (setStatus newStatus o) s) as [-> | ->]; cbn [fst];
        [rewrite persisted_preSave_escrowStatus; reflexivity|reflexivity].
  - unfold Admin.releaseEscrow.
    destruct (escrowStatus o) eqn:E; cbn [escrowStatus_eqb negb]; [|left; exact E..].
    destruct (releaseEscrow_cases now o s E) as [s1 [-> | [message ->]]]; cbn [fst].
    + right. split; [reflexivity|]. rewrite persisted_preSave_escrowStatus. reflexivity.
    + left. exact E.
  - left. destruct (written now (DeliveryProof.attachToOrder proofId o)) as [o1|] eqn:Hw;
      cbn [from_option fst id]; [|reflexivity].
    rewrite (written_escrowStatus _ _ _ Hw). apply attachToOrder_escrowStatus.
  - left. pose proof (review_escrowStatus action adminId notes now proof o) as H.
    destruct (DeliveryProof.review action adminId notes now (Some (proof, o)))
      as [r [[p1 o1]|]]; [exact H|reflexivity].
Qed.

Lemma addToVendorPending_not_held (o : t) (s : gmap string VendorBalance.t) :
  escrowStatus o <> held -> addToVendorPending o s = (Returned, s).
Proof. intros H. unfold addToVendorPending. destruct (escrowStatus o); congruence. Qed.

Lemma step_store_not_held (op : Op) (o : t) (s : gmap string VendorBalance.t) :
  escrowStatus o <> held -> snd (step (o, s) op) = s.
Proof.
  intros Hn.
  destruct op as [now|now| |now newStatus|now number url|now|now| |now newStatus|now
                 |now proofId|action adminId notes now proof]; cbn [step].
  - apply stored_save.
  - reflexivity.
  - apply postSave_not_held, Hn.
  - apply stored_save.
  - apply stored_save.
  - unfold OrderRoutes.cancel. destruct (status_eqb (status o) pending); [|reflexivity].
    destruct (save_cases now (setStatus cancelled o) s) as [-> | ->]; reflexivity.
  - rewrite releaseEscrow_throws by exact Hn. reflexivity.
  - rewrite addToVendorPending_not_held by exact Hn. reflexivity.
  - unfold Admin.updateOrderStatus.
    assert (Hb : escrowStatus_eqb (escrowStatus (setStatus newStatus o)) held = false)
      by (cbn; destruct (escrowStatus o); [congruence|reflexivity|reflexivity]).
    rewrite Hb, andb_false_r.
    destruct (save_cases now (setStatus newStatus o) s) as [-> | ->]; reflexivity.
  - unfold Admin.releaseEscrow.
    destruct (escrowStatus o); [congruence|reflexivity|reflexivity].
  - reflexivity.
  - destruct (DeliveryProof.review action adminId notes now (Some (proof, o)))
      as [r [[p1 o1]|]]; reflexivity.
Qed.

Lemma run_not_held (ops : list Op) (o : t) (s : gmap string VendorBalance.t) :
  escrowStatus o <> held ->
  escrowStatus (fst (run ops (o, s))) = escrowStatus o /\ snd (run ops (o, s)) = s.
Proof.
  revert o s. induction ops as [|op ops IH]; intros o s Hn; [split; reflexivity|].
  change (run (op :: ops) (o, s)) with (run ops (step (o, s) op)).
  pose proof (step_escrowAdvance op o s) as Ha.
  pose proof (step_store_not_held op o s Hn) as Hs.
  destruct (step (o, s) op) as [o1 s1]. cbn [fst snd] in Ha, Hs. subst s1.
  destruct Ha as [Ha|[Ha _]]; [|congruence].
  destruct (IH o1 s) as [H1 H2]; [congruence|].
  split; [congruence|exact H2].
Qed.

End EscrowMonotone.

(** C3. When the order's escrow is not held, [releaseEscrow] throws and
    leaves the order and the whole balance store as they were, and so does the
    admin release handler; a second [releaseEscrow] after a first one always
    throws and credits nothing; every operation on an order leaves
    [escrowStatus] as it is or moves it from held to released, and once it is
    not held no sequence of operations changes it or the balances. *)
Theorem releaseEscrow_not_held_rejected :
  (forall now o (s : gmap string VendorBalance.t),
      Order.escrowStatus o <> Order.held ->
      Order.releaseEscrow now o s = (Thrown "Escrow funds are not held", o, s) /\
      Admin.releaseEscrow now o s = (Admin.EscrowNotHeld, o, s)) /\
  (forall now now' o (s : gmap string VendorBalance.t),
      let '(_, o', s') := Order.releaseEscrow now o s in
      Order.releaseEscrow now' o' s' = (Thrown "Escrow funds are not held", o', s')) /\
  (forall op o (s : gmap string VendorBalance.t),
      let o' := fst (Lifecycle.step (o, s) op) in
      Order.escrowStatus o' = Order.escrowStatus o \/
      (Order.escrowStatus o = Order.held /\ Order.escrowStatus o' = Order.released)) /\
  (forall ops o (s : gmap string VendorBalance.t),
      Order.escrowStatus o <> Order.held ->
      Order.escrowStatus (fst (Lifecycle.run ops (o, s))) = Order.escrowStatus o /\
      snd (Lifecycle.run ops (o, s)) = s).
Proof.
  split; [|split; [|split]].
  - intros now o s Hn. split; [apply releaseEscrow_throws, Hn|].
    unfold Admin.releaseEscrow.
    destruct (Order.escrowStatus o); [congruence|reflexivity|reflexivity].
  - intros now now' o s.
    destruct (Order.escrowStatus o) eqn:E.
    + pose proof (releaseEscrow_memory now o s E) as Hm.
      destruct (Order.releaseEscrow now o s) as [[out o'] s']. cbn [fst snd] in Hm.
      apply releaseEscrow_throws. congruence.
    + rewrite (releaseEscrow_throws now) by congruence.
      apply releaseEscrow_throws. congruence.
    + rewrite (releaseEscrow_throws now) by congruence.
      apply releaseEscrow_throws. congruence.
  - intros op o s. apply step_escrowAdvance.
  - intros ops o s Hn. apply run_not_held, Hn.
Qed.

Lemma releaseEscrow_not_held_rejected_witness :
  Order.escrowStatus releasedOrder <> Order.held /\
  Order.releaseEscrow 1700000900000 releasedOrder sampleStore =
    (Thrown "Escrow funds are not held", releasedOrder, sampleStore) /\
  Admin.releaseEscrow 1700000900000 releasedOrder sampleStore =
    (Admin.EscrowNotHeld, releasedOrder, sampleStore).
Proof.
  assert (H : Order.escrowStatus releasedOrder <> Order.held)
    by (vm_compute; discriminate).
  split; [exact H|].
  exact (proj1 releaseEscrow_not_held_rejected 1700000900000 releasedOrder sampleStore H).
Defined.

(** ** Vendors without a balance document *)




(** ** Pending credit at creation *)

(** C4, at the failing input and in general.  The creation handler builds
    the order without [escrowAmount], which the schema requires and which
    only a pre-save hook would set: validation comes first and rejects the
    save, so no order is stored and no balance is credited.  Nor does any
    other save credit a balance: the post-save hook runs when [isNew] has
    been cleared.  For the sample request vendor A's share is 80.00 and its
    pending balance stays 0, while [addToVendorPending], had it been called
    on the new order, would have made it 80.00. *)
Theorem creation_credits_nothing :
  (forall now number req (s : gmap string VendorBalance.t),
      OrderRoutes.create now number req s
      = (Thrown Order.validationFailed, OrderRoutes.newOrder number req, s)) /\
  (forall now o (s : gmap string VendorBalance.t), snd (Order.save now o s) = s) /\
  Order.share vendorA (OrderRoutes.reqItems sampleRequest) = 80%float /\
  VendorBalance.pendingBalance <$> sampleStore !! vendorA = Some 0%float /\
  OrderRoutes.create 1700000000000 "ORD-240101-0001" sampleRequest sampleStore
    = (Thrown Order.validationFailed,
       OrderRoutes.newOrder "ORD-240101-0001" sampleRequest, sampleStore) /\
  Order.save 1700000000000
    (Order.setEscrowAmount (Some 120%float)
       (OrderRoutes.newOrder "ORD-240101-0001" sampleRequest)) sampleStore
    = (Returned, sampleOrder, sampleStore) /\
  VendorBalance.pendingBalance
    <$> snd (Order.addToVendorPending
               (OrderRoutes.newOrder "ORD-240101-0001" sampleRequest) sampleStore) !! vendorA
    = Some 80%float.
Proof.
  assert (H : forall now number req (s : gmap string VendorBalance.t),
            OrderRoutes.create now number req s
            = (Thrown Order.validationFailed, OrderRoutes.newOrder number req, s)).
  { intros now number req s. unfold OrderRoutes.create. apply save_invalid.
    unfold Order.validate. cbn. rewrite andb_false_r. reflexivity. }
  split; [exact H|]. split; [intros now o s; apply save_store|].
  split; [reflexivity|]. split; [reflexivity|]. split; [apply H|].
  split; vm_compute; reflexivity.
Qed.

(** ** Shares and the escrow amount *)
Section EscrowAmount.
Import Order Lifecycle.

Lemma amountKept_refl (o : t) : amountKept o o.
Proof. unfold amountKept. auto. Qed.

Lemma amountKept_preSave (now : Date) (o : t) : amountKept o (persisted (preSave now o)).
Proof.
  unfold amountKept, preSave.
  destruct (isNew o && negb (bool_decide (is_Some (estimatedDelivery o)))); cbn;
    match goal with
    | |- context [if ?c then _ else _] => destruct c eqn:Hc
    end; cbn; (split; [reflexivity|]); (split; [reflexivity|]); try (left; reflexivity);
    right; apply andb_prop in Hc as [_ Hc]; auto.
Qed.

(** A change of the status, the tracking fields or the escrow status before
    the save does not matter. *)
Lemma amountKept_saved (now : Date) (o o1 : t) :
  total o1 = total o -> items o1 = items o -> escrowAmount o1 = escrowAmount o ->
  amountKept o (persisted (preSave now o1)).
Proof.
  intros Ht Hi He. destruct (amountKept_preSave now o1) as (H1 & H2 & H3).
  unfold amountKept. rewrite H1, H2, Ht, Hi. split; [reflexivity|]. split; [reflexivity|].
  rewrite <- He, <- Ht. exact H3.
Qed.

Lemma amountKept_stored (now : Date) (o o1 : t) (s : gmap string VendorBalance.t) :
  total o1 = total o -> items o1 = items o -> escrowAmount o1 = escrowAmount o ->
  amountKept o (fst (stored o (save now o1 s))).
Proof.
  intros Ht Hi He. destruct (save_cases now o1 s) as [-> | ->]; cbn [stored fst].
  - apply amountKept_saved; assumption.
  - apply amountKept_refl.
Qed.

Lemma amountKept_written (now : Date) (o o1 o' : t) :
  total o1 = total o -> items o1 = items o -> escrowAmount o1 = escrowAmount o ->
  written now o1 = Some o' -> amountKept o o'.
Proof.
  intros Ht Hi He. unfold written. destruct (validate o1); [|discriminate].
  intros [= <-]. apply amountKept_saved; assumption.
Qed.

Lemma amountKept_release (now : Date) (o : t) (s : gmap string VendorBalance.t) :
  amountKept o (fst (stored o (releaseEscrow now o s))).
Proof.
  destruct (escrowStatus o) eqn:E.
  - destruct (releaseEscrow_cases now o s E) as [s1 [-> | [message ->]]]; cbn [stored fst].
    + apply amountKept_saved; reflexivity.
    + apply amountKept_refl.
  - rewrite releaseEscrow_throws by congruence. apply amountKept_refl.
  - rewrite releaseEscrow_throws by congruence. apply amountKept_refl.
Qed.

Lemma amountKept_attach (now : Date) (proofId : ObjectId) (o : t) :
  amountKept o (default o (written now (DeliveryProof.attachToOrder proofId o))).
Proof.
  unfold written, DeliveryProof.attachToOrder.
  destruct (Js.falsyNumber (escrowAmount (setDeliveryProof (Some proofId) o))) eqn:Hf.
  - destruct (validate _); cbn [from_option id]; [|apply amountKept_refl].
    match goal with
    | |- amountKept o (persisted (preSave now ?d)) =>
        destruct (amountKept_preSave now d) as (H1 & H2 & H3)
    end.
    unfold amountKept. rewrite H1, H2.
    split; [reflexivity|]. split; [reflexivity|]. right. split; [exact Hf|].
    destruct H3 as [-> | [_ ->]]; reflexivity.
  - destruct (validate _); cbn [from_option id]; [|apply amountKept_refl].
    apply amountKept_saved; reflexivity.
Qed.

Lemma amountKept_review (action adminId notes : string) (now : Date)
    (proof : DeliveryProof.t) (o : t) :
  match DeliveryProof.review action adminId notes now (Some (proof, o)) with
  | (_, Some (_, o')) => amountKept o o'
  | (_, None) => True
  end.
Proof.
  assert (Hmove : forall st p',
            match DeliveryProof.moveOrder now st p' o with
            | (_, Some (_, o')) => amountKept o o'
            | (_, None) => True
            end).
  { intros st p'. unfold DeliveryProof.moveOrder.
    destruct (written now (setStatus st o)) as [o1|] eqn:Hw; [|apply amountKept_refl].
    apply (amountKept_written now o (setStatus st o) o1); auto. }
  unfold DeliveryProof.review. case_action action.
  - destruct (DeliveryProof.approve adminId notes now proof); [|apply amountKept_refl].
    destruct (status_eqb (status o) processing); [apply Hmove|apply amountKept_refl].
  - destruct (DeliveryProof.reject adminId notes now proof); [|apply amountKept_refl].
    destruct (status_eqb (status o) processing); [apply Hmove|apply amountKept_refl].
  - destruct (DeliveryProof.requiresReview adminId notes now proof); apply amountKept_refl.
  - apply amountKept_refl.
Qed.

Lemma step_amountKept (op : Op) (o : t) (s : gmap string VendorBalance.t) :
  amountKept o (fst (step (o, s) op)).
Proof.
  destruct op as [now|now| |now newStatus|now number url|now|now| |now newStatus|now
                 |now proofId|action adminId notes now proof]; cbn [step].
  - apply amountKept_stored; reflexivity.
  - cbn [fst]. destruct (amountKept_preSave now o) as (H1 & H2 & H3).
    unfold amountKept. cbn in H1, H2, H3. auto.
  - apply amountKept_refl.
  - apply amountKept_stored; reflexivity.
  - apply amountKept_stored; reflexivity.
  - unfold OrderRoutes.cancel. destruct (status_eqb (status o) pending);
      [|apply amountKept_refl].
    destruct (save_cases now (setStatus cancelled o) s) as [-> | ->]; cbn [fst];
      [apply amountKept_saved; reflexivity|apply amountKept_refl].
  - apply amountKept_release.
  - apply amountKept_refl.
  - unfold Admin.updateOrderStatus.
    destruct (status_eqb newStatus delivered
              && escrowStatus_eqb (escrowStatus (setStatus newStatus o)) held) eqn:Hg.
    + apply andb_prop in Hg as [_ Hh]. apply escrowStatus_eqb_eq in Hh. cbn in Hh.
      destruct (releaseEscrow_cases now (setStatus newStatus o) s Hh)
        as [s1 [-> | [message ->]]]; [|apply amountKept_refl].
      assert (Hfirst : amountKept o
                (persisted (preSave now (setEscrow released (Some now)
                                           (setStatus newStatus o)))))
        by (apply amountKept_saved; reflexivity).
      match goal with
      | |- context [save now ?d s1] =>
          destruct (save_cases now d s1) as [-> | ->]; cbn [fst]
      end; [|exact Hfirst].
      rewrite (preSave_stored now (persisted _)) by reflexivity.
      rewrite persisted_stored by reflexivity. exact Hfirst.
    + destruct (save_cases now (setStatus newStatus o) s) as [-> | ->]; cbn [fst];
        [apply amountKept_saved; reflexivity|apply amountKept_refl].
  - unfold Admin.releaseEscrow.
    destruct (escrowStatus o) eqn:E; cbn [escrowStatus_eqb negb]; [|apply amountKept_refl..].
    destruct (releaseEscrow_cases now o s E) as [s1 [-> | [message ->]]]; cbn [fst];
      [apply amountKept_saved; reflexivity|apply amountKept_refl].
  - apply amountKept_attach.
  - pose proof (amountKept_review action adminId notes now proof o) as H.
    destruct (DeliveryProof.review action adminId notes now (Some (proof, o)))
      as [r [[p1 o1]|]]; [exact H|apply amountKept_refl].
Qed.

End EscrowAmount.

(** C2, as stated, fails.  The escrow amount is the order total, which
    carries shipping and tax, while the amounts of the vendors come from the
    line items: for the taxed order they add up to 120.00 and the escrow amount
    is 134.60.  And the amounts are sums of doubles: for the order of
    3 x 33.88, charged 101.64, the release credits vendor A with
    101.64000000000001, which is more than the escrow amount. *)
Lemma shares_differ_from_escrowAmount :
  Order.escrowAmount taxedOrder = Some 134.60%float /\
  Order.vendorAmounts (Order.items taxedOrder)
    = [(vendorA, 80%float); (vendorB, 40%float)] /\
  Order.sumAmounts (Order.vendorAmounts (Order.items taxedOrder)) = 120%float /\
  Order.escrowAmount centsOrder = Some 101.64%float /\
  fst (fst (Order.releaseEscrow 1700000500000 centsOrder sampleStore)) = Returned /\
  VendorBalance.availableBalance
    <$> snd (Order.releaseEscrow 1700000500000 centsOrder sampleStore) !! vendorA
    = Some 101.64000000000001%float /\
  (101.64 <? 101.64000000000001)%float = true.
Proof. vm_compute. repeat split. Qed.

(** C2, amended. The amounts computed by [releaseEscrow] and
    [addToVendorPending] list every vendor of the line items once and no other
    vendor, each with its share: the sum of price * quantity over its own
    items, added up in double arithmetic in the order of the items (for
    running sums the grouping carries on from).  The escrow amount is never
    computed from them: every operation on an order leaves the total and the
    items as they are, and leaves [escrowAmount] as it is or, where it is
    missing or 0, sets it to the total. *)
Theorem shares_and_escrow_amount :
  (forall its,
      NoDup (map fst (Order.vendorAmounts its)) /\
      (forall v, v ∈ map fst (Order.vendorAmounts its) <-> Order.represented v its = true) /\
      (forall v,
         Order.plainSums v its 0 = true ->
         Order.lookupAmount v (Order.vendorAmounts its)
         = if Order.represented v its then Some (Order.share v its) else None)) /\
  (forall op o (s : gmap string VendorBalance.t),
      let o' := fst (Lifecycle.step (o, s) op) in
      Order.total o' = Order.total o /\
      Order.items o' = Order.items o /\
      (Order.escrowAmount o' = Order.escrowAmount o \/
       (Js.falsyNumber (Order.escrowAmount o) = true /\
        Order.escrowAmount o' = Some (Order.total o)))).
Proof.
  split.
  - intros its. split; [apply NoDup_vendorAmounts|].
    split; [intros v; apply vendorAmounts_keys|].
    intros v. apply lookupAmount_vendorAmounts.
  - intros op o s. apply step_amountKept.
Qed.

Lemma shares_and_escrow_amount_witness :
  Order.lookupAmount vendorA (Order.vendorAmounts centItems)
  = Some (Order.share vendorA centItems).
Proof.
  exact (proj2 (proj2 (proj1 shares_and_escrow_amount centItems)) vendorA eq_refl).
Defined.

(** ** Payout requests *)


Section PayoutProperties.
Import Payout.
Context `{R : Js.Runtime}.

Variables (now : Date) (req : Request) (db : Db).
Variables (vendorId accountId : ObjectId) (b : VendorBalance.t) (account : BankAccount.t).

Lemma validAmount_Some (min : float) (max : option float) (r : Request) (v : Js.value) :
  validAmount min max r = Some v ->
  Payout.amount r = Some v /\ Js.isFloat min max v = true.
Proof.
  unfold validAmount. destruct (Payout.amount r) as [a|]; [|discriminate].
  destruct (Js.isFloat min max a) eqn:Hf; [|discriminate].
  cbn [andb]. destruct (match descriptionLength r with Some _ => _ | None => _ end);
    [|discriminate].
  intros [= <-]. split; [reflexivity|exact Hf].
Qed.

(** The caller is the owning vendor. *)
Hypothesis Hvendor : vendors db !! userId req = Some vendorId.
Hypothesis Hbalance : balances db !! vendorId = Some b.

Lemma requestPayout_out_of_bounds (amount : Js.value) :
  Payout.amount req = Some amount ->
  Js.lt amount (VendorBalance.minimumPayoutAmount b) = true \/
  Js.gt amount (VendorBalance.availableBalance b) = true ->
  succeeded (fst (requestPayout now req db)) = false /\
  snd (requestPayout now req db) = db.
Proof.
  intros Ha Hout. unfold requestPayout.
  destruct (validAmount 10 None req) as [v|] eqn:Hv; [|auto].
  apply validAmount_Some in Hv as [Hv _]. assert (v = amount) by congruence. subst v.
  destruct (negb _); [auto|]. rewrite Hvendor, Hbalance.
  destruct (VendorBalance.bankAccount b); [|auto].
  destruct (bankAccounts db !! _); [|auto].
  destruct (negb _); [auto|].
  destruct (Js.lt amount _); [auto|].
  destruct Hout as [Hout|Hout]; [discriminate|]. rewrite Hout. auto.
Qed.

Lemma requestPayout_floor :
  succeeded (fst (requestPayout now req db)) = true ->
  exists amount, Payout.amount req = Some amount /\ Js.isFloat 10 None amount = true.
Proof.
  unfold requestPayout.
  destruct (validAmount 10 None req) as [v|] eqn:Hv; [|discriminate].
  intros _. exists v. apply validAmount_Some, Hv.
Qed.

Hypothesis Hrole : role req = "vendor".
Hypothesis Hlinked : VendorBalance.bankAccount b = Some accountId.
Hypothesis Haccount : bankAccounts db !! accountId = Some account.
Hypothesis Hactive : BankAccount.isActive account = true.

Variable amount : Js.value.
Hypothesis Hvalid : validAmount 10 None req = Some amount.
Hypothesis Hmin : Js.lt amount (VendorBalance.minimumPayoutAmount b) = false.

Lemma requestPayout_insufficient :
  Js.gt amount (VendorBalance.availableBalance b) = true ->
  requestPayout now req db = (InsufficientAvailableBalance, db).
Proof.
  intros Hgt. unfold requestPayout.
  rewrite Hvalid, Hrole, String.eqb_refl, Hvendor, Hbalance, Hlinked, Haccount, Hactive.
  cbn [negb]. rewrite Hmin, Hgt. reflexivity.
Qed.

Lemma requestPayout_processed :
  Js.gt amount (VendorBalance.availableBalance b) = false ->
  requestPayout now req db
  = if VendorBalance.validate (paidOut now amount b)
    then (PayoutProcessed amount (paidOut now amount b),
          mkDb (vendors db) (<[vendorId := paidOut now amount b]> (balances db)) (bankAccounts db))
    else (PayoutFailed VendorBalance.validationFailed, db).
Proof.
  intros Hgt. unfold requestPayout.
  rewrite Hvalid, Hrole, String.eqb_refl, Hvendor, Hbalance, Hlinked, Haccount, Hactive.
  cbn [negb]. rewrite Hmin, Hgt. unfold VendorBalance.processPayout. rewrite Hgt.
  unfold VendorBalance.saved, VendorBalance.save. fold (paidOut now amount b).
  destruct (VendorBalance.validate (paidOut now amount b)); reflexivity.
Qed.

End PayoutProperties.



(** The example of the specification: 10.00 out of 10.00 leaves 0.00. *)
Example payout_of_all :
  Payout.requestPayout (R := wholeNumbers) 1700000000000
    (payoutOf (Js.Number 10.00)) (payoutDb 10.00 10.00)
  = (Payout.PayoutProcessed (Js.Number 10.00)
       (VendorBalance.mk vendorA (Some "65f1b00000000000000000aa") 10 0 0 10
          (Some 1700000000000) (Some 10%float) 10 true),
     Payout.mkDb (Payout.vendors (payoutDb 10.00 10.00))
       (<[vendorA :=
            VendorBalance.mk vendorA (Some "65f1b00000000000000000aa") 10 0 0 10
              (Some 1700000000000) (Some 10%float) 10 true]>
          (Payout.balances (payoutDb 10.00 10.00)))
       (Payout.bankAccounts (payoutDb 10.00 10.00))).
Proof. reflexivity. Qed.

(** An amount sent as the string '20': the validator lets it through, the
    comparisons read it as 20, the available balance goes from 100 to 80, and
    total payouts, which were 0, become the number read from '020'; with 20
    paid out before they would become 2020. *)
Example payout_of_a_string :
  Payout.requestPayout (R := wholeNumbers) 1700000000000
    (payoutOf (Js.Text "20")) (payoutDb 10.00 100.00)
  = (Payout.PayoutProcessed (Js.Text "20")
       (VendorBalance.mk vendorA (Some "65f1b00000000000000000aa") 100 80 0 20
          (Some 1700000000000) (Some 20%float) 10 true),
     Payout.mkDb (Payout.vendors (payoutDb 10.00 100.00))
       (<[vendorA :=
            VendorBalance.mk vendorA (Some "65f1b00000000000000000aa") 100 80 0 20
              (Some 1700000000000) (Some 20%float) 10 true]>
          (Payout.balances (payoutDb 10.00 100.00)))
       (Payout.bankAccounts (payoutDb 10.00 100.00))) /\
  Js.plusAssign (R := wholeNumbers) 20 (Js.Text "20") = 2020%float.
Proof. split; reflexivity. Qed.

(** ** Delivery proofs: re-upload and review *)

Lemma reupload_expired_iff (now : Date) (req : DeliveryProof.UploadRequest)
    (p : DeliveryProof.t) :
  fst (DeliveryProof.reupload now req p) = DeliveryProof.ReuploadWindowExpired <->
  DeliveryProof.uploadedAt p + DeliveryProof.reuploadWindow < now.
Proof.
  unfold DeliveryProof.reupload, DeliveryProof.reuploadWindow.
  destruct (Z.ltb_spec (15 * (1000 * 60)) (now - DeliveryProof.uploadedAt p)).
  - cbn. split; [lia|reflexivity].
  - destruct (DeliveryProof.save p _); cbn; (split; [discriminate|lia]).
Qed.

(** Fourteen minutes fifty-nine seconds after the upload the handler accepts
    a re-upload and moves the window; fifteen minutes and one second after,
    it answers that the window has expired. *)
Example reupload_window_edges :
  exists p,
    DeliveryProof.proofs uploadedDb !! sampleOrderId = Some p /\
    DeliveryProof.uploadedAt p = uploadTime /\
    DeliveryProof.reuploadExpiresAt p = uploadTime + 900000 /\
    (exists p',
        DeliveryProof.reupload (uploadTime + 899000) secondUpload p =
          (DeliveryProof.ProofUpdated p', p') /\
        DeliveryProof.imageUrl p' = "https://ik.example/proofs/two.jpg" /\
        DeliveryProof.imageId p' = "img_two" /\
        DeliveryProof.uploadedAt p' = uploadTime + 899000 /\
        DeliveryProof.reuploadExpiresAt p' = uploadTime + 899000 + 900000) /\
    DeliveryProof.reupload (uploadTime + 901000) secondUpload p =
      (DeliveryProof.ReuploadWindowExpired, p).
Proof.
  eexists. split; [vm_compute; reflexivity|].
  split; [reflexivity|]. split; [reflexivity|]. split; [|reflexivity].
  eexists. split; [vm_compute; reflexivity|]. repeat split.
Qed.

(** C6, at the failing input. After the proof was approved ([canReupload] is
    false, and the [canStillReupload] virtual is false), the order is still
    pending and the upload handler accepts a re-upload two minutes after the
    first upload: the image is replaced and the window is moved, while the
    proof stays approved.  At exactly fifteen minutes, when the current time is
    no longer before [reuploadExpiresAt], the handler accepts as well. *)
Theorem reupload_after_approval_accepted :
  exists p,
    DeliveryProof.proofs approvedDb !! sampleOrderId = Some p /\
    DeliveryProof.canReupload p = false /\
    DeliveryProof.canStillReupload (uploadTime + 120000) p = false /\
    (Order.status <$> DeliveryProof.orders approvedDb !! sampleOrderId) = Some Order.pending /\
    (exists p',
        fst (DeliveryProof.upload (uploadTime + 120000) "65f1f0000000000000000002"
               secondUpload approvedDb) = DeliveryProof.ProofUpdated p' /\
        DeliveryProof.proofs
          (snd (DeliveryProof.upload (uploadTime + 120000) "65f1f0000000000000000002"
                  secondUpload approvedDb)) !! sampleOrderId = Some p' /\
        DeliveryProof.imageId p' = "img_two" /\
        DeliveryProof.verificationStatus p' = DeliveryProof.approved /\
        DeliveryProof.reuploadExpiresAt p' = uploadTime + 120000 + 900000) /\
    (exists q q',
        DeliveryProof.proofs uploadedDb !! sampleOrderId = Some q /\
        DeliveryProof.canStillReupload (uploadTime + 900000) q = false /\
        fst (DeliveryProof.upload (uploadTime + 900000) "65f1f0000000000000000002"
               secondUpload uploadedDb) = DeliveryProof.ProofUpdated q').
Proof.
  eexists. split; [vm_compute; reflexivity|].
  split; [reflexivity|]. split; [reflexivity|]. split; [vm_compute; reflexivity|].
  split.
  - eexists. split; [vm_compute; reflexivity|].
    split; [vm_compute; reflexivity|]. repeat split.
  - eexists _, _. split; [vm_compute; reflexivity|].
    split; [reflexivity|]. vm_compute. reflexivity.
Qed.

Section ProofReview.
Import DeliveryProof.

Lemma save_fields (loaded p p' : t) :
  save loaded p = Some p' ->
  validate p = true /\
  order p' = order p /\ vendor p' = vendor p /\
  imageUrl p' = imageUrl p /\ imageId p' = imageId p /\
  uploadedAt p' = uploadedAt p /\
  verificationStatus p' = verificationStatus p /\
  adminNotes p' = adminNotes p /\
  reviewedBy p' = reviewedBy p /\ reviewedAt p' = reviewedAt p /\
  canReupload p' = canReupload p /\
  reuploadExpiresAt p'
  = (if negb (uploadedAt loaded =? uploadedAt p)
     then uploadedAt p + reuploadWindow else reuploadExpiresAt p).
Proof.
  unfold save, preSave. destruct (validate p); [|discriminate].
  destruct (negb (uploadedAt loaded =? uploadedAt p)); intros [= <-]; cbn; auto 15.
Qed.

Lemma step_canReupload (op : ProofLifecycle.Op) (p : t) :
  canReupload p = false -> canReupload (ProofLifecycle.step p op) = false.
Proof.
  intros H. destruct op as [adminId notes now|adminId notes now|adminId notes now|now req];
    cbn [ProofLifecycle.step].
  - unfold approve.
    match goal with
    | |- context [save p ?d] => destruct (save p d) as [p'|] eqn:Hs; cbn [from_option id]
    end; [|exact H].
    apply save_fields in Hs. destruct Hs as (_ & _ & _ & _ & _ & _ & _ & _ & _ & _ & Hc & _).
    rewrite Hc. reflexivity.
  - unfold reject.
    match goal with
    | |- context [save p ?d] => destruct (save p d) as [p'|] eqn:Hs; cbn [from_option id]
    end; [|exact H].
    apply save_fields in Hs. destruct Hs as (_ & _ & _ & _ & _ & _ & _ & _ & _ & _ & Hc & _).
    rewrite Hc. exact H.
  - unfold requiresReview.
    match goal with
    | |- context [save p ?d] => destruct (save p d) as [p'|] eqn:Hs; cbn [from_option id]
    end; [|exact H].
    apply save_fields in Hs. destruct Hs as (_ & _ & _ & _ & _ & _ & _ & _ & _ & _ & Hc & _).
    rewrite Hc. exact H.
  - unfold reupload. destruct (_ <? _); [exact H|].
    match goal with
    | |- context [save p ?d] => destruct (save p d) as [p'|] eqn:Hs; cbn [snd]
    end; [|exact H].
    apply save_fields in Hs. destruct Hs as (_ & _ & _ & _ & _ & _ & _ & _ & _ & _ & Hc & _).
    rewrite Hc. exact H.
Qed.

Lemma run_canReupload (ops : list ProofLifecycle.Op) (p : t) :
  canReupload p = false -> canReupload (ProofLifecycle.run ops p) = false.
Proof.
  revert p. induction ops as [|op ops IH]; intros p H; [exact H|].
  change (ProofLifecycle.run (op :: ops) p)
    with (ProofLifecycle.run ops (ProofLifecycle.step p op)).
  apply IH, step_canReupload, H.
Qed.

(** The document that [approve] saves. *)
Lemma approve_Some (adminId notes : string) (now : Date) (p p' : t) :
  approve adminId notes now p = Some p' ->
  verificationStatus p' = approved /\
  reviewedBy p' = Some adminId /\
  reviewedAt p' = Some now /\
  canReupload p' = false /\
  adminNotes p' = (if String.eqb notes "" then adminNotes p else Some (Text.trim notes)) /\
  imageUrl p' = imageUrl p /\ imageId p' = imageId p /\
  uploadedAt p' = uploadedAt p /\ reuploadExpiresAt p' = reuploadExpiresAt p.
Proof.
  unfold approve. intros Hs. apply save_fields in Hs. cbn in Hs.
  rewrite Z.eqb_refl in Hs. cbn in Hs.
  destruct Hs as (_ & _ & _ & H1 & H2 & H3 & H4 & H5 & H6 & H7 & H8 & H9). auto 10.
Qed.

(** [approve] is saved exactly when the proof passes validation with the
    notes it is given. *)
Lemma approve_saved (adminId notes : string) (now : Date) (p : t) :
  validate p = true ->
  is_Some (approve adminId notes now p) <-> (Text.units (Text.trim notes) <= 1000)%nat.
Proof.
  intros Hv. unfold approve, save, validate in *. cbn.
  apply andb_prop in Hv as [Hv Hadmin]. rewrite Hv. cbn [andb].
  destruct (String.eqb_spec notes "") as [->|Hne].
  - rewrite Hadmin. split; [intros _; cbn; lia|eauto].
  - cbn [Text.withinLength].
    destruct (Nat.leb_spec (Text.units (Text.trim notes)) 1000).
    + split; [intros _; assumption|eauto].
    + split; [intros [x Hx]; discriminate Hx|lia].
Qed.

Lemma upload_canReupload (now : Date) (newProofId : string) (req : UploadRequest)
    (db : Db) (k : string) (p p' : t) :
  proofs db !! k = Some p ->
  canReupload p = false ->
  proofs (snd (upload now newProofId req db)) !! k = Some p' ->
  canReupload p' = false.
Proof.
  intros Hk Hc. unfold upload.
  destruct (vendors db !! userId req); [|cbn; congruence].
  destruct (_ || _); [cbn; congruence|].
  destruct (orders db !! orderId req); [|cbn; congruence].
  destruct (negb _); [cbn; congruence|].
  destruct (proofs db !! orderId req) as [existing|] eqn:He.
  - destruct (reupload now req existing) as [response q] eqn:Hr. cbn.
    destruct (decide (orderId req = k)) as [Heq|Hne].
    + rewrite Heq, lookup_insert_eq. intros [= <-].
      assert (existing = p) by congruence. subst existing.
      change q with (snd (response, q)). rewrite <- Hr.
      apply (step_canReupload (ProofLifecycle.Reupload now req) p Hc).
    + rewrite lookup_insert_ne by exact Hne. congruence.
  - destruct (create now req _); [|cbn; congruence].
    destruct (Order.written now _); cbn;
      (destruct (decide (orderId req = k)) as [Heq|Hne]; [congruence|]);
      rewrite lookup_insert_ne by exact Hne; congruence.
Qed.

End ProofReview.

(** C7, as stated, fails: approving the proof of an order whose status is
    pending, the only status the upload handler admits, leaves the order
    pending. *)
Lemma approval_leaves_pending_order :
  exists p,
    DeliveryProof.proofs uploadedDb !! sampleOrderId = Some p /\
    Order.status sampleOrder = Order.pending /\
    fst (DeliveryProof.review "approve" adminUser "looks fine"
           (uploadTime + 60000) (Some (p, sampleOrder))) = DeliveryProof.Reviewed /\
    (Order.status <$>
       (snd <$> snd (DeliveryProof.review "approve" adminUser "looks fine"
                       (uploadTime + 60000) (Some (p, sampleOrder))))) =
    Some Order.pending.
Proof. eexists. split; [vm_compute; reflexivity|]. repeat split. Qed.

(** C7, amended. For a stored proof that passes validation: when the notes,
    trimmed, are at most 1000 characters long, admin approval sets
    verificationStatus to approved, records the reviewer and the review time,
    sets canReupload to false and stores the trimmed notes if there are any;
    no later approval, rejection, review request or re-upload, and no later
    request to the upload handler, sets canReupload back to true; the order's
    status is advanced to shipped when it was processing and the order passes
    validation, and the order is left as it was otherwise (with a server error
    as the answer when it was processing and fails validation).  When the
    notes are longer, the answer is a server error and nothing is changed. *)
Theorem approve_review_spec (adminId notes : string) (now : Date)
    (proof : DeliveryProof.t) (o : Order.t) :
  DeliveryProof.validate proof = true ->
  ((Text.units (Text.trim notes) <= 1000)%nat ->
   exists response p' o',
     DeliveryProof.review "approve" adminId notes now (Some (proof, o)) =
       (response, Some (p', o')) /\
     DeliveryProof.verificationStatus p' = DeliveryProof.approved /\
     DeliveryProof.reviewedBy p' = Some adminId /\
     DeliveryProof.reviewedAt p' = Some now /\
     DeliveryProof.canReupload p' = false /\
     DeliveryProof.adminNotes p'
       = (if String.eqb notes "" then DeliveryProof.adminNotes proof
          else Some (Text.trim notes)) /\
     (forall ops, DeliveryProof.canReupload (ProofLifecycle.run ops p') = false) /\
     (forall now' newProofId req db k q q',
         DeliveryProof.proofs db !! k = Some q ->
         DeliveryProof.canReupload q = false ->
         DeliveryProof.proofs (snd (DeliveryProof.upload now' newProofId req db)) !! k = Some q' ->
         DeliveryProof.canReupload q' = false) /\
     (Order.status o = Order.processing -> Order.validate o = true ->
      response = DeliveryProof.Reviewed /\
      Order.status o' = Order.shipped /\
      Order.escrowStatus o' = Order.escrowStatus o /\
      Order.items o' = Order.items o) /\
     (Order.status o = Order.processing -> Order.validate o = false ->
      response = DeliveryProof.ReviewFailed /\ o' = o) /\
     (Order.status o <> Order.processing ->
      response = DeliveryProof.Reviewed /\ o' = o)) /\
  ((1000 < Text.units (Text.trim notes))%nat ->
   DeliveryProof.review "approve" adminId notes now (Some (proof, o)) =
     (DeliveryProof.ReviewFailed, Some (proof, o))).
Proof.
  intros Hvalid. pose proof (approve_saved adminId notes now proof Hvalid) as Hsaved.
  split.
  - intros Hlen. apply Hsaved in Hlen as [p' Hp'].
    destruct (approve_Some adminId notes now proof p' Hp')
      as (H1 & H2 & H3 & H4 & H5 & _).
    unfold DeliveryProof.review. cbn [String.eqb Ascii.eqb Bool.eqb]. rewrite Hp'.
    assert (Hrest : forall response o',
      (Order.status o = Order.processing -> Order.validate o = true ->
       response = DeliveryProof.Reviewed /\ Order.status o' = Order.shipped /\
       Order.escrowStatus o' = Order.escrowStatus o /\ Order.items o' = Order.items o) ->
      (Order.status o = Order.processing -> Order.validate o = false ->
       response = DeliveryProof.ReviewFailed /\ o' = o) ->
      (Order.status o <> Order.processing -> response = DeliveryProof.Reviewed /\ o' = o) ->
      exists response0 p0 o0,
        (response, Some (p', o')) = (response0, Some (p0, o0)) /\
        DeliveryProof.verificationStatus p0 = DeliveryProof.approved /\
        DeliveryProof.reviewedBy p0 = Some adminId /\
        DeliveryProof.reviewedAt p0 = Some now /\
        DeliveryProof.canReupload p0 = false /\
        DeliveryProof.adminNotes p0
          = (if String.eqb notes "" then DeliveryProof.adminNotes proof
             else Some (Text.trim notes)) /\
        (forall ops, DeliveryProof.canReupload (ProofLifecycle.run ops p0) = false) /\
        (forall now' newProofId req db k q q',
            DeliveryProof.proofs db !! k = Some q ->
            DeliveryProof.canReupload q = false ->
            DeliveryProof.proofs (snd (DeliveryProof.upload now' newProofId req db)) !! k
              = Some q' ->
            DeliveryProof.canReupload q' = false) /\
        (Order.status o = Order.processing -> Order.validate o = true ->
         response0 = DeliveryProof.Reviewed /\ Order.status o0 = Order.shipped /\
         Order.escrowStatus o0 = Order.escrowStatus o /\ Order.items o0 = Order.items o) /\
        (Order.status o = Order.processing -> Order.validate o = false ->
         response0 = DeliveryProof.ReviewFailed /\ o0 = o) /\
        (Order.status o <> Order.processing ->
         response0 = DeliveryProof.Reviewed /\ o0 = o)).
    { intros response o' G1 G2 G3. exists response, p', o'.
      split; [reflexivity|]. split; [exact H1|]. split; [exact H2|]. split; [exact H3|].
      split; [exact H4|]. split; [exact H5|].
      split; [intros ops; apply run_canReupload, H4|].
      split; [intros now' newProofId req db k q q'; apply upload_canReupload|].
      auto. }
    destruct (Order.status_eqb (Order.status o) Order.processing) eqn:Hst.
    + apply status_eqb_eq in Hst. unfold DeliveryProof.moveOrder, Order.written.
      rewrite validate_setStatus.
      destruct (Order.validate o) eqn:Hv; apply Hrest; try congruence.
      * intros _ _. split; [reflexivity|].
        destruct (preSave_fields now (Order.setStatus Order.shipped o))
          as (E1 & _ & E3 & E4 & _).
        cbn. rewrite E1, E3, E4. auto.
      * intros _ _. split; reflexivity.
    + assert (Hne : Order.status o <> Order.processing).
      { intros Heq. rewrite Heq in Hst. discriminate Hst. }
      apply Hrest; try congruence. intros _. split; reflexivity.
  - intros Hlen. unfold DeliveryProof.review. cbn [String.eqb Ascii.eqb Bool.eqb].
    destruct (DeliveryProof.approve adminId notes now proof) as [p'|] eqn:Hp'; [|reflexivity].
    pose proof (proj1 Hsaved (ex_intro _ p' eq_refl)). lia.
Qed.

Lemma approve_review_spec_witness :
  exists response p' o',
    DeliveryProof.review "approve" adminUser "ok" (uploadTime + 60000)
      (Some (sampleProof, Order.setStatus Order.processing sampleOrder)) =
      (response, Some (p', o')) /\
    response = DeliveryProof.Reviewed /\
    DeliveryProof.canReupload p' = false /\
    Order.status o' = Order.shipped.
Proof.
  destruct (proj1 (approve_review_spec adminUser "ok" (uploadTime + 60000)
                     sampleProof (Order.setStatus Order.processing sampleOrder) eq_refl))
    as (response & p' & o' & Heq & _ & _ & _ & Hc & _ & _ & _ & Hs & _).
  { vm_compute. lia. }
  exists response, p', o'. destruct (Hs eq_refl eq_refl) as (Hr & Hst & _).
  split; [exact Heq|]. split; [exact Hr|]. split; [exact Hc|exact Hst].
Defined.

(** Notes of 1001 characters: the approval is not saved, the answer is a
    server error, and the order, which was processing, is not advanced. *)
Example approval_with_long_notes :
  DeliveryProof.review "approve" adminUser longNotes (uploadTime + 60000)
    (Some (sampleProof, Order.setStatus Order.processing sampleOrder))
  = (DeliveryProof.ReviewFailed,
     Some (sampleProof, Order.setStatus Order.processing sampleOrder)).
Proof. vm_compute. reflexivity. Qed.
(** ** The vault: hexadecimal text *)
Section Hex.
Import Vault.

(** Strings two characters at a time, the way [fromHex] reads them. *)
Lemma string_pairs_ind (P : string -> Prop) :
  P "" ->
  (forall a, P (String a "")) ->
  (forall a b rest, P rest -> P (String a (String b rest))) ->
  forall s, P s.
Proof.
  intros H0 H1 H2.
  assert (H : forall s, P s /\ forall a, P (String a s)).
  { induction s as [|b rest [IH1 IH2]]; split; auto. }
  intros s. apply H.
Qed.

Lemma fromHex_byteToHex (b : byte) (s : string) :
  fromHex (byteToHex b ++ s) = b :: fromHex s.
Proof. destruct b; reflexivity. Qed.

Lemma fromHex_toHex (bytes : list byte) : fromHex (toHex bytes) = bytes.
Proof.
  induction bytes as [|b rest IH]; [reflexivity|].
  cbn [toHex]. rewrite fromHex_byteToHex, IH. reflexivity.
Qed.

Lemma noColon_byteToHex (b : byte) (s : string) :
  noColon (byteToHex b ++ s) = noColon s.
Proof. destruct b; reflexivity. Qed.

Lemma noColon_toHex (bytes : list byte) : noColon (toHex bytes) = true.
Proof.
  induction bytes as [|b rest IH]; [reflexivity|].
  cbn [toHex]. rewrite noColon_byteToHex. exact IH.
Qed.

Lemma isEmpty_toHex (bytes : list byte) :
  bytes <> [] -> isEmpty (toHex bytes) = false.
Proof. destruct bytes as [|b rest]; [congruence|]. destruct b; reflexivity. Qed.

Lemma splitOn_noColon (s : string) : noColon s = true -> splitOn ":" s = [s].
Proof.
  induction s as [|c rest IH]; [reflexivity|].
  unfold noColon. cbn [allChars splitOn]. intros H.
  apply andb_prop in H as [Hc Hrest]. apply negb_true_iff in Hc.
  rewrite Hc, (IH Hrest). reflexivity.
Qed.

Lemma splitOn_colon (s t : string) :
  noColon s = true -> noColon t = true ->
  splitOn ":" (s ++ ":" ++ t) = [s; t].
Proof.
  intros Hs Ht. induction s as [|c rest IH].
  - change ("" ++ ":" ++ t)%string with (String ":" t).
    cbn [splitOn]. rewrite Ascii.eqb_refl, (splitOn_noColon t Ht). reflexivity.
  - unfold noColon in Hs. cbn [allChars] in Hs.
    apply andb_prop in Hs as [Hc Hrest]. apply negb_true_iff in Hc.
    change (String c rest ++ ":" ++ t)%string with (String c (rest ++ ":" ++ t)).
    cbn [splitOn]. rewrite Hc, (IH Hrest). reflexivity.
Qed.

Lemma hexValue_bound (c : ascii) (n : N) : hexValue c = Some n -> (n < 16)%N.
Proof.
  destruct c as [[] [] [] [] [] [] [] []]; vm_compute;
    try discriminate; intros [= <-]; reflexivity.
Qed.

Lemma fromHex_length (s : string) :
  allChars isHexChar s = true ->
  length (fromHex s) = Nat.div2 (String.length s).
Proof.
  induction s as [| |a b rest IH] using string_pairs_ind; intros H; try reflexivity.
  cbn [allChars] in H.
  apply andb_prop in H as [Ha H]. apply andb_prop in H as [Hb Hrest].
  unfold isHexChar in Ha, Hb. cbn [fromHex].
  destruct (hexValue a) as [high|] eqn:Eh; [|discriminate].
  destruct (hexValue b) as [low|] eqn:El; [|discriminate].
  apply hexValue_bound in Eh, El.
  destruct (Byte.of_N (16 * high + low)) as [x|] eqn:Ex.
  - cbn [length String.length Nat.div2]. rewrite (IH Hrest). reflexivity.
  - apply Byte.of_N_None_iff in Ex. lia.
Qed.

Lemma validKey_length (key : string) :
  isValidEncryptionKey key = true -> length (fromHex key) = 32%nat.
Proof.
  unfold isValidEncryptionKey. intros H.
  apply andb_prop in H as [H Hhex]. apply andb_prop in H as [_ Hlen].
  apply Nat.eqb_eq in Hlen. rewrite (fromHex_length key Hhex), Hlen. reflexivity.
Qed.

Lemma sameHex_refl (s : string) : sameHex s s.
Proof. induction s; simpl; auto. Qed.

Lemma upperHex_same (c : ascii) :
  hexValue c = hexValue (upperHex c) /\ Ascii.eqb c ":" = Ascii.eqb (upperHex c) ":".
Proof. destruct c as [[] [] [] [] [] [] [] []]; split; reflexivity. Qed.

Lemma sameHex_alterAt (i : nat) (s : string) : sameHex s (alterAt i upperHex s).
Proof.
  revert i. induction s as [|c rest IH]; intros [|j]; cbn [alterAt sameHex].
  - exact I.
  - exact I.
  - destruct (upperHex_same c) as [Hv Hc]. auto using sameHex_refl.
  - auto.
Qed.

Lemma sameHex_isEmpty (s t : string) : sameHex s t -> isEmpty s = isEmpty t.
Proof. destruct s, t; simpl; tauto. Qed.

Lemma sameHex_fromHex (s : string) : forall t, sameHex s t -> fromHex s = fromHex t.
Proof.
  induction s as [| |a b rest IH] using string_pairs_ind; intros t H.
  - destruct t; [reflexivity|contradiction].
  - destruct t as [|c [|d t']]; simpl in H; tauto.
  - destruct t as [|c [|d t']]; simpl in H; try tauto.
    destruct H as (Ha & _ & Hb & _ & Hrest).
    cbn [fromHex]. rewrite Ha, Hb, (IH t' Hrest). reflexivity.
Qed.

Lemma sameHex_splitOn (s : string) :
  forall t, sameHex s t -> Forall2 sameHex (splitOn ":" s) (splitOn ":" t).
Proof.
  induction s as [|a rest IH]; intros [|b t'] H; simpl in H; try contradiction.
  - repeat constructor.
  - destruct H as (Hv & Hc & Hrest). specialize (IH t' Hrest).
    cbn [splitOn]. rewrite <- Hc. destruct (Ascii.eqb a ":") eqn:Ea.
    + constructor; [exact I|exact IH].
    + inversion IH as [|p q ps qs Hpq Hps]; subst.
      * constructor; [|constructor]. simpl. rewrite Ea. auto.
      * constructor; [|exact Hps]. simpl. rewrite Ea. auto.
Qed.

End Hex.

(** ** The vault: an inhabitant of the cipher interface

    The padding-only cipher meets the contract of [AesCbc]. *)

Lemma padLength_range (plain : list byte) :
  (1 <= padLength plain <= 16)%nat.
Proof.
  unfold padLength.
  pose proof (Nat.mod_upper_bound (length plain) 16). lia.
Qed.

Lemma to_nat_padByte (n : nat) : (n <= 16)%nat -> Byte.to_nat (padByte n) = n.
Proof. intros H. do 17 (destruct n as [|n]; [reflexivity|]). lia. Qed.

Lemma forallb_repeat (b : byte) (n : nat) : forallb (Byte.eqb b) (repeat b n) = true.
Proof.
  induction n as [|n IH]; [reflexivity|]. simpl.
  rewrite IH, (Byte.byte_dec_lb eq_refl). reflexivity.
Qed.

Lemma last_repeat (b : byte) (plain : list byte) (n : nat) :
  (1 <= n)%nat -> last (plain ++ repeat b n) = Some b.
Proof.
  intros H. destruct n as [|n]; [lia|].
  change (repeat b (S n)) with (b :: repeat b n).
  rewrite repeat_cons, app_assoc. apply last_snoc.
Qed.

Lemma pkcs7Unpad_pad (plain : list byte) : pkcs7Unpad (pkcs7Pad plain) = Some plain.
Proof.
  unfold pkcs7Unpad, pkcs7Pad.
  pose proof (padLength_range plain) as [Hlo Hhi].
  rewrite last_repeat by exact Hlo. cbn zeta.
  rewrite to_nat_padByte by exact Hhi.
  rewrite length_app, repeat_length.
  replace (length plain + padLength plain - padLength plain)%nat
    with (length plain) by lia.
  rewrite drop_app_length, take_app_length, forallb_repeat.
  destruct (Nat.leb_spec 1 (padLength plain)); [|lia].
  destruct (Nat.leb_spec (padLength plain) 16); [|lia].
  destruct (Nat.leb_spec (padLength plain) (length plain + padLength plain)); [|lia].
  reflexivity.
Qed.

Lemma pkcs7Pad_length (plain : list byte) : (length (pkcs7Pad plain) mod 16 = 0)%nat.
Proof.
  unfold pkcs7Pad. rewrite length_app, repeat_length. unfold padLength.
  pose proof (Nat.mod_upper_bound (length plain) 16).
  pose proof (Nat.div_mod_eq (length plain) 16).
  replace (length plain + (16 - length plain mod 16))%nat
    with ((length plain / 16 + 1) * 16)%nat by lia.
  apply Nat.Div0.mod_mul.
Qed.

Lemma pkcs7Pad_nonempty (plain : list byte) : pkcs7Pad plain <> [].
Proof.
  unfold pkcs7Pad. pose proof (padLength_range plain) as [Hlo _].
  destruct (padLength plain) as [|n]; [lia|].
  intros H. apply app_eq_nil in H as [_ H]. discriminate.
Qed.

#[local] Instance paddingOnly : Vault.AesCbc.
Proof.
  refine {| Vault.cbcEncrypt := paddingEncrypt; Vault.cbcDecrypt := paddingDecrypt |}.
  intros key iv plain Hkey Hiv. exists (pkcs7Pad plain).
  unfold paddingEncrypt, paddingDecrypt.
  rewrite Hkey, Hiv, pkcs7Pad_length. simpl.
  split; [reflexivity|]. split; [apply pkcs7Pad_nonempty|apply pkcs7Unpad_pad].
Defined.

(** ** The vault: decrypting what was encrypted *)
Section VaultRoundTrip.
Import Vault.
Context `{C : AesCbc}.

Lemma isEmpty_append_colon (s t : string) : isEmpty (s ++ ":" ++ t)%string = false.
Proof. destruct s; reflexivity. Qed.

Lemma isEmpty_false (x : string) : x <> "" -> isEmpty x = false.
Proof. destruct x; [congruence|reflexivity]. Qed.

(** What [decrypt] does with a well-formed [ivHex:cipherHex] text. *)
Lemma decrypt_formatted (key : string) (iv cipher : list byte) :
  iv <> [] -> cipher <> [] ->
  decrypt key (Str (toHex iv ++ ":" ++ toHex cipher)) =
  match cbcDecrypt (fromHex key) iv cipher with
  | Some decrypted => Value (Str (string_of_list_byte decrypted))
  | None => Failed "Decryption failed"
  end.
Proof.
  intros Hiv Hc. unfold decrypt.
  rewrite isEmpty_append_colon.
  rewrite splitOn_colon by apply noColon_toHex.
  rewrite (isEmpty_toHex iv Hiv), (isEmpty_toHex cipher Hc). cbn [orb].
  rewrite !fromHex_toHex. reflexivity.
Qed.

Lemma encrypt_formatted (key : string) (iv : list byte) (x : string) :
  isValidEncryptionKey key = true ->
  length iv = 16%nat ->
  x <> "" ->
  exists cipher,
    cipher <> [] /\
    encrypt key iv (Str x) = Value (Str (toHex iv ++ ":" ++ toHex cipher)) /\
    cbcDecrypt (fromHex key) iv cipher = Some (list_byte_of_string x).
Proof.
  intros Hkey Hiv Hx.
  destruct (cbcDecrypt_encrypt (fromHex key) iv (list_byte_of_string x)
              (validKey_length key Hkey) Hiv) as (cipher & He & Hne & Hd).
  exists cipher. split; [exact Hne|]. split; [|exact Hd].
  unfold encrypt. rewrite (isEmpty_false x Hx), He. reflexivity.
Qed.

Lemma iv_nonempty (iv : list byte) : length iv = 16%nat -> iv <> [].
Proof. destruct iv; [discriminate|congruence]. Qed.

Lemma decryptEncrypted_nonempty (key : string) (iv : list byte) (x : string) :
  isValidEncryptionKey key = true ->
  length iv = 16%nat ->
  x <> "" ->
  decryptEncrypted key iv (Str x) = Value (Str x).
Proof.
  intros Hkey Hiv Hx.
  destruct (encrypt_formatted key iv x Hkey Hiv Hx) as (cipher & Hne & He & Hd).
  unfold decryptEncrypted. rewrite He.
  rewrite (decrypt_formatted key iv cipher (iv_nonempty iv Hiv) Hne).
  rewrite Hd, string_of_list_byte_of_string. reflexivity.
Qed.

Lemma decryptEncrypted_empty (key : string) (iv : list byte) :
  decryptEncrypted key iv (Str "") = Value Null /\
  decryptEncrypted key iv Null = Value Null.
Proof. split; reflexivity. Qed.

(** [decrypt] cannot tell apart two texts that read the same. *)
Lemma decrypt_sameHex (key : string) (s t : string) :
  sameHex s t -> decrypt key (Str s) = decrypt key (Str t).
Proof.
  intros H. unfold decrypt.
  rewrite (sameHex_isEmpty s t H).
  destruct (isEmpty t); [reflexivity|].
  pose proof (sameHex_splitOn s t H) as Hsplit.
  inversion Hsplit as [|ivS ivT restS restT Hiv Hrest]; [reflexivity|].
  inversion Hrest as [|dataS dataT moreS moreT Hdata Hmore]; [reflexivity|].
  rewrite (sameHex_isEmpty _ _ Hiv), (sameHex_isEmpty _ _ Hdata).
  rewrite (sameHex_fromHex _ _ Hiv), (sameHex_fromHex _ _ Hdata). reflexivity.
Qed.

Lemma decrypt_case_altered (key : string) (iv : list byte) (x ct : string) (i : nat) :
  isValidEncryptionKey key = true ->
  length iv = 16%nat ->
  x <> "" ->
  encrypt key iv (Str x) = Value (Str ct) ->
  decrypt key (Str (alterAt i upperHex ct)) = Value (Str x).
Proof.
  intros Hkey Hiv Hx He.
  rewrite <- (decrypt_sameHex key ct _ (sameHex_alterAt i ct)).
  pose proof (decryptEncrypted_nonempty key iv x Hkey Hiv Hx) as H.
  unfold decryptEncrypted in H. rewrite He in H. exact H.
Qed.

End VaultRoundTrip.

(** C8, as stated, fails twice.  The empty string is not restored: [encrypt]
    returns null for it and [decrypt] returns null for null.  And an altered
    character need not make [decrypt] fail: the first character of this
    ciphertext is the hexadecimal letter a, and with A in its place [decrypt]
    reads the same bytes and returns the original text. *)
Lemma empty_string_not_restored :
  Vault.decryptEncrypted (C := paddingOnly) sampleKey sampleIv (Vault.Str "")
    = Vault.Value Vault.Null /\
  Vault.Value Vault.Null <> Vault.Value (Vault.Str "") /\
  exists ct,
    Vault.encrypt (C := paddingOnly) sampleKey sampleIv (Vault.Str "4111111111111111") =
      Vault.Value (Vault.Str ct) /\
    Vault.alterAt 0 Vault.upperHex ct <> ct /\
    Vault.decrypt (C := paddingOnly) sampleKey
      (Vault.Str (Vault.alterAt 0 Vault.upperHex ct)) =
      Vault.Value (Vault.Str "4111111111111111").
Proof.
  split; [reflexivity|]. split; [discriminate|].
  eexists. split; [vm_compute; reflexivity|].
  split; [discriminate|vm_compute; reflexivity].
Qed.

(** C8, amended. With a key of 64 hexadecimal digits and a 16-byte IV, for
    every cipher meeting the contract of AES-256-CBC: every non-empty string,
    ASCII or not, is restored by decrypt(encrypt(x)); the empty string and null
    both come back as null; and replacing a hexadecimal letter of a ciphertext
    by its upper-case form, at any position, is not detected: [decrypt] still
    returns the original text. *)
Theorem decrypt_encrypt_spec `{C : Vault.AesCbc} (key : string) (iv : list byte) :
  Vault.isValidEncryptionKey key = true ->
  length iv = 16%nat ->
  (forall x, x <> "" -> Vault.decryptEncrypted key iv (Vault.Str x) = Vault.Value (Vault.Str x)) /\
  Vault.decryptEncrypted key iv (Vault.Str "") = Vault.Value Vault.Null /\
  Vault.decryptEncrypted key iv Vault.Null = Vault.Value Vault.Null /\
  (forall x ct i,
      x <> "" ->
      Vault.encrypt key iv (Vault.Str x) = Vault.Value (Vault.Str ct) ->
      Vault.decrypt key (Vault.Str (Vault.alterAt i Vault.upperHex ct)) =
        Vault.Value (Vault.Str x)).
Proof.
  intros Hkey Hiv.
  split; [intros x Hx; apply decryptEncrypted_nonempty; assumption|].
  split; [reflexivity|]. split; [reflexivity|].
  intros x ct i Hx He. eapply decrypt_case_altered; eassumption.
Qed.

Example unicodeText_bytes :
  list_byte_of_string unicodeText = [x63; x61; x66; xc3; xa9; x20; xe2; x82; xac; x35].
Proof. reflexivity. Qed.

Lemma decrypt_encrypt_spec_witness :
  Vault.isValidEncryptionKey sampleKey = true /\
  length sampleIv = 16%nat /\
  Vault.decryptEncrypted (C := paddingOnly) sampleKey sampleIv (Vault.Str unicodeText) =
    Vault.Value (Vault.Str unicodeText).
Proof.
  split; [reflexivity|]. split; [reflexivity|].
  apply (proj1 (decrypt_encrypt_spec (C := paddingOnly) sampleKey sampleIv eq_refl eq_refl)).
  discriminate.
Defined.

(** ** The vault: card numbers *)
Section CardNumbers.
Import Vault.

(** The loop computes the checksum of the specification. *)
Lemma luhnLoop_luhnSum (fromRight : list ascii) :
  forall (isEven : bool) (sum : Z) (position : nat),
    Nat.odd position = isEven ->
    luhnLoop fromRight isEven sum = sum + luhnSum position (map digitOf fromRight).
Proof.
  induction fromRight as [|c rest IH]; intros isEven sum position Hpos; simpl.
  - lia.
  - rewrite (IH (negb isEven) _ (S position)).
    + unfold luhnDigit. rewrite Hpos, (Z.mul_comm (digitOf c) 2).
      destruct isEven; lia.
    + rewrite Nat.odd_succ, <- Nat.negb_odd, Hpos. reflexivity.
Qed.

Lemma luhnValid_passesLuhn (clean : string) :
  luhnValid clean = true <-> passesLuhn clean.
Proof.
  unfold luhnValid, passesLuhn.
  rewrite (luhnLoop_luhnSum _ false 0 0%nat eq_refl), Z.add_0_l.
  apply Z.eqb_eq.
Qed.

Lemma testCardNumbers_valid :
  forallb (fun clean => isCardDigits clean && luhnValid clean) testCardNumbers = true.
Proof. vm_compute. reflexivity. Qed.

Lemma testCard_valid (clean : string) :
  In clean testCardNumbers -> isCardDigits clean = true /\ luhnValid clean = true.
Proof.
  intros Hin.
  pose proof (proj1 (forallb_forall _ _) testCardNumbers_valid clean Hin) as H.
  apply andb_prop in H. exact H.
Qed.

Lemma includes_In (clean : string) (l : list string) :
  existsb (String.eqb clean) l = true <-> In clean l.
Proof.
  rewrite existsb_exists. split.
  - intros (x & Hin & Heq). apply String.eqb_eq in Heq. subst. exact Hin.
  - intros Hin. exists clean. split; [exact Hin|apply String.eqb_refl].
Qed.

Lemma testCardAllowed_iff (env : option string) (clean : string) :
  testCardAllowed env clean = true <->
  env = Some "development" /\ In clean testCardNumbers.
Proof.
  unfold testCardAllowed. rewrite andb_true_iff, includes_In.
  destruct env as [e|]; [rewrite String.eqb_eq|]; split;
    intros [H1 H2]; split; congruence.
Qed.

Lemma validateCardNumber_luhn (env : option string) (cardNumber : string) :
  validateCardNumber env cardNumber =
  negb (isEmpty cardNumber)
  && isCardDigits (cleanNumber cardNumber)
  && luhnValid (cleanNumber cardNumber).
Proof.
  unfold validateCardNumber.
  destruct (isEmpty cardNumber); [reflexivity|].
  destruct (isCardDigits (cleanNumber cardNumber)); [|reflexivity]. simpl.
  destruct (testCardAllowed env (cleanNumber cardNumber)) eqn:E; [|reflexivity].
  apply testCardAllowed_iff in E as [_ Hin].
  symmetry. apply (testCard_valid _ Hin).
Qed.

Lemma asciiSpace_space (a : ascii) : asciiSpace a = false -> Ascii.eqb a " " = false.
Proof. destruct a as [[] [] [] [] [] [] [] []]; vm_compute; congruence. Qed.

Lemma removeWhitespace_no_space (n : nat) :
  forall s, (String.length s <= n)%nat ->
    allChars (fun c => negb (Ascii.eqb c " ")) (removeWhitespace s) = true.
Proof.
  induction n as [|n IH]; intros s Hlen.
  - destruct s; [reflexivity|simpl in Hlen; lia].
  - destruct s as [|a r1]; [reflexivity|]. simpl in Hlen. cbn [removeWhitespace].
    destruct (asciiSpace a) eqn:Ea; [apply IH; lia|].
    apply asciiSpace_space in Ea.
    destruct r1 as [|b r2].
    + cbn [allChars]. rewrite Ea. reflexivity.
    + simpl in Hlen. destruct (twoByteSpace a b); [apply IH; lia|].
      destruct r2 as [|c r3].
      * cbn [allChars]. rewrite Ea. cbn [negb andb]. apply IH.
        cbn [String.length]. lia.
      * simpl in Hlen. destruct (threeByteSpace a b c); [apply IH; lia|].
        cbn [allChars]. rewrite Ea. cbn [negb andb]. apply IH.
        cbn [String.length]. lia.
Qed.

Lemma removeDashes_noSpaceOrDash (s : string) :
  allChars (fun c => negb (Ascii.eqb c " ")) s = true ->
  allChars noSpaceOrDash (removeDashes s) = true.
Proof.
  induction s as [|c rest IH]; [reflexivity|]. cbn [allChars removeDashes].
  intros H. apply andb_prop in H as [Hc Hrest].
  destruct (Ascii.eqb c "-") eqn:Ed; [apply IH, Hrest|].
  cbn [allChars]. unfold noSpaceOrDash at 1. rewrite Hc, Ed, (IH Hrest). reflexivity.
Qed.

Lemma cleanNumber_noSpaceOrDash (s : string) : allChars noSpaceOrDash (cleanNumber s) = true.
Proof.
  apply removeDashes_noSpaceOrDash, (removeWhitespace_no_space (String.length s)). lia.
Qed.

End CardNumbers.




(** * Further properties *)

(** ** Payout requests, exactly *)
Section PayoutExact.
Import Payout.
Context `{R : Js.Runtime}.

Lemma requestPayout_succeeded (now : Date) (req : Request) (db : Db) :
  succeeded (fst (requestPayout now req db)) = true ->
  exists amount vendorId b accountId account,
    validAmount 10 None req = Some amount /\
    role req = "vendor" /\
    vendors db !! userId req = Some vendorId /\
    balances db !! vendorId = Some b /\
    VendorBalance.bankAccount b = Some accountId /\
    bankAccounts db !! accountId = Some account /\
    BankAccount.isActive account = true /\
    Js.lt amount (VendorBalance.minimumPayoutAmount b) = false /\
    Js.gt amount (VendorBalance.availableBalance b) = false /\
    VendorBalance.validate (paidOut now amount b) = true.
Proof.
  unfold requestPayout.
  destruct (validAmount 10 None req) as [amount|] eqn:Ev; [|discriminate].
  destruct (String.eqb_spec (role req) "vendor") as [Hr|]; [|discriminate]. cbn [negb].
  destruct (vendors db !! userId req) as [vendorId|] eqn:Hv; [|discriminate].
  destruct (balances db !! vendorId) as [b|] eqn:Hb; [|discriminate].
  destruct (VendorBalance.bankAccount b) as [accountId|] eqn:Hl; [|discriminate].
  destruct (bankAccounts db !! accountId) as [account|] eqn:Hacc; [|discriminate].
  destruct (BankAccount.isActive account) eqn:Hact; [|discriminate]. cbn [negb].
  destruct (Js.lt amount (VendorBalance.minimumPayoutAmount b)) eqn:Hlt; [discriminate|].
  destruct (Js.gt amount (VendorBalance.availableBalance b)) eqn:Hgt; [discriminate|].
  unfold VendorBalance.processPayout. rewrite Hgt.
  unfold VendorBalance.saved, VendorBalance.save.
  destruct (VendorBalance.validate _) eqn:Hval; [|discriminate].
  intros _. exists amount, vendorId, b, accountId, account.
  unfold paidOut. auto 12.
Qed.

Lemma requestPayout_failed (now : Date) (req : Request) (db : Db) :
  succeeded (fst (requestPayout now req db)) = false ->
  snd (requestPayout now req db) = db.
Proof.
  unfold requestPayout.
  repeat match goal with
  | |- context [if ?c then _ else _] => destruct c; try reflexivity
  | |- context [match ?x with Some _ => _ | None => _ end] =>
      destruct x; try reflexivity
  end.
  destruct (VendorBalance.processPayout now _ _) as [[|message] b']; [|reflexivity].
  cbn. discriminate.
Qed.

End PayoutExact.


Section PayoutSeries.
Import Payout VendorFunds.
Context `{R : Js.Runtime}.

(** What a series of payout requests keeps of one balance. *)
Lemma requestPayout_frame (now : Date) (req : Request) (db : Db) :
  vendors (snd (requestPayout now req db)) = vendors db /\
  bankAccounts (snd (requestPayout now req db)) = bankAccounts db /\
  (forall v, balances db !! v = None ->
             balances (snd (requestPayout now req db)) !! v = None) /\
  (forall v b, balances db !! v = Some b ->
     VendorBalance.validate b = true ->
     exists b', balances (snd (requestPayout now req db)) !! v = Some b' /\
                paidFrom b b').
Proof.
  assert (Hsame : forall v b, balances db !! v = Some b ->
            VendorBalance.validate b = true ->
            exists b', balances db !! v = Some b' /\ paidFrom b b').
  { intros v b Hb Hav. exists b. split; [exact Hb|]. unfold paidFrom. auto 10. }
  destruct (succeeded (fst (requestPayout now req db))) eqn:Es.
  - destruct (requestPayout_succeeded now req db Es)
      as (amount & vendorId & b0 & accountId & account & Hv & Hr & H1 & H2 & H3 & H4 & H5
          & H6 & H7 & H8).
    rewrite (requestPayout_processed now req db vendorId accountId b0 account
               H1 H2 Hr H3 H4 H5 amount Hv H6 H7), H8.
    cbn [snd vendors bankAccounts balances].
    split; [reflexivity|]. split; [reflexivity|]. split.
    + intros v Hnone. rewrite lookup_insert_ne by congruence. exact Hnone.
    + intros v b Hb Hav. destruct (decide (vendorId = v)) as [->|Hne].
      * rewrite lookup_insert_eq. eexists. split; [reflexivity|].
        assert (b0 = b) by congruence. subst b0.
        unfold paidFrom. split; [exact H8|]. cbn. auto.
      * rewrite lookup_insert_ne by exact Hne. apply Hsame; assumption.
  - rewrite (requestPayout_failed now req db Es).
    repeat split; auto.
Qed.

Lemma paidFrom_trans (a b c : VendorBalance.t) :
  paidFrom a b -> paidFrom b c -> paidFrom a c.
Proof.
  unfold paidFrom. intros (H1 & H2 & H3 & H4 & H5) (G1 & G2 & G3 & G4 & G5).
  repeat split; congruence.
Qed.

Lemma payouts_frame (requests : list (Date * Request)) :
  forall db,
    vendors (payouts requests db) = vendors db /\
    bankAccounts (payouts requests db) = bankAccounts db /\
    (forall v, balances db !! v = None -> balances (payouts requests db) !! v = None) /\
    (forall v b, balances db !! v = Some b ->
       VendorBalance.validate b = true ->
       exists b', balances (payouts requests db) !! v = Some b' /\ paidFrom b b').
Proof.
  induction requests as [|[now req] rest IH]; intros db.
  - cbn. repeat split; auto. intros v b Hb Hav. exists b. split; [exact Hb|].
    unfold paidFrom. auto 10.
  - change (payouts ((now, req) :: rest) db)
      with (payouts rest (snd (requestPayout now req db))).
    destruct (requestPayout_frame now req db) as (F1 & F2 & F3 & F4).
    destruct (IH (snd (requestPayout now req db))) as (G1 & G2 & G3 & G4).
    split; [congruence|]. split; [congruence|]. split.
    + intros v Hnone. apply G3, F3, Hnone.
    + intros v b Hb Hav. destruct (F4 v b Hb Hav) as (b1 & Hb1 & Hp1).
      destruct (G4 v b1 Hb1 (proj1 Hp1)) as (b2 & Hb2 & Hp2).
      exists b2. split; [exact Hb2|]. eapply paidFrom_trans; eassumption.
Qed.

End PayoutSeries.

(** X4. Whatever payout requests arrive, in whatever order and from
    whomever, a vendor balance that passes the validation of its schema still
    passes it afterwards, so its availableBalance and its totalPayouts are
    never negative; its pendingBalance, totalEarnings, minimumPayoutAmount and
    linked bank account are left alone; no balance document is created, and
    the vendor and bank-account collections are not written. *)
Theorem payouts_never_overdraw `{R : Js.Runtime} (requests : list (Date * Payout.Request))
    (db : Payout.Db) (v : string) (b : VendorBalance.t) :
  Payout.balances db !! v = Some b ->
  VendorBalance.validate b = true ->
  (exists b',
      Payout.balances (VendorFunds.payouts requests db) !! v = Some b' /\
      VendorBalance.validate b' = true /\
      (0 <=? VendorBalance.availableBalance b')%float = true /\
      (0 <=? VendorBalance.totalPayouts b')%float = true /\
      VendorBalance.pendingBalance b' = VendorBalance.pendingBalance b /\
      VendorBalance.totalEarnings b' = VendorBalance.totalEarnings b /\
      VendorBalance.minimumPayoutAmount b' = VendorBalance.minimumPayoutAmount b /\
      VendorBalance.bankAccount b' = VendorBalance.bankAccount b) /\
  Payout.vendors (VendorFunds.payouts requests db) = Payout.vendors db /\
  Payout.bankAccounts (VendorFunds.payouts requests db) = Payout.bankAccounts db /\
  (forall w, Payout.balances db !! w = None ->
             Payout.balances (VendorFunds.payouts requests db) !! w = None).
Proof.
  intros Hb Hav. destruct (payouts_frame requests db) as (F1 & F2 & F3 & F4).
  split; [|auto]. destruct (F4 v b Hb Hav) as (b' & Hb' & Hv & Hp).
  exists b'. split; [exact Hb'|]. split; [exact Hv|].
  pose proof Hv as Hfields. unfold VendorBalance.validate, VendorBalance.atLeastZero in Hfields.
  repeat (apply andb_prop in Hfields as [Hfields ?]).
  split; [assumption|]. split; [assumption|]. exact Hp.
Qed.

Lemma payouts_never_overdraw_witness :
  exists b',
    Payout.balances
      (VendorFunds.payouts (R := wholeNumbers)
         [(1, payoutOf (Js.Number 40.00)); (2, payoutOf (Js.Number 70.00));
          (3, payoutOf (Js.Number 60.00))]
         (payoutDb 10.00 100.00)) !! vendorA = Some b' /\
    VendorBalance.validate b' = true /\
    (0 <=? VendorBalance.availableBalance b')%float = true.
Proof.
  assert (Hb : Payout.balances (payoutDb 10.00 100.00) !! vendorA
               = Some (VendorBalance.mk vendorA (Some "65f1b00000000000000000aa")
                         100 100 0 0 None (Some 0%float) 10 true)) by reflexivity.
  destruct (proj1 (payouts_never_overdraw (R := wholeNumbers)
                     [(1, payoutOf (Js.Number 40.00)); (2, payoutOf (Js.Number 70.00));
                      (3, payoutOf (Js.Number 60.00))]
                     (payoutDb 10.00 100.00) vendorA _ Hb eq_refl))
    as (b' & Hb' & Hv & Hnn & _).
  exists b'. split; [exact Hb'|]. split; [exact Hv|exact Hnn].
Defined.

(** ** Demo earnings and the minimum payout amount *)
Section Earnings.
Import Payout VendorFunds.
Context `{R : Js.Runtime}.

Lemma findAccountByUser_Some (userId accountId : ObjectId)
    (accounts : gmap string BankAccount.t) (account : BankAccount.t) :
  findAccountByUser userId accounts = Some (accountId, account) ->
  accounts !! accountId = Some account /\ BankAccount.user account = userId.
Proof.
  unfold findAccountByUser. intros H.
  apply fmap_Some in H as ([i [k a]] & Hfind & Heq).
  cbn in Heq. injection Heq as -> ->.
  apply list_find_Some in Hfind as (Hl & Hp & _).
  split; [|exact Hp].
  apply elem_of_map_to_list. eapply list_elem_of_lookup_2. exact Hl.
Qed.

(** The two outcomes of [addEarnings] on a balance document. *)
Lemma addEarnings_cases (amount : Js.value) (b : VendorBalance.t) :
  (exists b', VendorBalance.addEarnings amount b = (Returned, b') /\
     VendorBalance.validate b' = true /\
     VendorBalance.pendingBalance b' = VendorBalance.pendingBalance b /\
     VendorBalance.totalPayouts b' = VendorBalance.totalPayouts b /\
     VendorBalance.minimumPayoutAmount b' = VendorBalance.minimumPayoutAmount b /\
     VendorBalance.bankAccount b' = VendorBalance.bankAccount b /\
     VendorBalance.lastPayout b' = VendorBalance.lastPayout b) \/
  exists b', VendorBalance.addEarnings amount b = (Thrown VendorBalance.validationFailed, b').
Proof.
  unfold VendorBalance.addEarnings, VendorBalance.saved, VendorBalance.save.
  destruct (VendorBalance.validate _) eqn:Hv.
  - left. eexists. split; [reflexivity|]. split; [exact Hv|]. cbn. auto 10.
  - right. eexists. reflexivity.
Qed.

End Earnings.

(** X6. The add-earnings handler never writes to the vendor or
    bank-account collections and never removes a balance document; a balance
    that existed keeps its pendingBalance, totalPayouts, minimumPayoutAmount,
    last payout time and linked account, and still passes the validation of
    its schema if it did before; when the answer is not the success answer
    nothing is written at all, and a vendor without a balance document and
    without a bank account gets no document. *)
Theorem addEarnings_frame `{R : Js.Runtime} (req : Payout.Request) (db : Payout.Db) :
  Payout.vendors (snd (VendorFunds.addEarnings req db)) = Payout.vendors db /\
  Payout.bankAccounts (snd (VendorFunds.addEarnings req db)) = Payout.bankAccounts db /\
  (forall v b, Payout.balances db !! v = Some b ->
     exists b', Payout.balances (snd (VendorFunds.addEarnings req db)) !! v = Some b' /\
       (VendorBalance.validate b = true -> VendorBalance.validate b' = true) /\
       VendorBalance.pendingBalance b' = VendorBalance.pendingBalance b /\
       VendorBalance.totalPayouts b' = VendorBalance.totalPayouts b /\
       VendorBalance.minimumPayoutAmount b' = VendorBalance.minimumPayoutAmount b /\
       VendorBalance.bankAccount b' = VendorBalance.bankAccount b /\
       VendorBalance.lastPayout b' = VendorBalance.lastPayout b) /\
  ((forall a b, fst (VendorFunds.addEarnings req db) <> VendorFunds.EarningsAdded a b) ->
   snd (VendorFunds.addEarnings req db) = db) /\
  (forall vendorId,
     Payout.vendors db !! Payout.userId req = Some vendorId ->
     Payout.balances db !! vendorId = None ->
     (forall accountId account,
        Payout.bankAccounts db !! accountId = Some account ->
        BankAccount.user account <> Payout.userId req) ->
     Payout.balances (snd (VendorFunds.addEarnings req db)) !! vendorId = None).
Proof.
  assert (Hsame : forall v b, Payout.balances db !! v = Some b ->
     exists b', Payout.balances db !! v = Some b' /\
       (VendorBalance.validate b = true -> VendorBalance.validate b' = true) /\
       VendorBalance.pendingBalance b' = VendorBalance.pendingBalance b /\
       VendorBalance.totalPayouts b' = VendorBalance.totalPayouts b /\
       VendorBalance.minimumPayoutAmount b' = VendorBalance.minimumPayoutAmount b /\
       VendorBalance.bankAccount b' = VendorBalance.bankAccount b /\
       VendorBalance.lastPayout b' = VendorBalance.lastPayout b).
  { intros v b Hb. exists b. split; [exact Hb|]. auto 10. }
  unfold VendorFunds.addEarnings.
  destruct (Payout.validAmount 0.01 None req) as [amount|];
    [|cbn [fst snd]; repeat split; auto].
  destruct (negb (Payout.role req =? "vendor")%string);
    [cbn [fst snd]; repeat split; auto|].
  destruct (Payout.vendors db !! Payout.userId req) as [vendorId|] eqn:Hv;
    [|cbn [fst snd]; repeat split; auto; intros; discriminate].
  destruct (Payout.balances db !! vendorId) as [b0|] eqn:Hb0.
  - destruct (addEarnings_cases amount b0)
      as [(b1 & -> & Hval & H1 & H2 & H3 & H4 & H5)|[b1 ->]].
    + cbn [fst snd Payout.vendors Payout.balances Payout.bankAccounts].
      split; [reflexivity|]. split; [reflexivity|]. split; [|split].
      * intros v b Hb. destruct (decide (vendorId = v)) as [Heq|Hne].
        -- rewrite Heq in *. rewrite lookup_insert_eq. exists b1. split; [reflexivity|].
           assert (b0 = b) by congruence. subst b0. auto 10.
        -- rewrite lookup_insert_ne by exact Hne. apply Hsame, Hb.
      * intros Hne. exfalso. eapply Hne. reflexivity.
      * intros w [= <-] Hnone. congruence.
    + cbn [fst snd]. repeat split; auto.
  - destruct (VendorFunds.findAccountByUser (Payout.userId req) (Payout.bankAccounts db))
      as [[accountId account]|] eqn:Hfind.
    + destruct (findAccountByUser_Some _ _ _ _ Hfind) as [Hacc Hu].
      destruct (addEarnings_cases amount (VendorFunds.newBalance vendorId accountId))
        as [(b1 & -> & _)|[b1 ->]].
      * cbn [fst snd Payout.vendors Payout.balances Payout.bankAccounts].
        split; [reflexivity|]. split; [reflexivity|]. split; [|split].
        -- intros v b Hb. destruct (decide (vendorId = v)) as [Heq|Hne].
           ++ rewrite Heq in *. congruence.
           ++ rewrite lookup_insert_ne by exact Hne. apply Hsame, Hb.
        -- intros Hne. exfalso. eapply Hne. reflexivity.
        -- intros w [= <-] _ Hno. exfalso. exact (Hno _ _ Hacc Hu).
      * cbn [fst snd]. repeat split; auto.
    + cbn [fst snd]. repeat split; auto.
Qed.

(** Earnings added for a vendor who has a bank account and no balance yet:
    the document is created with the defaults and the amount in
    totalEarnings and availableBalance; amounts below 0.01 are refused. *)
Example addEarnings_first_document :
  VendorFunds.addEarnings (R := wholeNumbers) (payoutOf (Js.Number 80.00)) newVendorDb
  = (VendorFunds.EarningsAdded (Js.Number 80.00)
       (VendorBalance.mk vendorA (Some "65f1b00000000000000000aa")
          80 80 0 0 None (Some 0%float) 10 true),
     Payout.mkDb (Payout.vendors newVendorDb)
       {[ vendorA := VendorBalance.mk vendorA (Some "65f1b00000000000000000aa")
                       80 80 0 0 None (Some 0%float) 10 true ]}
       (Payout.bankAccounts newVendorDb)) /\
  VendorFunds.addEarnings (R := wholeNumbers) (payoutOf (Js.Number 0.001)) newVendorDb
  = (VendorFunds.EarningsValidationFailed, newVendorDb).
Proof. split; reflexivity. Qed.

(** X7. After a vendor has set the minimum payout amount to m (accepted
    when it has the form of a float between 1.00 and 1000.00, stored when the
    balance passes the validation of its schema with it), only that field of
    that vendor's balance has changed, and a payout request of the same vendor
    is processed exactly when it passes the request validation (which has its
    own fixed floor of 10.00), the amount is neither below m nor above
    availableBalance and the balance passes validation once the payout is
    booked; an amount sent as a number and paid out is therefore at least
    10.00 and not below m. *)
Theorem minimum_then_payout `{R : Js.Runtime} (mreq : VendorFunds.MinimumRequest)
    (m : Js.value) (now : Date) (req : Payout.Request) (db : Payout.Db)
    (vendorId accountId : ObjectId) (b : VendorBalance.t) (account : BankAccount.t) :
  VendorFunds.minimumPayoutAmount mreq = Some m ->
  Js.isFloat 1 (Some 1000%float) m = true ->
  VendorFunds.role mreq = "vendor" ->
  Payout.vendors db !! VendorFunds.userId mreq = Some vendorId ->
  Payout.balances db !! vendorId = Some b ->
  VendorBalance.validate (VendorFunds.setMinimum (Js.toNum m) b) = true ->
  VendorBalance.bankAccount b = Some accountId ->
  Payout.bankAccounts db !! accountId = Some account ->
  BankAccount.isActive account = true ->
  Payout.userId req = VendorFunds.userId mreq ->
  Payout.role req = "vendor" ->
  VendorFunds.updateMinimum mreq db
    = (VendorFunds.MinimumUpdated (Js.toNum m),
       Payout.mkDb (Payout.vendors db)
         (<[vendorId := VendorFunds.setMinimum (Js.toNum m) b]> (Payout.balances db))
         (Payout.bankAccounts db)) /\
  VendorFunds.setMinimum (Js.toNum m) b
    = VendorBalance.mk (VendorBalance.vendor b) (VendorBalance.bankAccount b)
        (VendorBalance.totalEarnings b) (VendorBalance.availableBalance b)
        (VendorBalance.pendingBalance b) (VendorBalance.totalPayouts b)
        (VendorBalance.lastPayout b) (VendorBalance.lastPayoutAmount b)
        (Js.toNum m) (VendorBalance.isActive b) /\
  (Payout.succeeded
     (fst (Payout.requestPayout now req (snd (VendorFunds.updateMinimum mreq db)))) = true
   <-> exists amount,
         Payout.validAmount 10 None req = Some amount /\
         Js.lt amount (Js.toNum m) = false /\
         Js.gt amount (VendorBalance.availableBalance b) = false /\
         VendorBalance.validate
           (Payout.paidOut now amount (VendorFunds.setMinimum (Js.toNum m) b)) = true) /\
  (forall x,
     Payout.amount req = Some (Js.Number x) ->
     Payout.succeeded
       (fst (Payout.requestPayout now req (snd (VendorFunds.updateMinimum mreq db)))) = true ->
     (10 <=? x)%float = true /\ (x <? Js.toNum m)%float = false /\
     (VendorBalance.availableBalance b <? x)%float = false).
Proof.
  intros Hm Hform Hmrole Hvendor Hb Hvalid Hlinked Hacc Hactive Huser Hrole.
  assert (Hupd : VendorFunds.updateMinimum mreq db
    = (VendorFunds.MinimumUpdated (Js.toNum m),
       Payout.mkDb (Payout.vendors db)
         (<[vendorId := VendorFunds.setMinimum (Js.toNum m) b]> (Payout.balances db))
         (Payout.bankAccounts db))).
  { unfold VendorFunds.updateMinimum.
    rewrite Hm, Hform, Hmrole, String.eqb_refl, Hvendor, Hb. cbn [negb].
    unfold VendorBalance.saved, VendorBalance.save. rewrite Hvalid. reflexivity. }
  split; [exact Hupd|]. split; [reflexivity|].
  rewrite Hupd. cbn [snd].
  set (b1 := VendorFunds.setMinimum (Js.toNum m) b).
  set (db1 := Payout.mkDb _ _ _).
  assert (Hv1 : Payout.vendors db1 !! Payout.userId req = Some vendorId)
    by (rewrite Huser; exact Hvendor).
  assert (Hb1 : Payout.balances db1 !! vendorId = Some b1) by apply lookup_insert_eq.
  assert (Hto : Payout.succeeded (fst (Payout.requestPayout now req db1)) = true ->
     exists amount,
         Payout.validAmount 10 None req = Some amount /\
         Js.lt amount (Js.toNum m) = false /\
         Js.gt amount (VendorBalance.availableBalance b) = false /\
         VendorBalance.validate (Payout.paidOut now amount b1) = true).
  { intros Hs. apply requestPayout_succeeded in Hs
      as (amount & v & b' & a & acc & Hval & _ & H1 & H2 & _ & _ & _ & H6 & H7 & H8).
    assert (v = vendorId) by congruence. subst v.
    assert (b' = b1) by congruence. subst b'.
    exists amount. auto. }
  split; [split|].
  - exact Hto.
  - intros (amount & Hval & Hlt & Hgt & Hpaid).
    rewrite (requestPayout_processed now req db1 vendorId accountId b1 account
               Hv1 Hb1 Hrole Hlinked Hacc Hactive amount Hval Hlt Hgt), Hpaid.
    reflexivity.
  - intros x Hx Hs. destruct (Hto Hs) as (amount & Hval & Hlt & Hgt & _).
    unfold Payout.validAmount in Hval. rewrite Hx in Hval.
    destruct (Js.isFloat 10 None (Js.Number x) && _) eqn:Hf; [|discriminate].
    injection Hval as <-. apply andb_prop in Hf as [Hf _].
    cbn in Hf. apply andb_prop in Hf as [_ Hf]. rewrite andb_true_r in Hf.
    auto.
Qed.

Lemma minimum_then_payout_witness :
  VendorFunds.updateMinimum (R := wholeNumbers)
    (VendorFunds.mkMinimum "65f1d00000000000000000a1" "vendor" (Some (Js.Number 50.00)))
    (payoutDb 10.00 100.00)
  = (VendorFunds.MinimumUpdated 50,
     Payout.mkDb (Payout.vendors (payoutDb 10.00 100.00))
       (<[vendorA := VendorFunds.setMinimum 50
                       (VendorBalance.mk vendorA (Some "65f1b00000000000000000aa")
                          100 100 0 0 None (Some 0%float) 10 true)]>
          (Payout.balances (payoutDb 10.00 100.00)))
       (Payout.bankAccounts (payoutDb 10.00 100.00))).
Proof.
  refine (proj1
    (minimum_then_payout (R := wholeNumbers)
       (VendorFunds.mkMinimum "65f1d00000000000000000a1" "vendor" (Some (Js.Number 50.00)))
       (Js.Number 50.00) 5 (payoutOf (Js.Number 70.00))
       (payoutDb 10.00 100.00) vendorA "65f1b00000000000000000aa"
       (VendorBalance.mk vendorA (Some "65f1b00000000000000000aa")
          100 100 0 0 None (Some 0%float) 10 true)
       sampleAccount _ _ _ _ _ _ _ _ _ _ _)); reflexivity.
Defined.

(** With the minimum set to 50.00, 70.00 is paid out and 20.00 is answered
    with the minimum; with the minimum set to 1.00, 5.00 is refused by the
    request validation. *)
Example minimum_and_floor :
  fst (Payout.requestPayout (R := wholeNumbers) 5 (payoutOf (Js.Number 70.00))
         (snd (VendorFunds.updateMinimum (R := wholeNumbers)
                 (VendorFunds.mkMinimum "65f1d00000000000000000a1" "vendor"
                    (Some (Js.Number 50.00)))
                 (payoutDb 10.00 100.00))))
  = Payout.PayoutProcessed (Js.Number 70.00)
      (VendorBalance.mk vendorA (Some "65f1b00000000000000000aa")
         100 30 0 70 (Some 5) (Some 70%float) 50 true) /\
  fst (Payout.requestPayout (R := wholeNumbers) 5 (payoutOf (Js.Number 20.00))
         (snd (VendorFunds.updateMinimum (R := wholeNumbers)
                 (VendorFunds.mkMinimum "65f1d00000000000000000a1" "vendor"
                    (Some (Js.Number 50.00)))
                 (payoutDb 10.00 100.00))))
  = Payout.BelowMinimum 50 /\
  fst (Payout.requestPayout (R := wholeNumbers) 5 (payoutOf (Js.Number 5.00))
         (snd (VendorFunds.updateMinimum (R := wholeNumbers)
                 (VendorFunds.mkMinimum "65f1d00000000000000000a1" "vendor"
                    (Some (Js.Number 1.00)))
                 (payoutDb 10.00 100.00))))
  = Payout.ValidationFailed.
Proof. repeat split; reflexivity. Qed.

(** ** Delivery proofs: the window, the reviews, the upload handler *)
Section ProofWindow.
Import DeliveryProof.

Lemma save_valid_proof (loaded p p' : t) : save loaded p = Some p' -> validate p' = true.
Proof.
  unfold save, preSave. destruct (validate p) eqn:Hv; [|discriminate].
  destruct (negb (uploadedAt loaded =? uploadedAt p)); intros [= <-]; exact Hv.
Qed.

Lemma create_window (now : Date) (req : UploadRequest) (vendorId : ObjectId) (p : t) :
  create now req vendorId = Some p ->
  Reviews.windowFollowsUpload p /\
  validate p = true /\
  order p = orderId req /\
  vendor p = vendorId /\
  uploadedAt p = now /\
  imageUrl p = Text.trim (reqImageUrl req) /\
  imageId p = Text.trim (reqImageId req) /\
  verificationStatus p = pending /\
  canReupload p = true.
Proof.
  unfold create, preSave, Reviews.windowFollowsUpload.
  match goal with |- context [validate ?d] => destruct (validate d) eqn:Hv end;
    [|discriminate].
  intros [= <-]. cbn. split; [reflexivity|]. split; [exact Hv|]. auto 10.
Qed.

(** A decision keeps the upload, the window and the references of the
    proof, and the proof that is stored has passed validation. *)
Lemma decision_fields (p p' q : t) :
  save p q = Some p' ->
  uploadedAt q = uploadedAt p -> reuploadExpiresAt q = reuploadExpiresAt p ->
  order q = order p -> vendor q = vendor p ->
  imageUrl q = imageUrl p -> imageId q = imageId p ->
  validate p' = true /\
  imageUrl p' = imageUrl p /\ imageId p' = imageId p /\
  uploadedAt p' = uploadedAt p /\ reuploadExpiresAt p' = reuploadExpiresAt p /\
  order p' = order p /\ vendor p' = vendor p.
Proof.
  intros Hs H1 H2 H3 H4 H5 H6. pose proof (save_valid_proof _ _ _ Hs) as Hv.
  apply save_fields in Hs.
  destruct Hs as (_ & G1 & G2 & G3 & G4 & G5 & _ & _ & _ & _ & _ & G6).
  rewrite H1, Z.eqb_refl in G6. cbn in G6.
  split; [exact Hv|]. repeat split; congruence.
Qed.

Lemma step_window (p : t) (op : ProofLifecycle.Op) :
  Reviews.windowFollowsUpload p -> validate p = true ->
  Reviews.windowFollowsUpload (ProofLifecycle.step p op) /\
  validate (ProofLifecycle.step p op) = true /\
  order (ProofLifecycle.step p op) = order p /\
  vendor (ProofLifecycle.step p op) = vendor p.
Proof.
  unfold Reviews.windowFollowsUpload. intros Hw Hv.
  destruct op as [adminId notes now|adminId notes now|adminId notes now|now req];
    cbn [ProofLifecycle.step].
  - unfold approve.
    match goal with
    | |- context [save p ?d] => destruct (save p d) as [p'|] eqn:Hs; cbn [from_option id]
    end; [|auto].
    destruct (decision_fields _ _ _ Hs) as (G0 & _ & _ & G1 & G2 & G3 & G4); try reflexivity.
    rewrite G1, G2. auto.
  - unfold reject.
    match goal with
    | |- context [save p ?d] => destruct (save p d) as [p'|] eqn:Hs; cbn [from_option id]
    end; [|auto].
    destruct (decision_fields _ _ _ Hs) as (G0 & _ & _ & G1 & G2 & G3 & G4); try reflexivity.
    rewrite G1, G2. auto.
  - unfold requiresReview.
    match goal with
    | |- context [save p ?d] => destruct (save p d) as [p'|] eqn:Hs; cbn [from_option id]
    end; [|auto].
    destruct (decision_fields _ _ _ Hs) as (G0 & _ & _ & G1 & G2 & G3 & G4); try reflexivity.
    rewrite G1, G2. auto.
  - unfold reupload. destruct (_ <? _); [cbn; auto|].
    match goal with
    | |- context [save p ?d] => destruct (save p d) as [p'|] eqn:Hs; cbn [snd]
    end; [|auto].
    pose proof (save_valid_proof _ _ _ Hs) as Hv'. apply save_fields in Hs. cbn in Hs.
    destruct Hs as (_ & G1 & G2 & _ & _ & G3 & _ & _ & _ & _ & _ & G4).
    split; [|auto]. rewrite G4, G3.
    destruct (Z.eqb_spec (uploadedAt p) now) as [Heq|Hne]; cbn; [|reflexivity].
    rewrite <- Heq. exact Hw.
Qed.

Lemma run_window (ops : list ProofLifecycle.Op) :
  forall p, Reviews.windowFollowsUpload p -> validate p = true ->
    Reviews.windowFollowsUpload (ProofLifecycle.run ops p) /\
    validate (ProofLifecycle.run ops p) = true /\
    order (ProofLifecycle.run ops p) = order p /\
    vendor (ProofLifecycle.run ops p) = vendor p.
Proof.
  induction ops as [|op ops IH]; intros p Hw Hv; [cbn; auto|].
  change (ProofLifecycle.run (op :: ops) p)
    with (ProofLifecycle.run ops (ProofLifecycle.step p op)).
  destruct (step_window p op Hw Hv) as (H1 & H2 & H3 & H4).
  destruct (IH _ H1 H2) as (G1 & G2 & G3 & G4).
  split; [exact G1|]. split; [exact G2|]. split; congruence.
Qed.

Lemma trim_nonempty (s : string) :
  Vault.isEmpty (Text.trim s) = false -> Vault.isEmpty s = false.
Proof. destruct s; [intros H; vm_compute in H; discriminate H|reflexivity]. Qed.

(** What the handler answers to the first upload for an order. *)
Lemma upload_first (now : Date) (newProofId : ObjectId) (req : UploadRequest) (db : Db)
    (p : t) :
  fst (upload now newProofId req db) = ProofUploaded p ->
  exists vendorId,
    vendors db !! userId req = Some vendorId /\
    proofs db !! orderId req = None /\
    create now req vendorId = Some p /\
    proofs (snd (upload now newProofId req db)) !! orderId req = Some p.
Proof.
  unfold upload.
  destruct (vendors db !! userId req) as [vendorId|]; [|discriminate].
  destruct (_ || _); [discriminate|].
  destruct (orders db !! orderId req) as [o|]; [|discriminate].
  destruct (negb _); [discriminate|].
  destruct (proofs db !! orderId req) as [existing|] eqn:He.
  - unfold reupload. destruct (_ <? _); [discriminate|].
    destruct (save existing _); discriminate.
  - destruct (create now req vendorId) as [p0|] eqn:Hc; [|discriminate].
    destruct (Order.written now _); [|discriminate].
    cbn. intros [= <-]. exists vendorId. rewrite lookup_insert_eq. auto.
Qed.

End ProofWindow.

(** X10. The proof stored by a first upload through the upload handler has
    the request time as uploadedAt and reuploadExpiresAt = uploadedAt + 15
    minutes, and passes the validation of its schema; every later approval,
    rejection, requires-review and re-upload keeps both properties (a
    re-upload moves both times), as well as the proof's order and vendor.  On
    such a proof the handler's own window test is weaker than the virtual
    canStillReupload: whenever canStillReupload is true at the time of a
    request of the order's vendor for the still pending order, with an image
    URL and an image id that are not blank, the handler accepts the
    re-upload, stores the trimmed image fields and moves both times. *)
Theorem window_follows_upload (now : Date) (newProofId : ObjectId)
    (req : DeliveryProof.UploadRequest) (db : DeliveryProof.Db) (p0 : DeliveryProof.t)
    (ops : list ProofLifecycle.Op) :
  fst (DeliveryProof.upload now newProofId req db) = DeliveryProof.ProofUploaded p0 ->
  let p := ProofLifecycle.run ops p0 in
  DeliveryProof.proofs (snd (DeliveryProof.upload now newProofId req db))
    !! DeliveryProof.orderId req = Some p0 /\
  DeliveryProof.uploadedAt p0 = now /\
  DeliveryProof.reuploadExpiresAt p0 = now + DeliveryProof.reuploadWindow /\
  DeliveryProof.reuploadExpiresAt p
    = DeliveryProof.uploadedAt p + DeliveryProof.reuploadWindow /\
  DeliveryProof.validate p = true /\
  DeliveryProof.order p = DeliveryProof.orderId req /\
  DeliveryProof.vendor p = DeliveryProof.vendor p0 /\
  (forall later newer again db' vendorId o,
     DeliveryProof.vendors db' !! DeliveryProof.userId again = Some vendorId ->
     DeliveryProof.orders db' !! DeliveryProof.orderId again = Some o ->
     DeliveryProof.hasVendor vendorId o = true ->
     Order.status o = Order.pending ->
     DeliveryProof.proofs db' !! DeliveryProof.orderId again = Some p ->
     Vault.isEmpty (Text.trim (DeliveryProof.reqImageUrl again)) = false ->
     Vault.isEmpty (Text.trim (DeliveryProof.reqImageId again)) = false ->
     DeliveryProof.canStillReupload later p = true ->
     exists p',
       DeliveryProof.upload later newer again db'
       = (DeliveryProof.ProofUpdated p',
          DeliveryProof.mkDb (DeliveryProof.vendors db') (DeliveryProof.orders db')
            (<[DeliveryProof.orderId again := p']> (DeliveryProof.proofs db'))) /\
       DeliveryProof.imageUrl p' = Text.trim (DeliveryProof.reqImageUrl again) /\
       DeliveryProof.imageId p' = Text.trim (DeliveryProof.reqImageId again) /\
       DeliveryProof.uploadedAt p' = later /\
       DeliveryProof.reuploadExpiresAt p' = later + DeliveryProof.reuploadWindow /\
       DeliveryProof.verificationStatus p' = DeliveryProof.verificationStatus p /\
       DeliveryProof.canReupload p' = DeliveryProof.canReupload p).
Proof.
  intros Hfirst p.
  destruct (upload_first _ _ _ _ _ Hfirst) as (vendorId0 & _ & _ & Hc & Hstored).
  destruct (create_window _ _ _ _ Hc) as (C1 & C2 & C3 & C4 & C5 & _).
  destruct (run_window ops _ C1 C2) as (R1 & R2 & R3 & R4). fold p in R1, R2, R3, R4.
  split; [exact Hstored|]. split; [exact C5|].
  split; [unfold Reviews.windowFollowsUpload in C1; congruence|].
  split; [exact R1|]. split; [exact R2|]. split; [congruence|]. split; [exact R4|].
  intros later newer again db' vendorId o Hv Ho Hhas Hpend Hp Hurl Hid Hcan.
  unfold DeliveryProof.canStillReupload in Hcan.
  apply andb_prop in Hcan as [_ Hlt]. apply Z.ltb_lt in Hlt.
  unfold Reviews.windowFollowsUpload in R1.
  rewrite R1 in Hlt. unfold DeliveryProof.reuploadWindow in Hlt.
  unfold DeliveryProof.upload.
  rewrite Hv, (trim_nonempty _ Hurl), (trim_nonempty _ Hid), Ho, Hhas, Hpend, Hp.
  cbn [orb andb negb Order.status_eqb]. unfold DeliveryProof.reupload.
  destruct (Z.ltb_spec (15 * (1000 * 60)) (later - DeliveryProof.uploadedAt p)); [lia|].
  assert (Hvalid : DeliveryProof.validate
            (DeliveryProof.mk (DeliveryProof.order p) (DeliveryProof.vendor p)
               (Text.trim (DeliveryProof.reqImageUrl again))
               (Text.trim (DeliveryProof.reqImageId again)) later
               (DeliveryProof.arrivalNotes p) (DeliveryProof.verificationStatus p)
               (DeliveryProof.adminNotes p) (DeliveryProof.reviewedBy p)
               (DeliveryProof.reviewedAt p) (DeliveryProof.canReupload p)
               (DeliveryProof.reuploadExpiresAt p) (DeliveryProof.reqMetadata again))
            = true).
  { unfold DeliveryProof.validate in *. cbn. rewrite Hurl, Hid. cbn [negb andb].
    apply andb_prop in R2 as [R2 Hadm]. apply andb_prop in R2 as [_ Harr].
    rewrite Harr, Hadm. reflexivity. }
  unfold DeliveryProof.save. rewrite Hvalid.
  eexists. split; [reflexivity|].
  unfold DeliveryProof.preSave. cbn.
  destruct (Z.eqb_spec (DeliveryProof.uploadedAt p) later) as [Heq|Hne]; cbn;
    repeat split; try reflexivity.
  rewrite R1, Heq. reflexivity.
Qed.

Lemma window_follows_upload_witness :
  exists p',
    DeliveryProof.upload (uploadTime + 60000) "65f1f0000000000000000002" secondUpload
      uploadedDb
    = (DeliveryProof.ProofUpdated p',
       DeliveryProof.mkDb (DeliveryProof.vendors uploadedDb) (DeliveryProof.orders uploadedDb)
         (<[sampleOrderId := p']> (DeliveryProof.proofs uploadedDb))) /\
    DeliveryProof.uploadedAt p' = uploadTime + 60000 /\
    DeliveryProof.reuploadExpiresAt p' = uploadTime + 60000 + DeliveryProof.reuploadWindow.
Proof.
  destruct (proj2 (proj2 (proj2 (proj2 (proj2 (proj2 (proj2
              (window_follows_upload uploadTime "65f1f0000000000000000001" firstUpload
                 proofDb sampleProof [] eq_refl)))))))
              (uploadTime + 60000) "65f1f0000000000000000002" secondUpload uploadedDb
              vendorA
              (DeliveryProof.attachToOrder "65f1f0000000000000000001" sampleOrder))
    as (p' & H1 & _ & _ & H2 & H3 & _); try reflexivity.
  exists p'. split; [exact H1|]. split; [exact H2|exact H3].
Defined.

Section ReviewSeries.
Import DeliveryProof.

Lemma approve_fields (adminId notes : string) (now : Date) (p p' : t) :
  approve adminId notes now p = Some p' ->
  validate p' = true /\
  imageUrl p' = imageUrl p /\ imageId p' = imageId p /\
  uploadedAt p' = uploadedAt p /\ reuploadExpiresAt p' = reuploadExpiresAt p /\
  order p' = order p /\ vendor p' = vendor p.
Proof. unfold approve. intros Hs. apply (decision_fields _ _ _ Hs); reflexivity. Qed.

Lemma reject_fields (adminId notes : string) (now : Date) (p p' : t) :
  reject adminId notes now p = Some p' ->
  validate p' = true /\
  imageUrl p' = imageUrl p /\ imageId p' = imageId p /\
  uploadedAt p' = uploadedAt p /\ reuploadExpiresAt p' = reuploadExpiresAt p /\
  order p' = order p /\ vendor p' = vendor p.
Proof. unfold reject. intros Hs. apply (decision_fields _ _ _ Hs); reflexivity. Qed.

Lemma requiresReview_fields (adminId notes : string) (now : Date) (p p' : t) :
  requiresReview adminId notes now p = Some p' ->
  validate p' = true /\
  imageUrl p' = imageUrl p /\ imageId p' = imageId p /\
  uploadedAt p' = uploadedAt p /\ reuploadExpiresAt p' = reuploadExpiresAt p /\
  order p' = order p /\ vendor p' = vendor p.
Proof. unfold requiresReview. intros Hs. apply (decision_fields _ _ _ Hs); reflexivity. Qed.

Lemma sameUpload_refl (p : t) : Reviews.sameUpload p p.
Proof. unfold Reviews.sameUpload. auto 10. Qed.

Lemma sameUpload_saved (p p' : t) :
  validate p' = true /\
  imageUrl p' = imageUrl p /\ imageId p' = imageId p /\
  uploadedAt p' = uploadedAt p /\ reuploadExpiresAt p' = reuploadExpiresAt p /\
  order p' = order p /\ vendor p' = vendor p ->
  Reviews.sameUpload p p'.
Proof. unfold Reviews.sameUpload. intros (H & H'). split; [auto|exact H']. Qed.

Lemma review_step_proof (st : t * Order.t) (r : Reviews.Request) :
  Reviews.sameUpload (fst st) (fst (Reviews.step st r)).
Proof.
  destruct st as [p o]. unfold Reviews.step, review, moveOrder. cbn [fst].
  destruct (String.eqb (Reviews.action r) "approve").
  { destruct (approve _ _ _ p) as [p'|] eqn:Hs; [|apply sameUpload_refl].
    apply approve_fields in Hs.
    destruct (Order.status_eqb _ _); [destruct (Order.written _ _)|];
      apply sameUpload_saved, Hs. }
  destruct (String.eqb (Reviews.action r) "reject").
  { destruct (reject _ _ _ p) as [p'|] eqn:Hs; [|apply sameUpload_refl].
    apply reject_fields in Hs.
    destruct (Order.status_eqb _ _); [destruct (Order.written _ _)|];
      apply sameUpload_saved, Hs. }
  destruct (String.eqb (Reviews.action r) "requires_review"); [|apply sameUpload_refl].
  destruct (requiresReview _ _ _ p) as [p'|] eqn:Hs; [|apply sameUpload_refl].
  apply requiresReview_fields in Hs. apply sameUpload_saved, Hs.
Qed.

Lemma review_step_settled (st : t * Order.t) (r : Reviews.Request) :
  Order.status (snd st) <> Order.processing \/ Order.validate (snd st) = false ->
  snd (Reviews.step st r) = snd st.
Proof.
  destruct st as [p o]. cbn [snd]. intros Hs. unfold Reviews.step, review, moveOrder.
  assert (Hb : Order.status_eqb (Order.status o) Order.processing = false \/
               forall st, Order.written (Reviews.now r) (Order.setStatus st o) = None).
  { destruct Hs as [Hs|Hs].
    - left. destruct (Order.status o); try reflexivity; congruence.
    - right. intros st. unfold Order.written. rewrite validate_setStatus, Hs. reflexivity. }
  destruct (String.eqb (Reviews.action r) "approve").
  { destruct (approve _ _ _ p); [|reflexivity].
    destruct Hb as [->| ->]; [reflexivity|]. destruct (Order.status_eqb _ _); reflexivity. }
  destruct (String.eqb (Reviews.action r) "reject").
  { destruct (reject _ _ _ p); [|reflexivity].
    destruct Hb as [->| ->]; [reflexivity|]. destruct (Order.status_eqb _ _); reflexivity. }
  destruct (String.eqb (Reviews.action r) "requires_review"); [|reflexivity].
  destruct (requiresReview _ _ _ p); reflexivity.
Qed.

Lemma review_run_settled (rs : list Reviews.Request) :
  forall st,
    Order.status (snd st) <> Order.processing \/ Order.validate (snd st) = false ->
    snd (Reviews.run rs st) = snd st.
Proof.
  induction rs as [|r rs IH]; intros st Hs; [reflexivity|].
  change (Reviews.run (r :: rs) st) with (Reviews.run rs (Reviews.step st r)).
  rewrite IH; rewrite (review_step_settled st r Hs); auto.
Qed.

Lemma review_step_undecided (st : t * Order.t) (r : Reviews.Request) :
  Reviews.action r <> "approve" -> Reviews.action r <> "reject" ->
  snd (Reviews.step st r) = snd st.
Proof.
  destruct st as [p o]. intros Ha Hr. unfold Reviews.step, review.
  apply String.eqb_neq in Ha. apply String.eqb_neq in Hr. rewrite Ha, Hr.
  destruct (String.eqb (Reviews.action r) "requires_review"); [|reflexivity].
  destruct (requiresReview _ _ _ p); reflexivity.
Qed.

Lemma sameUpload_trans (a b c : t) : Reviews.sameUpload a b -> Reviews.sameUpload b c -> Reviews.sameUpload a c.
Proof.
  unfold Reviews.sameUpload. intros (H0 & H1 & H2 & H3 & H4 & H5 & H6) (G0 & G1 & G2 & G3 & G4 & G5 & G6).
  split; [auto|]. repeat split; congruence.
Qed.

Lemma review_run_proof (rs : list Reviews.Request) :
  forall st, Reviews.sameUpload (fst st) (fst (Reviews.run rs st)).
Proof.
  induction rs as [|r rs IH]; intros st; [apply sameUpload_refl|].
  change (Reviews.run (r :: rs) st) with (Reviews.run rs (Reviews.step st r)).
  eapply sameUpload_trans; [apply review_step_proof|apply IH].
Qed.

(** Notes that are too long: the decision is not saved. *)
Lemma long_notes_not_saved (adminId notes : string) (now : Date) (p : t) :
  (1000 < Text.units (Text.trim notes))%nat ->
  approve adminId notes now p = None /\
  reject adminId notes now p = None /\
  requiresReview adminId notes now p = None.
Proof.
  intros Hlen.
  assert (Hne : String.eqb notes "" = false).
  { destruct notes; [vm_compute in Hlen; lia|reflexivity]. }
  assert (Hw : Text.withinLength 1000 (Some (Text.trim notes)) = false).
  { cbn. apply Nat.leb_gt. exact Hlen. }
  unfold approve, reject, requiresReview, save, validate.
  cbn [imageUrl imageId arrivalNotes adminNotes]. rewrite Hne, Hw.
  rewrite !andb_false_r. auto.
Qed.

Lemma written_stored (now : Date) (o : Order.t) :
  Order.isNew o = false -> Order.validate o = true -> Order.written now o = Some o.
Proof.
  intros Hn Hv. unfold Order.written. rewrite Hv, (preSave_stored now o Hn).
  rewrite (persisted_stored o Hn). reflexivity.
Qed.

Lemma short_notes_saved (adminId notes : string) (now : Date) (p : t) :
  validate p = true -> (Text.units (Text.trim notes) <= 1000)%nat ->
  is_Some (approve adminId notes now p) /\ is_Some (reject adminId notes now p).
Proof.
  intros Hv Hlen. split; [apply approve_saved; assumption|].
  unfold reject, save, validate in *. cbn.
  apply andb_prop in Hv as [Hv _]. rewrite Hv. cbn [andb].
  apply Nat.leb_le in Hlen. rewrite Hlen. eauto.
Qed.

End ReviewSeries.

(** X11. Over any series of reviews of one proof, an order that is not
    'processing', or that fails the validation of its schema, is never
    changed.  For a stored order that is 'processing' and passes validation,
    and a proof that passes validation: after reviews that are neither
    approve nor reject, the first approve or reject whose notes, trimmed, are
    at most 1000 characters long moves the order to 'shipped' (approve) or
    'pending' (reject), writes no other field of it, and no later review
    changes it again.  A review whose notes are longer is not a decision: it
    is answered with an error and changes neither the proof nor the order.
    The reviews never touch the proof's image, upload time, re-upload
    deadline, order or vendor. *)
Theorem first_decision_settles_order (rs : list Reviews.Request)
    (p : DeliveryProof.t) (o : Order.t) :
  (Order.status o <> Order.processing \/ Order.validate o = false ->
   snd (Reviews.run rs (p, o)) = o) /\
  (Order.status o = Order.processing -> Order.isNew o = false ->
   Order.validate o = true -> DeliveryProof.validate p = true ->
   forall pre r rest,
     rs = (pre ++ r :: rest)%list ->
     Forall (fun q => Reviews.action q <> "approve" /\ Reviews.action q <> "reject") pre ->
     (Text.units (Text.trim (Reviews.adminNotes r)) <= 1000)%nat ->
     (Reviews.action r = "approve" ->
      snd (Reviews.run rs (p, o)) = Order.setStatus Order.shipped o) /\
     (Reviews.action r = "reject" ->
      snd (Reviews.run rs (p, o)) = Order.setStatus Order.pending o)) /\
  (forall r, (1000 < Text.units (Text.trim (Reviews.adminNotes r)))%nat ->
     Reviews.step (p, o) r = (p, o) /\
     Reviews.answer (p, o) r <> DeliveryProof.Reviewed) /\
  DeliveryProof.imageUrl (fst (Reviews.run rs (p, o))) = DeliveryProof.imageUrl p /\
  DeliveryProof.imageId (fst (Reviews.run rs (p, o))) = DeliveryProof.imageId p /\
  DeliveryProof.uploadedAt (fst (Reviews.run rs (p, o))) = DeliveryProof.uploadedAt p /\
  DeliveryProof.reuploadExpiresAt (fst (Reviews.run rs (p, o)))
    = DeliveryProof.reuploadExpiresAt p /\
  DeliveryProof.order (fst (Reviews.run rs (p, o))) = DeliveryProof.order p /\
  DeliveryProof.vendor (fst (Reviews.run rs (p, o))) = DeliveryProof.vendor p.
Proof.
  split; [|split; [|split; [|exact (proj2 (review_run_proof rs (p, o)))]]].
  - intros Hs. apply (review_run_settled rs (p, o) Hs).
  - intros Hs Hstored Hvalid Hproof pre r rest -> Hpre Hlen.
    unfold Reviews.run. rewrite fold_left_app.
    fold (Reviews.run pre (p, o)).
    assert (Hkeep : snd (Reviews.run pre (p, o)) = o).
    { clear Hs Hproof. revert p.
      induction Hpre as [|q pre [Ha Hr] _ IH]; intros p; [reflexivity|].
      change (Reviews.run (q :: pre) (p, o)) with (Reviews.run pre (Reviews.step (p, o) q)).
      pose proof (review_step_undecided (p, o) q Ha Hr) as Hq. cbn [snd] in Hq.
      destruct (Reviews.step (p, o) q) as [p1 o1]. cbn [snd] in Hq. subst o1. apply IH. }
    pose proof (proj1 (review_run_proof pre (p, o)) Hproof) as Hproof1.
    destruct (Reviews.run pre (p, o)) as [p1 o1]. cbn [fst snd] in Hkeep, Hproof1. subst o1.
    cbn [fold_left]. fold (Reviews.run rest (Reviews.step (p1, o) r)).
    destruct (short_notes_saved (Reviews.adminId r) (Reviews.adminNotes r) (Reviews.now r)
                p1 Hproof1 Hlen) as [[pa Hpa] [pr Hpr]].
    assert (Hw : forall st, Order.written (Reviews.now r) (Order.setStatus st o)
                            = Some (Order.setStatus st o)).
    { intros st. apply written_stored; [exact Hstored|].
      rewrite validate_setStatus. exact Hvalid. }
    split; intros Hact.
    + rewrite review_run_settled;
        unfold Reviews.step, DeliveryProof.review, DeliveryProof.moveOrder;
        rewrite Hact, Hpa, Hs, Hw; cbn; [reflexivity|]. left. discriminate.
    + rewrite review_run_settled;
        unfold Reviews.step, DeliveryProof.review, DeliveryProof.moveOrder;
        rewrite Hact, Hpr, Hs, !Hw; cbn; [reflexivity|]. left. discriminate.
  - intros r Hlen.
    destruct (long_notes_not_saved (Reviews.adminId r) (Reviews.adminNotes r)
                (Reviews.now r) p Hlen) as (Ha & Hr & Hq).
    unfold Reviews.step, Reviews.answer, DeliveryProof.review. rewrite Ha, Hr, Hq.
    destruct (String.eqb (Reviews.action r) "approve");
      [|destruct (String.eqb (Reviews.action r) "reject");
        [|destruct (String.eqb (Reviews.action r) "requires_review")]];
      split; try reflexivity; discriminate.
Qed.

Lemma first_decision_settles_order_witness :
  snd (Reviews.run
         [Reviews.mkReview "requires_review" adminUser "check" 1;
          Reviews.mkReview "approve" adminUser "" 2;
          Reviews.mkReview "reject" adminUser "late" 3]
         (sampleProof, Order.setStatus Order.processing sampleOrder))
  = Order.setStatus Order.shipped (Order.setStatus Order.processing sampleOrder).
Proof.
  refine (proj1 (proj1 (proj2 (first_decision_settles_order _ _ _)) _ _ _ _
                   [Reviews.mkReview "requires_review" adminUser "check" 1]
                   (Reviews.mkReview "approve" adminUser "" 2)
                   [Reviews.mkReview "reject" adminUser "late" 3] _ _ _) _);
    try reflexivity.
  - repeat constructor; discriminate.
  - vm_compute. lia.
Defined.

(** An approval with notes of 1001 characters decides nothing: the rejection
    that follows it is the first decision and moves the order to pending. *)
Example rejected_after_failed_approval :
  Order.status
    (snd (Reviews.run
            [Reviews.mkReview "approve" adminUser longNotes 1;
             Reviews.mkReview "reject" adminUser "blurred" 2]
            (sampleProof, Order.setStatus Order.processing sampleOrder)))
  = Order.pending /\
  Reviews.answer (sampleProof, Order.setStatus Order.processing sampleOrder)
    (Reviews.mkReview "approve" adminUser longNotes 1)
  = DeliveryProof.ReviewFailed.
Proof. split; vm_compute; reflexivity. Qed.

Ltac upload_unchanged Hsame :=
  cbn [fst snd];
  split; [reflexivity|];
  split; [exact Hsame|];
  split; [intros; reflexivity|];
  split; [intros; split; [reflexivity|intros; reflexivity]|];
  let H := fresh in intros ? [H|H]; discriminate H.

(** X12. The proof-upload handler never writes to the vendor collection,
    never creates or removes an order and never changes an order's status,
    escrow status, line items, total or payment status (the order of a first
    upload stays 'pending'); it touches no proof but the one of the requested
    order.  An answer other than the two success answers leaves the orders as
    they were, and leaves the proofs as they were too unless it is the server
    error, which a first upload also gives when the proof has been stored and
    the order is then rejected by its validation.  After a success the stored
    proof of the order passes validation, carries the request's image fields
    trimmed and the request time as upload time, the order being a pending
    order with an item of the calling vendor; after a first upload its
    deadline is 15 minutes later. *)
Theorem upload_frame (now : Date) (newProofId : ObjectId)
    (req : DeliveryProof.UploadRequest) (db : DeliveryProof.Db) :
  DeliveryProof.vendors (snd (DeliveryProof.upload now newProofId req db))
    = DeliveryProof.vendors db /\
  (forall k,
     match DeliveryProof.orders db !! k,
           DeliveryProof.orders (snd (DeliveryProof.upload now newProofId req db)) !! k with
     | Some o, Some o' =>
         Order.status o' = Order.status o /\
         Order.escrowStatus o' = Order.escrowStatus o /\
         Order.items o' = Order.items o /\
         Order.total o' = Order.total o /\
         Order.paymentStatus o' = Order.paymentStatus o
     | None, None => True
     | _, _ => False
     end) /\
  (forall k, k <> DeliveryProof.orderId req ->
     DeliveryProof.proofs (snd (DeliveryProof.upload now newProofId req db)) !! k
       = DeliveryProof.proofs db !! k) /\
  ((forall p, fst (DeliveryProof.upload now newProofId req db)
              <> DeliveryProof.ProofUpdated p) ->
   (forall p, fst (DeliveryProof.upload now newProofId req db)
              <> DeliveryProof.ProofUploaded p) ->
   DeliveryProof.orders (snd (DeliveryProof.upload now newProofId req db))
     = DeliveryProof.orders db /\
   (fst (DeliveryProof.upload now newProofId req db) <> DeliveryProof.UploadFailed ->
    snd (DeliveryProof.upload now newProofId req db) = db)) /\
  (forall p,
     fst (DeliveryProof.upload now newProofId req db) = DeliveryProof.ProofUpdated p \/
     fst (DeliveryProof.upload now newProofId req db) = DeliveryProof.ProofUploaded p ->
     DeliveryProof.proofs (snd (DeliveryProof.upload now newProofId req db))
       !! DeliveryProof.orderId req = Some p /\
     DeliveryProof.validate p = true /\
     DeliveryProof.imageUrl p = Text.trim (DeliveryProof.reqImageUrl req) /\
     DeliveryProof.imageId p = Text.trim (DeliveryProof.reqImageId req) /\
     DeliveryProof.uploadedAt p = now /\
     (fst (DeliveryProof.upload now newProofId req db) = DeliveryProof.ProofUploaded p ->
      DeliveryProof.reuploadExpiresAt p = now + DeliveryProof.reuploadWindow) /\
     exists vendorId o,
       DeliveryProof.vendors db !! DeliveryProof.userId req = Some vendorId /\
       DeliveryProof.orders db !! DeliveryProof.orderId req = Some o /\
       Order.status o = Order.pending /\
       DeliveryProof.hasVendor vendorId o = true).
Proof.
  assert (Hsame : forall k,
     match DeliveryProof.orders db !! k, DeliveryProof.orders db !! k with
     | Some o, Some o' =>
         Order.status o' = Order.status o /\
         Order.escrowStatus o' = Order.escrowStatus o /\
         Order.items o' = Order.items o /\
         Order.total o' = Order.total o /\
         Order.paymentStatus o' = Order.paymentStatus o
     | None, None => True
     | _, _ => False
     end).
  { intros k. destruct (DeliveryProof.orders db !! k); auto 10. }
  unfold DeliveryProof.upload.
  destruct (DeliveryProof.vendors db !! DeliveryProof.userId req) as [vendorId|] eqn:Hv;
    [|upload_unchanged Hsame].
  destruct (_ || _); [upload_unchanged Hsame|].
  destruct (DeliveryProof.orders db !! DeliveryProof.orderId req) as [o|] eqn:Ho;
    [|upload_unchanged Hsame].
  destruct (DeliveryProof.hasVendor vendorId o
            && Order.status_eqb (Order.status o) Order.pending) eqn:Hadm; cbn [negb];
    [|upload_unchanged Hsame].
  apply andb_prop in Hadm as [Hhas Hpend]. apply status_eqb_eq in Hpend.
  destruct (DeliveryProof.proofs db !! DeliveryProof.orderId req) as [existing|] eqn:Hp.
  - unfold DeliveryProof.reupload.
    destruct (15 * (1000 * 60) <? now - DeliveryProof.uploadedAt existing).
    + cbn [fst snd DeliveryProof.vendors DeliveryProof.orders DeliveryProof.proofs].
      split; [reflexivity|]. split; [exact Hsame|]. split.
      * intros k Hk. apply lookup_insert_ne. congruence.
      * split; [|intros p [H|H]; discriminate H].
        intros _ _. split; [reflexivity|]. intros _.
        rewrite insert_id by exact Hp. destruct db; reflexivity.
    + match goal with
      | |- context [DeliveryProof.save existing ?d] =>
          destruct (DeliveryProof.save existing d) as [p'|] eqn:Hs
      end;
        cbn [fst snd DeliveryProof.vendors DeliveryProof.orders DeliveryProof.proofs].
      * split; [reflexivity|]. split; [exact Hsame|]. split.
        -- intros k Hk. apply lookup_insert_ne. congruence.
        -- split; [intros H1 _; exfalso; exact (H1 _ eq_refl)|].
           intros p [[= <-]|[=]]. rewrite lookup_insert_eq.
           split; [reflexivity|].
           split; [exact (save_valid_proof _ _ _ Hs)|].
           apply save_fields in Hs. cbn in Hs.
           destruct Hs as (_ & _ & _ & G1 & G2 & G3 & _).
           split; [exact G1|]. split; [exact G2|]. split; [exact G3|].
           split; [intros [=]|]. exists vendorId, o; auto.
      * split; [reflexivity|]. split; [exact Hsame|]. split.
        -- intros k Hk. apply lookup_insert_ne. congruence.
        -- split; [|intros p [H|H]; discriminate H].
           intros _ _. split; [reflexivity|]. intros H. exfalso. apply H. reflexivity.
  - destruct (DeliveryProof.create now req vendorId) as [p0|] eqn:Hc;
      [|upload_unchanged Hsame].
    destruct (create_window _ _ _ _ Hc) as (C1 & C2 & C3 & C4 & C5 & C6 & C7 & _).
    destruct (Order.written now (DeliveryProof.attachToOrder newProofId o)) as [o'|] eqn:Hw;
      cbn [fst snd DeliveryProof.vendors DeliveryProof.orders DeliveryProof.proofs].
    + split; [reflexivity|]. split; [|split].
      * intros k. destruct (decide (DeliveryProof.orderId req = k)) as [Heq|Hne].
        -- rewrite <- Heq, Ho, lookup_insert_eq.
           unfold Order.written in Hw.
           destruct (Order.validate _); [|discriminate Hw]. injection Hw as <-.
           destruct (preSave_fields now (DeliveryProof.attachToOrder newProofId o))
             as (E1 & _ & E3 & E4 & E5 & E6 & _).
           change (Order.status (Order.persisted ?x)) with (Order.status x).
           change (Order.escrowStatus (Order.persisted ?x)) with (Order.escrowStatus x).
           change (Order.items (Order.persisted ?x)) with (Order.items x).
           change (Order.total (Order.persisted ?x)) with (Order.total x).
           change (Order.paymentStatus (Order.persisted ?x)) with (Order.paymentStatus x).
           rewrite E1, E3, E4, E5, E6. unfold DeliveryProof.attachToOrder.
           destruct (Js.falsyNumber _); cbn; auto 10.
        -- rewrite lookup_insert_ne by exact Hne. apply Hsame.
      * intros k Hk. apply lookup_insert_ne. congruence.
      * split; [intros _ H2; exfalso; exact (H2 _ eq_refl)|].
        intros p [[=]|[= <-]]. rewrite lookup_insert_eq.
        split; [reflexivity|]. split; [exact C2|]. split; [exact C6|].
        split; [exact C7|]. split; [exact C5|].
        split; [intros _; unfold Reviews.windowFollowsUpload in C1; congruence|].
        exists vendorId, o; auto.
    + split; [reflexivity|]. split; [exact Hsame|]. split.
      * intros k Hk. apply lookup_insert_ne. congruence.
      * split; [|intros p [H|H]; discriminate H].
        intros _ _. split; [reflexivity|]. intros H. exfalso. apply H. reflexivity.
Qed.

(** A first upload for an order that its validation rejects (a line item
    with quantity 0): the answer is the server error, the proof is stored all
    the same, and the order has no reference to it. *)
Example upload_stored_without_order :
  let o := Order.mk false "ORD-231114-0002" "65f1c00000000000000000c1"
             [Order.mkItem "p1" 0 25 vendorA] Order.standard Order.pending Order.held
             (Some 0%float) None None 0 0 0 0 (Some 1700432000000) None None
             Order.completed in
  let db := DeliveryProof.mkDb {[ vendorUser := vendorA ]} {[ sampleOrderId := o ]} ∅ in
  fst (DeliveryProof.upload uploadTime "65f1f0000000000000000001" firstUpload db)
  = DeliveryProof.UploadFailed /\
  DeliveryProof.proofs
    (snd (DeliveryProof.upload uploadTime "65f1f0000000000000000001" firstUpload db))
    !! sampleOrderId = Some sampleProof /\
  DeliveryProof.orders
    (snd (DeliveryProof.upload uploadTime "65f1f0000000000000000001" firstUpload db))
    !! sampleOrderId = Some o.
Proof. repeat split; vm_compute; reflexivity. Qed.

(** ** Orders: status changes, cancellation and the release *)
Section Settling.
Import Order.

(** A valid document that is already stored is saved as it is. *)
Lemma save_of_stored (now : Date) (o : t) (s : gmap string VendorBalance.t) :
  isNew o = false -> validate o = true -> save now o s = (Returned, o, s).
Proof.
  intros Hn Hv. rewrite (save_valid now o s Hv), (preSave_stored now o Hn).
  rewrite (persisted_stored o Hn). reflexivity.
Qed.

Lemma admin_delivered_releases (now : Date) (o : t) (s : gmap string VendorBalance.t) :
  isNew o = false -> escrowStatus o = held -> validate o = true ->
  Admin.updateOrderStatus now delivered o s
  = match releaseLoop (vendorAmounts (items o)) s with
    | (Returned, s1) =>
        (Admin.StatusUpdated, setEscrow released (Some now) (setStatus delivered o), s1)
    | (Thrown _, s1) => (Admin.StatusFailed, o, s1)
    end.
Proof.
  intros Hn Hheld Hv. unfold Admin.updateOrderStatus, releaseEscrow.
  assert (Hh : escrowStatus (setStatus delivered o) = held) by exact Hheld.
  rewrite Hh. cbn [status_eqb escrowStatus_eqb andb].
  change (items (setEscrow released (Some now) (setStatus delivered o))) with (items o).
  destruct (releaseLoop (vendorAmounts (items o)) s) as [[|message] s1]; [|reflexivity].
  rewrite (save_of_stored now _ s1) by (try exact Hn; exact Hv).
  rewrite (save_of_stored now _ s1) by (try exact Hn; exact Hv).
  reflexivity.
Qed.

Lemma admin_release_releases (now : Date) (o : t) (s : gmap string VendorBalance.t) :
  isNew o = false -> escrowStatus o = held -> validate o = true ->
  Admin.releaseEscrow now o s
  = match releaseLoop (vendorAmounts (items o)) s with
    | (Returned, s1) => (Admin.EscrowReleased, setEscrow released (Some now) o, s1)
    | (Thrown _, s1) => (Admin.ServerError, o, s1)
    end.
Proof.
  intros Hn Hheld Hv. unfold Admin.releaseEscrow, releaseEscrow.
  rewrite Hheld. cbn [escrowStatus_eqb negb].
  change (items (setEscrow released (Some now) o)) with (items o).
  destruct (releaseLoop (vendorAmounts (items o)) s) as [[|message] s1]; [|reflexivity].
  rewrite (save_of_stored now _ s1) by (try exact Hn; exact Hv).
  reflexivity.
Qed.

End Settling.

(** X15. For a stored order that is held and passes the validation of its
    schema: marking it 'delivered' through the order route (PATCH /:id/status,
    the model's updateStatus) changes the status only: escrow stays held and
    no balance is written.  The admin status handler with 'delivered' writes
    the same balances as the admin release-escrow handler, also after the
    order route had already marked the order delivered; when every balance
    write is accepted it leaves the order delivered and released, and then no
    later status change writes a balance; when a balance write is rejected it
    answers with an error and leaves the order as it was, still held.  With
    any other status the admin status handler writes the status and no
    balance. *)
Theorem delivered_releases_only_by_admin (now later : Date) (newStatus : Order.Status)
    (o : Order.t) (s : gmap string VendorBalance.t) :
  Order.isNew o = false ->
  Order.escrowStatus o = Order.held ->
  Order.validate o = true ->
  Order.updateStatus now Order.delivered o s
    = (Returned, Order.setStatus Order.delivered o, s) /\
  snd (Admin.updateOrderStatus now Order.delivered o s) = snd (Admin.releaseEscrow now o s) /\
  snd (Admin.updateOrderStatus later Order.delivered (Order.setStatus Order.delivered o) s)
    = snd (Admin.releaseEscrow later o s) /\
  (fst (Order.releaseLoop (Order.vendorAmounts (Order.items o)) s) = Returned ->
   fst (Admin.updateOrderStatus now Order.delivered o s)
     = (Admin.StatusUpdated,
        Order.setEscrow Order.released (Some now) (Order.setStatus Order.delivered o)) /\
   snd (Admin.updateOrderStatus later newStatus
          (snd (fst (Admin.updateOrderStatus now Order.delivered o s)))
          (snd (Admin.updateOrderStatus now Order.delivered o s)))
     = snd (Admin.updateOrderStatus now Order.delivered o s)) /\
  (fst (Order.releaseLoop (Order.vendorAmounts (Order.items o)) s) <> Returned ->
   fst (Admin.updateOrderStatus now Order.delivered o s) = (Admin.StatusFailed, o)) /\
  (newStatus <> Order.delivered ->
   Admin.updateOrderStatus now newStatus o s
     = (Admin.StatusUpdated, Order.setStatus newStatus o, s)).
Proof.
  intros Hnew Hheld Hvalid.
  assert (Hupd : Order.updateStatus now Order.delivered o s
                 = (Returned, Order.setStatus Order.delivered o, s)).
  { unfold Order.updateStatus. apply save_of_stored; [exact Hnew|exact Hvalid]. }
  split; [exact Hupd|].
  rewrite (admin_delivered_releases now o s Hnew Hheld Hvalid).
  rewrite (admin_delivered_releases later (Order.setStatus Order.delivered o) s
             Hnew Hheld Hvalid).
  rewrite !admin_release_releases by assumption.
  change (Order.items (Order.setStatus Order.delivered o)) with (Order.items o).
  destruct (Order.releaseLoop (Order.vendorAmounts (Order.items o)) s)
    as [[|message] s1]; cbn [fst snd].
  - split; [reflexivity|]. split; [reflexivity|]. split; [|split].
    + intros _. split; [reflexivity|].
      unfold Admin.updateOrderStatus.
      cbn [Order.setStatus Order.setEscrow Order.escrowStatus Order.escrowStatus_eqb].
      rewrite andb_false_r.
      match goal with
      | |- context [Order.save later ?x s1] =>
          destruct (save_cases later x s1) as [-> | ->]; reflexivity
      end.
    + intros H. exfalso. apply H. reflexivity.
    + intros Hne. unfold Admin.updateOrderStatus.
      assert (Hs : Order.status_eqb newStatus Order.delivered = false)
        by (destruct newStatus; try reflexivity; congruence).
      rewrite Hs. cbn [andb].
      rewrite (save_of_stored now _ s) by (try exact Hnew; exact Hvalid). reflexivity.
  - split; [reflexivity|]. split; [reflexivity|]. split; [|split].
    + intros H. discriminate H.
    + intros _. reflexivity.
    + intros Hne. unfold Admin.updateOrderStatus.
      assert (Hs : Order.status_eqb newStatus Order.delivered = false)
        by (destruct newStatus; try reflexivity; congruence).
      rewrite Hs. cbn [andb].
      rewrite (save_of_stored now _ s) by (try exact Hnew; exact Hvalid). reflexivity.
Qed.

Lemma delivered_releases_only_by_admin_witness :
  Order.updateStatus 1 Order.delivered sampleOrder sampleStore
    = (Returned, Order.setStatus Order.delivered sampleOrder, sampleStore) /\
  snd (Admin.updateOrderStatus 1 Order.delivered sampleOrder sampleStore)
    = snd (Admin.releaseEscrow 1 sampleOrder sampleStore).
Proof.
  destruct (delivered_releases_only_by_admin 1 2 Order.shipped sampleOrder sampleStore)
    as (H1 & H2 & _); try reflexivity.
  split; [exact H1|exact H2].
Defined.

(** X16. For a stored order that is held and passes the validation of its
    schema: cancelling (PATCH /:id/cancel) writes the status alone, and only
    on a pending order: the escrow stays held with its amount, the line items
    stay, no balance is touched, and a second cancellation or the
    cancellation of an order in any other status changes nothing.  A cancelled
    order is still paid out: the admin release-escrow handler and the admin
    status handler with 'delivered' write the same balances for it as for the
    order before its cancellation. *)
Theorem cancel_keeps_escrow (now later : Date) (o : Order.t)
    (s : gmap string VendorBalance.t) :
  Order.isNew o = false ->
  Order.escrowStatus o = Order.held ->
  Order.validate o = true ->
  (Order.status o = Order.pending ->
   OrderRoutes.cancel now o s
     = (OrderRoutes.OrderCancelled, Order.setStatus Order.cancelled o, s)) /\
  (Order.status o <> Order.pending ->
   OrderRoutes.cancel now o s = (OrderRoutes.CannotCancel, o, s)) /\
  (Order.status o = Order.pending ->
   OrderRoutes.cancel later (Order.setStatus Order.cancelled o) s
     = (OrderRoutes.CannotCancel, Order.setStatus Order.cancelled o, s)) /\
  Order.escrowStatus (snd (fst (OrderRoutes.cancel now o s))) = Order.held /\
  Order.escrowAmount (snd (fst (OrderRoutes.cancel now o s))) = Order.escrowAmount o /\
  Order.items (snd (fst (OrderRoutes.cancel now o s))) = Order.items o /\
  snd (OrderRoutes.cancel now o s) = s /\
  snd (Admin.releaseEscrow later (snd (fst (OrderRoutes.cancel now o s))) s)
    = snd (Admin.releaseEscrow later o s) /\
  snd (Admin.updateOrderStatus later Order.delivered
         (snd (fst (OrderRoutes.cancel now o s))) s)
    = snd (Admin.releaseEscrow later o s).
Proof.
  intros Hnew Hheld Hvalid.
  assert (Hp : Order.status o = Order.pending ->
               OrderRoutes.cancel now o s
               = (OrderRoutes.OrderCancelled, Order.setStatus Order.cancelled o, s)).
  { intros Hp. unfold OrderRoutes.cancel. rewrite Hp. cbn [Order.status_eqb].
    rewrite (save_of_stored now _ s) by (try exact Hnew; exact Hvalid). reflexivity. }
  assert (Hq : Order.status o <> Order.pending ->
               OrderRoutes.cancel now o s = (OrderRoutes.CannotCancel, o, s)).
  { intros Hq. unfold OrderRoutes.cancel.
    destruct (Order.status o); try reflexivity. congruence. }
  split; [exact Hp|]. split; [exact Hq|]. split; [intros _; reflexivity|].
  assert (Hc : exists o', snd (fst (OrderRoutes.cancel now o s)) = o' /\
                 snd (OrderRoutes.cancel now o s) = s /\
                 Order.isNew o' = false /\ Order.validate o' = true /\
                 Order.escrowStatus o' = Order.held /\
                 Order.escrowAmount o' = Order.escrowAmount o /\
                 Order.items o' = Order.items o).
  { destruct (Order.status_eqb (Order.status o) Order.pending) eqn:E.
    - apply status_eqb_eq in E. rewrite (Hp E). eexists. split; [reflexivity|].
      cbn. auto 10.
    - rewrite Hq by (intros H; rewrite H in E; discriminate E).
      eexists. split; [reflexivity|]. cbn. auto 10. }
  destruct Hc as (o' & -> & Hs & Hn' & Hv' & He' & Ha' & Hi').
  split; [exact He'|]. split; [exact Ha'|]. split; [exact Hi'|]. split; [exact Hs|].
  rewrite (admin_release_releases later o' s Hn' He' Hv').
  rewrite (admin_release_releases later o s Hnew Hheld Hvalid).
  rewrite (admin_delivered_releases later o' s Hn' He' Hv'). rewrite Hi'.
  destruct (Order.releaseLoop (Order.vendorAmounts (Order.items o)) s) as [[|message] s1];
    split; reflexivity.
Qed.

Lemma cancel_keeps_escrow_witness :
  OrderRoutes.cancel 5 sampleOrder sampleStore
    = (OrderRoutes.OrderCancelled, Order.setStatus Order.cancelled sampleOrder, sampleStore) /\
  Order.escrowStatus (snd (fst (OrderRoutes.cancel 5 sampleOrder sampleStore))) = Order.held /\
  snd (Admin.updateOrderStatus 6 Order.delivered
         (snd (fst (OrderRoutes.cancel 5 sampleOrder sampleStore))) sampleStore)
    = snd (Admin.releaseEscrow 6 sampleOrder sampleStore).
Proof.
  destruct (cancel_keeps_escrow 5 6 sampleOrder sampleStore)
    as (H0 & _ & _ & H2 & _ & _ & _ & _ & H3); try reflexivity.
  split; [exact (H0 eq_refl)|]. split; [exact H2|exact H3].
Defined.

(** The cancelled sample order, released by the admin: both vendors are
    credited their shares. *)
Example cancelled_order_paid_out :
  (VendorBalance.availableBalance <$>
     snd (Admin.releaseEscrow 6 (Order.setStatus Order.cancelled sampleOrder) sampleStore)
       !! vendorA) = Some 80%float /\
  (VendorBalance.availableBalance <$>
     snd (Admin.releaseEscrow 6 (Order.setStatus Order.cancelled sampleOrder) sampleStore)
       !! vendorB) = Some 40%float.
Proof. split; vm_compute; reflexivity. Qed.

(** ** Stock *)
Section Stock.
Import Inventory.

Lemma reserve_app (pre rest : list RequestItem) :
  forall acc s ois s1,
    reserve pre acc s = (Reserved ois, s1) ->
    reserve (pre ++ rest) acc s = reserve rest ois s1.
Proof.
  induction pre as [|item pre IH]; intros acc s ois s1 H.
  - cbn in H. injection H as <- <-. reflexivity.
  - cbn [reserve app] in *. destruct (s !! productId item) as [product|]; [|discriminate].
    destruct (quantity product <? reqQuantity item); [discriminate|].
    apply IH. exact H.
Qed.

Lemma reserve_inStock (items : list RequestItem) :
  forall acc s, inStock s -> inStock (snd (reserve items acc s)).
Proof.
  induction items as [|item rest IH]; intros acc s Hs; [exact Hs|].
  cbn [reserve]. destruct (s !! productId item) as [product|] eqn:Hp; [|exact Hs].
  destruct (Z.ltb_spec (quantity product) (reqQuantity item)); [exact Hs|].
  apply IH. intros k p Hk. destruct (decide (productId item = k)) as [Heq|Hne].
  - rewrite Heq, lookup_insert_eq in Hk. injection Hk as <-. cbn. lia.
  - rewrite lookup_insert_ne in Hk by exact Hne. exact (Hs k p Hk).
Qed.

Lemma fromProduct_insert (s : store) (k : ObjectId) (product : Product) (q : Z)
    (item : RequestItem) (orderItem : OrderItem) :
  s !! k = Some product ->
  fromProduct (<[k := setQuantity q product]> s) item orderItem ->
  fromProduct s item orderItem.
Proof.
  intros Hk (H1 & H2 & p & Hp & H3 & H4). split; [exact H1|]. split; [exact H2|].
  destruct (decide (k = productId item)) as [Heq|Hne].
  - rewrite <- Heq, lookup_insert_eq in Hp. injection Hp as <-.
    exists product. rewrite <- Heq. auto.
  - rewrite lookup_insert_ne in Hp by exact Hne. exists p. auto.
Qed.

Lemma reserve_Reserved (items : list RequestItem) :
  forall acc s ois s',
    reserve items acc s = (Reserved ois, s') ->
    exists new,
      ois = (acc ++ new)%list /\
      Forall2 (fromProduct s) items new /\
      forall k, s' !! k
                = (fun p => setQuantity (quantity p - requested k items) p) <$> s !! k.
Proof.
  induction items as [|item rest IH]; intros acc s ois s' H.
  - cbn in H. injection H as <- <-. exists []. rewrite app_nil_r.
    split; [reflexivity|]. split; [constructor|].
    intros k. cbn [requested]. destruct (s !! k) as [[? ? ? q]|]; cbn; [|reflexivity].
    unfold setQuantity. cbn. do 2 f_equal; lia.
  - cbn [reserve] in H. destruct (s !! productId item) as [product|] eqn:Hp; [|discriminate].
    destruct (quantity product <? reqQuantity item); [discriminate|].
    apply IH in H as (new & Hois & Hall & Hlook).
    eexists (_ :: new). split; [rewrite Hois, <- app_assoc; reflexivity|]. split.
    + constructor.
      * split; [reflexivity|]. split; [reflexivity|]. exists product. auto.
      * eapply Forall2_impl; [exact Hall|]. intros x y. apply fromProduct_insert. exact Hp.
    + intros k. rewrite Hlook. cbn [requested].
      destruct (String.eqb_spec (productId item) k) as [Heq|Hne].
      * rewrite <- Heq, lookup_insert_eq, Hp. cbn. unfold setQuantity. cbn.
        do 2 f_equal; lia.
      * rewrite lookup_insert_ne by exact Hne.
        destruct (s !! k); cbn; [|reflexivity]. do 2 f_equal; lia.
Qed.

Lemma restore_lookup (items : list OrderItem) :
  forall s k,
    restore items s !! k
    = (fun p => setQuantity (quantity p + ordered k items) p) <$> s !! k.
Proof.
  induction items as [|item rest IH]; intros s k.
  - cbn. destruct (s !! k) as [[? ? ? q]|]; cbn; [|reflexivity].
    unfold setQuantity. cbn. do 2 f_equal; lia.
  - change (restore (item :: rest) s) with (restore rest (restoreStep s item)).
    rewrite IH. unfold restoreStep. cbn [ordered].
    destruct (String.eqb_spec (itemProduct item) k) as [Heq|Hne].
    + rewrite Heq. destruct (s !! k) as [p|] eqn:Hk.
      * rewrite lookup_insert_eq. cbn. unfold setQuantity. cbn. do 2 f_equal; lia.
      * rewrite Hk. reflexivity.
    + destruct (s !! itemProduct item) as [p|].
      * rewrite lookup_insert_ne by exact Hne.
        destruct (s !! k); cbn; [|reflexivity]. do 2 f_equal; lia.
      * destruct (s !! k); cbn; [|reflexivity]. do 2 f_equal; lia.
Qed.

Lemma ordered_requested (s : store) (k : ObjectId) (items : list RequestItem)
    (ois : list OrderItem) :
  Forall2 (fromProduct s) items ois -> ordered k ois = requested k items.
Proof.
  induction 1 as [|item oi items ois (H1 & H2 & _) _ IH]; [reflexivity|].
  cbn [ordered requested]. rewrite H1, H2, IH. reflexivity.
Qed.

End Stock.


(** The sample basket on the sample stock: three line items with the
    products' prices and vendors; a basket that asks for more than there is
    leaves the stock without negative quantities. *)
Example reserve_sample_basket :
  fst (Inventory.reserve sampleBasket [] sampleStock)
  = Inventory.Reserved
      [ Inventory.mkOrderItem "p1" 2 25 vendorA; Inventory.mkOrderItem "p2" 1 40 vendorB;
        Inventory.mkOrderItem "p1" 3 25 vendorA ] /\
  (Inventory.quantity <$> snd (Inventory.reserve sampleBasket [] sampleStock) !! "p1")
  = Some 0 /\
  (Inventory.quantity <$>
     snd (Inventory.reserve [Inventory.mkRequestItem "p1" 2; Inventory.mkRequestItem "p1" 4]
            [] sampleStock) !! "p1")
  = Some 3.
Proof. repeat split; vm_compute; reflexivity. Qed.





(** ** The helpers of the vault *)
Section GeneratedKey.
Import Vault.

Lemma allChars_byteToHex (b : byte) (s : string) :
  allChars isHexChar (byteToHex b ++ s) = allChars isHexChar s.
Proof. destruct b; reflexivity. Qed.

Lemma length_byteToHex (b : byte) (s : string) :
  String.length (byteToHex b ++ s) = S (S (String.length s)).
Proof. destruct b; reflexivity. Qed.

Lemma toHex_hex (bytes : list byte) : allChars isHexChar (toHex bytes) = true.
Proof.
  induction bytes as [|b rest IH]; [reflexivity|].
  cbn [toHex]. rewrite allChars_byteToHex. exact IH.
Qed.

Lemma toHex_length (bytes : list byte) :
  String.length (toHex bytes) = (2 * length bytes)%nat.
Proof.
  induction bytes as [|b rest IH]; [reflexivity|].
  cbn [toHex length]. rewrite length_byteToHex, IH. lia.
Qed.

End GeneratedKey.

(** X20. A key made by generateEncryptionKey from 32 random bytes is 64
    lower-case hexadecimal digits that read back as those bytes: it passes
    isValidEncryptionKey and the start-up length check of the module, and
    with it every non-empty text, encrypted under any 16-byte IV, decrypts to
    itself. *)
Theorem generated_key_works `{C : Vault.AesCbc} (randomBytes iv : list byte) (x : string) :
  length randomBytes = 32%nat ->
  length iv = 16%nat ->
  x <> "" ->
  Vault.isValidEncryptionKey (Encryption.generateEncryptionKey randomBytes) = true /\
  Vault.keyLoads (Some (Encryption.generateEncryptionKey randomBytes)) = true /\
  Vault.fromHex (Encryption.generateEncryptionKey randomBytes) = randomBytes /\
  Vault.decryptEncrypted (Encryption.generateEncryptionKey randomBytes) iv (Vault.Str x)
    = Vault.Value (Vault.Str x).
Proof.
  intros Hlen Hiv Hx. unfold Encryption.generateEncryptionKey.
  assert (Hvalid : Vault.isValidEncryptionKey (Vault.toHex randomBytes) = true).
  { unfold Vault.isValidEncryptionKey.
    rewrite toHex_hex, toHex_length, Hlen, isEmpty_toHex; [reflexivity|].
    intros ->. discriminate. }
  split; [exact Hvalid|]. split.
  - unfold Vault.keyLoads. rewrite toHex_length, Hlen. reflexivity.
  - split; [apply fromHex_toHex|]. apply decryptEncrypted_nonempty; assumption.
Qed.

Lemma generated_key_works_witness :
  Vault.isValidEncryptionKey (Encryption.generateEncryptionKey (Vault.fromHex sampleKey))
    = true /\
  Vault.decryptEncrypted (C := paddingOnly)
    (Encryption.generateEncryptionKey (Vault.fromHex sampleKey)) sampleIv
    (Vault.Str unicodeText)
  = Vault.Value (Vault.Str unicodeText).
Proof.
  destruct (generated_key_works (C := paddingOnly) (Vault.fromHex sampleKey) sampleIv
              unicodeText eq_refl eq_refl) as (H1 & _ & _ & H2); [discriminate|].
  split; [exact H1|exact H2].
Defined.

Section CardDigits.
Import Vault Encryption.

Lemma cardChar_cases (c : ascii) :
  cardChar c = true ->
  c = " "%char
  \/ (asciiSpace c = false /\
      (forall b, twoByteSpace c b = false) /\
      (forall a b, threeByteSpace c a b = false)).
Proof.
  destruct c as [[] [] [] [] [] [] [] []]; try discriminate; intros _;
    first [left; reflexivity | right; split; [reflexivity|split; reflexivity]].
Qed.

Lemma removeWhitespace_keep (a : ascii) (rest : string) :
  asciiSpace a = false ->
  (forall b, twoByteSpace a b = false) ->
  (forall b c, threeByteSpace a b c = false) ->
  removeWhitespace (String a rest) = String a (removeWhitespace rest).
Proof.
  intros H1 H2 H3. cbn [removeWhitespace]. rewrite H1.
  destruct rest as [|b r2]; [reflexivity|]. rewrite H2.
  destruct r2 as [|c r3]; [reflexivity|]. rewrite H3. reflexivity.
Qed.

Lemma cleanNumber_cardChars (s : string) :
  allChars cardChar s = true -> cleanNumber s = digitsOnly s.
Proof.
  unfold cleanNumber. induction s as [|c rest IH]; [reflexivity|].
  cbn [allChars]. intros H. apply andb_prop in H as [Hc Hrest].
  specialize (IH Hrest).
  destruct (cardChar_cases c Hc) as [->|(H1 & H2 & H3)].
  - cbn [removeWhitespace digitsOnly]. exact IH.
  - rewrite removeWhitespace_keep by assumption. cbn [removeDashes digitsOnly].
    unfold cardChar in Hc. destruct (Ascii.eqb_spec c "-") as [->|Hd].
    + exact IH.
    + destruct (isDigit c) eqn:Hdig.
      * rewrite IH. reflexivity.
      * exfalso. cbn [orb] in Hc. destruct (Ascii.eqb_spec c " ") as [->|]; discriminate.
Qed.

Lemma digitsOnly_digits (s : string) : allChars isDigit s = true -> digitsOnly s = s.
Proof.
  induction s as [|c rest IH]; [reflexivity|]. cbn [allChars digitsOnly].
  intros H. apply andb_prop in H as [Hc Hrest]. rewrite Hc, (IH Hrest). reflexivity.
Qed.

Lemma digits_cardChars (s : string) :
  allChars isDigit s = true -> allChars cardChar s = true.
Proof.
  induction s as [|c rest IH]; [reflexivity|]. cbn [allChars].
  intros H. apply andb_prop in H as [Hc Hrest]. unfold cardChar at 1.
  rewrite Hc, (IH Hrest). reflexivity.
Qed.

Lemma cleanNumber_digits (s : string) : allChars isDigit s = true -> cleanNumber s = s.
Proof.
  intros H. rewrite (cleanNumber_cardChars s (digits_cardChars s H)).
  apply digitsOnly_digits, H.
Qed.

End CardDigits.

(** X21. A card number typed with spaces and dashes is judged by its digits
    alone: two non-empty inputs made of digits, spaces and dashes that have
    the same digits in the same order get the same verdict from
    validateCardNumber, whatever the grouping and in every NODE_ENV; and the
    verdict is the one of the bare digits. *)
Theorem separators_do_not_matter (env : option string) (s t : string) :
  Vault.allChars Encryption.cardChar s = true ->
  Vault.allChars Encryption.cardChar t = true ->
  s <> "" -> t <> "" ->
  Encryption.digitsOnly s = Encryption.digitsOnly t ->
  Vault.validateCardNumber env s = Vault.validateCardNumber env t /\
  Vault.validateCardNumber env s
    = Vault.isCardDigits (Encryption.digitsOnly s) && Vault.luhnValid (Encryption.digitsOnly s).
Proof.
  intros Hs Ht Hse Hte Heq.
  rewrite !validateCardNumber_luhn.
  rewrite (cleanNumber_cardChars s Hs), (cleanNumber_cardChars t Ht), Heq.
  destruct s; [congruence|]. destruct t; [congruence|]. split; reflexivity.
Qed.

Lemma separators_do_not_matter_witness :
  Vault.validateCardNumber (Some "production") "4111 1111 1111 1111"
  = Vault.validateCardNumber (Some "production") "4111-11111111-1111".
Proof.
  refine (proj1 (separators_do_not_matter (Some "production")
                   "4111 1111 1111 1111" "4111-11111111-1111" _ _ _ _ _));
    try reflexivity; discriminate.
Defined.

Section LuhnErrors.
Import Vault Encryption.

Lemma list_ascii_of_string_app (s t : string) :
  list_ascii_of_string (s ++ t)
  = (list_ascii_of_string s ++ list_ascii_of_string t)%list.
Proof.
  induction s as [|c rest IH]; [reflexivity|].
  change (String c rest ++ t)%string with (String c (rest ++ t)).
  cbn [list_ascii_of_string app]. rewrite IH. reflexivity.
Qed.

Lemma luhnSum_app (l1 l2 : list Z) :
  forall position,
    luhnSum position (l1 ++ l2)
    = luhnSum position l1 + luhnSum (position + length l1) l2.
Proof.
  induction l1 as [|d rest IH]; intros position; cbn [luhnSum app length].
  - rewrite Nat.add_0_r. lia.
  - rewrite IH. replace (S position + length rest)%nat with (position + S (length rest))%nat
      by lia. lia.
Qed.

Lemma digitOf_range (c : ascii) : isDigit c = true -> 0 <= digitOf c <= 9.
Proof.
  unfold isDigit, digitOf. intros H. apply andb_prop in H as [H1 H2].
  apply N.leb_le in H1, H2. lia.
Qed.

Lemma digitOf_inj (c d : ascii) : digitOf c = digitOf d -> c = d.
Proof.
  unfold digitOf, code. intros H.
  assert (Hn : N_of_ascii c = N_of_ascii d) by lia.
  rewrite <- (ascii_N_embedding c), <- (ascii_N_embedding d), Hn. reflexivity.
Qed.

Lemma luhnDigit_distinct (position : nat) (x y : Z) :
  0 <= x <= 9 -> 0 <= y <= 9 -> x <> y ->
  (luhnDigit position x - luhnDigit position y) mod 10 <> 0.
Proof.
  intros Hx Hy Hne. unfold luhnDigit.
  destruct (Nat.odd position);
    [destruct (Z.ltb_spec 9 (2 * x)), (Z.ltb_spec 9 (2 * y))|];
    intros Hm; apply Z.mod_divide in Hm; try lia;
    destruct Hm as [k Hk]; lia.
Qed.

Lemma allChars_app (p : ascii -> bool) (s t : string) :
  allChars p (s ++ t) = allChars p s && allChars p t.
Proof.
  induction s as [|c rest IH]; [reflexivity|].
  change (String c rest ++ t)%string with (String c (rest ++ t)).
  cbn [allChars]. rewrite IH, andb_assoc. reflexivity.
Qed.

Lemma length_app_string (s t : string) :
  String.length (s ++ t) = (String.length s + String.length t)%nat.
Proof.
  induction s as [|c rest IH]; [reflexivity|].
  change (String c rest ++ t)%string with (String c (rest ++ t)).
  cbn [String.length]. rewrite IH. reflexivity.
Qed.

(** The checksum of a number, split at one of its digits. *)
Lemma luhnSum_split (pre post : string) (c : ascii) :
  luhnSum 0 (map digitOf (rev (list_ascii_of_string (pre ++ String c post))))
  = luhnSum 0 (map digitOf (rev (list_ascii_of_string post)))
    + luhnDigit (String.length post) (digitOf c)
    + luhnSum (S (String.length post)) (map digitOf (rev (list_ascii_of_string pre))).
Proof.
  rewrite list_ascii_of_string_app. cbn [list_ascii_of_string].
  rewrite rev_app_distr. cbn [rev]. rewrite <- app_assoc. cbn [app].
  rewrite map_app, luhnSum_app. cbn [map luhnSum].
  rewrite length_map, length_rev. cbn [Nat.add].
  replace (length (list_ascii_of_string post)) with (String.length post).
  - lia.
  - clear. induction post as [|a rest IH]; [reflexivity|]. cbn. rewrite IH. reflexivity.
Qed.

End LuhnErrors.

(** X22. The checksum catches every single wrong digit: when a number made
    of digits only is accepted by validateCardNumber, the number obtained by
    replacing any one of its digits by a different digit is rejected, in
    every NODE_ENV (none of the allow-listed test numbers is one digit away
    from an accepted number). *)
Theorem one_wrong_digit_is_rejected (env : option string) (pre post : string) (c d : ascii) :
  Vault.allChars Vault.isDigit (pre ++ String c post) = true ->
  Vault.isDigit d = true ->
  d <> c ->
  Vault.validateCardNumber env (pre ++ String c post) = true ->
  Vault.validateCardNumber env (pre ++ String d post) = false.
Proof.
  intros Hdigits Hd Hne Hvalid.
  assert (Hdigits' : Vault.allChars Vault.isDigit (pre ++ String d post) = true).
  { rewrite allChars_app in *. cbn [Vault.allChars] in *.
    apply andb_prop in Hdigits as [H1 H2]. apply andb_prop in H2 as [_ H3].
    rewrite H1, Hd, H3. reflexivity. }
  assert (Hc : Vault.isDigit c = true).
  { rewrite allChars_app in Hdigits. cbn [Vault.allChars] in Hdigits.
    apply andb_prop in Hdigits as [_ H2]. apply andb_prop in H2 as [H2 _]. exact H2. }
  rewrite validateCardNumber_luhn in *.
  rewrite (cleanNumber_digits _ Hdigits) in Hvalid. rewrite (cleanNumber_digits _ Hdigits').
  apply andb_prop in Hvalid as [_ Hluhn].
  apply luhnValid_passesLuhn in Hluhn. unfold Vault.passesLuhn in Hluhn.
  rewrite luhnSum_split in Hluhn.
  assert (Hbad : Vault.luhnValid (pre ++ String d post) = false).
  { destruct (Vault.luhnValid (pre ++ String d post)) eqn:E; [|reflexivity]. exfalso.
    apply luhnValid_passesLuhn in E. unfold Vault.passesLuhn in E.
    rewrite luhnSum_split in E.
    apply (luhnDigit_distinct (String.length post) (Vault.digitOf d) (Vault.digitOf c)).
    - apply digitOf_range, Hd.
    - apply digitOf_range, Hc.
    - intros H. apply Hne. apply digitOf_inj, H.
    - apply Z.mod_divide in Hluhn; [|lia]. apply Z.mod_divide in E; [|lia].
      apply Z.mod_divide; [lia|].
      destruct Hluhn as [k1 Hk1]. destruct E as [k2 Hk2]. exists (k2 - k1). lia. }
  rewrite Hbad. apply andb_false_r.
Qed.

Lemma one_wrong_digit_is_rejected_witness :
  Vault.validateCardNumber (Some "development") ("411111111111111" ++ String "2" "") = false.
Proof.
  refine (one_wrong_digit_is_rejected (Some "development") "411111111111111" ""
            "1" "2" _ _ _ _); try reflexivity.
  discriminate.
Defined.


Section Masking.
Import Vault Encryption.

Lemma sliceLast_app (pre last : codeUnits) :
  sliceLast (length last) (pre ++ last) = last.
Proof.
  unfold sliceLast. rewrite length_app.
  replace (length pre + length last - length last)%nat with (length pre) by lia.
  apply drop_app_length.
Qed.

End Masking.

(** X23. What maskSensitiveData lets through, the text being measured and
    cut in UTF-16 code units.  Of a card number of more than four code units
    only the last four appear, after a fixed prefix, so two numbers with the
    same last four code units have the same mask; a shorter number gives four
    asterisks; a CVV always gives three asterisks; a missing or empty text
    gives the empty string under every type. *)
Theorem mask_shows_last_four_only (pre last : Encryption.codeUnits) :
  pre <> [] ->
  length last = 4%nat ->
  Encryption.maskSensitiveData (Some (pre ++ last)%list) "card"
    = (Encryption.ofAscii "**** **** **** " ++ last)%list /\
  (forall pre', pre' <> [] ->
     Encryption.maskSensitiveData (Some (pre' ++ last)%list) "card"
     = Encryption.maskSensitiveData (Some (pre ++ last)%list) "card") /\
  (forall text, text <> [] -> (length text <= 4)%nat ->
     Encryption.maskSensitiveData (Some text) "card" = Encryption.ofAscii "****") /\
  (forall text, text <> [] ->
     Encryption.maskSensitiveData (Some text) "cvv" = Encryption.ofAscii "***") /\
  (forall type,
     Encryption.maskSensitiveData (Some []) type = [] /\
     Encryption.maskSensitiveData None type = []).
Proof.
  intros Hpre Hlast.
  assert (Hcard : forall p, p <> [] ->
            Encryption.maskSensitiveData (Some (p ++ last)%list) "card"
            = (Encryption.ofAscii "**** **** **** " ++ last)%list).
  { intros p Hp. unfold Encryption.maskSensitiveData.
    destruct p as [|c rest]; [congruence|].
    change ((c :: rest) ++ last)%list with (c :: (rest ++ last))%list.
    cbn [String.eqb Ascii.eqb Bool.eqb].
    change (c :: (rest ++ last))%list with ((c :: rest) ++ last)%list.
    rewrite length_app, Hlast. cbn [length].
    destruct (Nat.ltb_spec 4 (S (length rest) + 4)); [|lia].
    rewrite <- Hlast at 1. rewrite sliceLast_app. reflexivity. }
  split; [apply Hcard, Hpre|]. split.
  - intros pre' Hpre'. rewrite !Hcard by assumption. reflexivity.
  - split; [|split].
    + intros text Hne Hlen. unfold Encryption.maskSensitiveData.
      destruct text as [|c rest]; [congruence|].
      cbn [String.eqb Ascii.eqb Bool.eqb].
      destruct (Nat.ltb_spec 4 (length (c :: rest))); [lia|reflexivity].
    + intros text Hne. unfold Encryption.maskSensitiveData.
      destruct text as [|c rest]; [congruence|]. reflexivity.
    + intros type. split; reflexivity.
Qed.

Lemma mask_shows_last_four_only_witness :
  Encryption.maskSensitiveData
    (Some (Encryption.ofAscii "411111111111" ++ Encryption.ofAscii "1234")%list) "card"
  = (Encryption.ofAscii "**** **** **** " ++ Encryption.ofAscii "1234")%list.
Proof.
  refine (proj1 (mask_shows_last_four_only (Encryption.ofAscii "411111111111")
                   (Encryption.ofAscii "1234") _ _));
    [discriminate|reflexivity].
Defined.

(** A text outside the ASCII range: one character of two code units at the
    end of a card number is cut in the middle of nothing, the last four code
    units being shown as they are. *)
Example mask_counts_code_units :
  Encryption.maskSensitiveData (Some [52; 49; 49; 55357; 56832]%N) "card"
  = (Encryption.ofAscii "**** **** **** " ++ [49; 49; 55357; 56832]%N)%list /\
  Encryption.maskSensitiveData (Some [52; 55357; 56832]%N) "card"
  = Encryption.ofAscii "****".
Proof. split; reflexivity. Qed.

Section Expiry.
Import Vault Encryption.

Lemma digit_facts (c : ascii) :
  isDigit c = true ->
  digitIn 10 c = Some (digitOf c) /\
  asciiSpace c = false /\
  (forall b, twoByteSpace c b = false) /\
  (forall a b, threeByteSpace c a b = false) /\
  c <> "-"%char /\ c <> "+"%char /\ c <> "x"%char /\ c <> "X"%char.
Proof.
  destruct c as [[] [] [] [] [] [] [] []]; try discriminate; intros _;
    repeat split; try reflexivity; discriminate.
Qed.

Lemma digitsValue_digits (s : string) :
  forall a,
    allChars isDigit s = true ->
    digitsValue 10 s (Some a)
    = Some (fold_left (fun acc c => 10 * acc + digitOf c) (list_ascii_of_string s) a).
Proof.
  induction s as [|c rest IH]; intros a H; [reflexivity|].
  cbn [allChars] in H. apply andb_prop in H as [Hc Hrest].
  cbn [digitsValue list_ascii_of_string fold_left].
  rewrite (proj1 (digit_facts c Hc)). cbn [default]. apply IH, Hrest.
Qed.

Lemma trimStart_digit (c : ascii) (rest : string) :
  isDigit c = true -> Text.trimStart (String c rest) = String c rest.
Proof.
  intros Hc. destruct (digit_facts c Hc) as (_ & H1 & H2 & H3 & _).
  cbn [Text.trimStart]. rewrite H1. destruct rest as [|b r2]; [reflexivity|].
  rewrite H2. destruct r2 as [|d r3]; [reflexivity|]. rewrite H3. reflexivity.
Qed.

Lemma parseInt_digits (s : string) :
  s <> "" -> allChars isDigit s = true -> parseInt s = Some (decimalValue s).
Proof.
  intros Hne H. destruct s as [|c rest]; [congruence|].
  pose proof H as Hall. cbn [allChars] in H. apply andb_prop in H as [Hc Hrest].
  destruct (digit_facts c Hc) as (Hd & _ & _ & _ & Hm & Hp & _).
  unfold parseInt. rewrite (trimStart_digit c rest Hc).
  assert (Hsign : match String c rest with
                  | String "-" r => (-1, r)
                  | String "+" r => (1, r)
                  | _ => (1, String c rest)
                  end = (1, String c rest)).
  { destruct c as [[] [] [] [] [] [] [] []]; try reflexivity; congruence. }
  rewrite Hsign.
  assert (Hradix : match String c rest with
                   | String "0" (String x r) =>
                       if Ascii.eqb x "x" || Ascii.eqb x "X" then (16, r)
                       else (10, String c rest)
                   | _ => (10, String c rest)
                   end = (10, String c rest)).
  { destruct rest as [|x r].
    - destruct c as [[] [] [] [] [] [] [] []]; reflexivity.
    - cbn [allChars] in Hrest. apply andb_prop in Hrest as [Hx _].
      destruct (digit_facts x Hx) as (_ & _ & _ & _ & _ & _ & Hx1 & Hx2).
      apply Ascii.eqb_neq in Hx1, Hx2. rewrite Hx1, Hx2.
      destruct c as [[] [] [] [] [] [] [] []]; reflexivity. }
  rewrite Hradix. cbn [digitsValue]. rewrite Hd. cbn [default].
  rewrite (digitsValue_digits rest _ Hrest). cbn [fmap option_fmap option_map].
  unfold decimalValue. cbn [list_ascii_of_string fold_left]. f_equal.
  destruct (fold_left _ _ _); reflexivity.
Qed.

End Expiry.

(** X24. validateExpiryDate on a month and a year written in decimal
    digits.  With M and Y the numbers they denote, and a year below 100 read
    as 2000 + Y, the date is accepted exactly when 1 <= M <= 12 and the expiry
    year is after the current year, or is the current year with M not before
    the current month: a card expiring in the current month is still
    accepted. *)
Theorem validateExpiryDate_decimal (currentYear currentMonth : Z) (month year : string) :
  month <> "" -> year <> "" ->
  Vault.allChars Vault.isDigit month = true ->
  Vault.allChars Vault.isDigit year = true ->
  (Encryption.validateExpiryDate currentYear currentMonth month year = true <->
   1 <= Encryption.decimalValue month <= 12 /\
   Encryption.notLater currentYear currentMonth
     (if Encryption.decimalValue year <? 100
      then Encryption.decimalValue year + 2000 else Encryption.decimalValue year)
     (Encryption.decimalValue month)).
Proof.
  intros Hm Hy Hmd Hyd. unfold Encryption.validateExpiryDate, Encryption.notLater.
  rewrite (parseInt_digits month Hm Hmd), (parseInt_digits year Hy Hyd).
  assert (He : Vault.isEmpty month || Vault.isEmpty year = false)
    by (destruct month; [congruence|]; destruct year; [congruence|reflexivity]).
  rewrite He. cbn [Encryption.ltNumber Encryption.eqNumber].
  set (M := Encryption.decimalValue month).
  set (Y := if Encryption.decimalValue year <? 100 then _ else _).
  clearbody M Y.
  destruct (Z.ltb_spec Y currentYear), (Z.eqb_spec Y currentYear),
    (Z.ltb_spec M currentMonth), (Z.ltb_spec M 1), (Z.ltb_spec 12 M);
    cbn [andb orb];
    (split; [first [intros Hf; discriminate Hf | intros _; lia]
            |first [intros _; reflexivity | intros Hf; exfalso; lia]]).
Qed.

Lemma validateExpiryDate_decimal_witness :
  Encryption.validateExpiryDate 2026 11 "11" "26" = true <->
  1 <= Encryption.decimalValue "11" <= 12 /\
  Encryption.notLater 2026 11
    (if Encryption.decimalValue "26" <? 100
     then Encryption.decimalValue "26" + 2000 else Encryption.decimalValue "26")
    (Encryption.decimalValue "11").
Proof.
  refine (validateExpiryDate_decimal 2026 11 "11" "26" _ _ _ _);
    try reflexivity; discriminate.
Defined.

(** X25. An expiry date that is rejected stays rejected: if
    validateExpiryDate accepts a month and a year at some date, it accepts
    them at every earlier date, for all inputs (also those that parseInt does
    not read as numbers). *)
Theorem validateExpiryDate_earlier (year' month' currentYear currentMonth : Z)
    (month year : string) :
  Encryption.notLater year' month' currentYear currentMonth ->
  Encryption.validateExpiryDate currentYear currentMonth month year = true ->
  Encryption.validateExpiryDate year' month' month year = true.
Proof.
  unfold Encryption.notLater, Encryption.validateExpiryDate. intros Hearlier.
  destruct (Vault.isEmpty month || Vault.isEmpty year); [discriminate|].
  destruct (Encryption.parseInt year) as [y|], (Encryption.parseInt month) as [m|];
    cbn [Encryption.ltNumber Encryption.eqNumber andb orb];
    rewrite ?andb_false_r; cbn [andb orb]; try (intros; assumption).
  - set (Y := if y <? 100 then y + 2000 else y).
    destruct (Z.ltb_spec Y currentYear); [discriminate|].
    destruct (Z.eqb_spec Y currentYear), (Z.ltb_spec m currentMonth);
      cbn [andb]; try discriminate;
      (destruct (Z.ltb_spec m 1), (Z.ltb_spec 12 m); cbn [orb]; try discriminate);
      intros _;
      (destruct (Z.ltb_spec Y year'); [lia|]);
      (destruct (Z.eqb_spec Y year'), (Z.ltb_spec m month'); cbn [andb]; try lia);
      reflexivity.
  - set (Y := if y <? 100 then y + 2000 else y).
    destruct (Z.ltb_spec Y currentYear); [discriminate|]. intros _.
    destruct (Z.ltb_spec Y year'); [lia|reflexivity].
Qed.

Lemma validateExpiryDate_earlier_witness :
  Encryption.validateExpiryDate 2025 3 "11" "26" = true.
Proof.
  refine (validateExpiryDate_earlier 2025 3 2026 11 "11" "26" _ _).
  - left. lia.
  - reflexivity.
Defined.

(** ** Order numbers *)
Section OrderNumbers.
Import OrderNumber.

Lemma append_inj_l (s a b : string) : (s ++ a = s ++ b)%string -> a = b.
Proof.
  induction s as [|c rest IH]; [intros H; exact H|].
  change (String c rest ++ a)%string with (String c (rest ++ a)).
  change (String c rest ++ b)%string with (String c (rest ++ b)).
  intros [= H]. apply IH, H.
Qed.

Lemma readNumber_zeros (k : nat) (s : string) :
  readNumber (repeatChar k "0" ++ s) = readNumber s.
Proof.
  induction k as [|k IH]; [reflexivity|].
  cbn [repeatChar].
  change (String "0" (repeatChar k "0") ++ s)%string
    with (String "0" (repeatChar k "0" ++ s)).
  unfold readNumber in *. cbn [NilEmpty.uint_of_string]. rewrite <- IH.
  destruct (NilEmpty.uint_of_string (repeatChar k "0" ++ s)) as [d|]; reflexivity.
Qed.

Lemma readNumber_toString (n : N) : readNumber (toString n) = Some n.
Proof.
  unfold readNumber, toString. rewrite NilEmpty.usu. cbn.
  rewrite DecimalN.Unsigned.of_to. reflexivity.
Qed.

Lemma readNumber_padStart (targetLength : nat) (n : N) :
  readNumber (padStart targetLength "0" (toString n)) = Some n.
Proof. unfold padStart. rewrite readNumber_zeros. apply readNumber_toString. Qed.

End OrderNumbers.

